(** * Bolt Support Insights dashboard (Legacy/dashboard.py)

    A shallow embedding of the dashboard's data path: [load_data], the
    sidebar filters, [create_summary_metrics], the chart helpers, the
    Category Breakdown and Recent Issues tables, the CSV export, and [main]
    as a function from the file system and the widget state to the list of
    page elements it emits.

    The dataframe library is embedded at the level the script uses it: a
    frame is a list of column labels and a list of rows, a row maps a
    column label to a cell, a cell is missing ([NaN], which also stands for
    NaT), a string, or a timestamp.  A CSV file is its text, which the
    tokenizer of [read_csv] cuts into records and the writer of [to_csv]
    puts together.  A widget call puts
    an element on the page and returns what the user chose, which [main]
    receives as a [Session].

    Left out: the page configuration and the style sheet that the module
    sets before [main] runs, the layout columns, the styling of the charts
    (a figure is the data it plots), and the memoisation of [load_data],
    which returns what the function returns.

    Where what the libraries do depends on their version or on the type
    that [read_csv] infers for a column, the definition concerned says
    which case it follows, and the properties that depend on it carry the
    case as a hypothesis. *)

From Stdlib Require Import List String Ascii Bool Arith ZArith QArith Lia
  Permutation Sorted DecimalString.
Import ListNotations.
Local Open Scope string_scope.
Local Open Scope nat_scope.

(** ** Exceptions and the error monad *)

Inductive exn :=
| FileNotFoundError (path : string)
| EmptyDataError
| ParserError
| KeyError (key : string)
| TypeError
| ValueError (msg : string)
| ZeroDivisionError.

Inductive result (A : Type) :=
| Ok (a : A)
| Raise (e : exn).
Arguments Ok {A} a.
Arguments Raise {A} e.

Definition bind {A B} (c : result A) (k : A -> result B) : result B :=
  match c with
  | Ok a => k a
  | Raise e => Raise e
  end.

Declare Scope py_scope.
Delimit Scope py_scope with py.
Notation "x <- c ;; k" := (bind c (fun x => k))
  (at level 61, c at next level, right associativity) : py_scope.
Local Open Scope py_scope.

(** [str(e)] as it appears in the message of [st.error]: for a
    tokenising error and a type error the first words of the message, for
    a key error the message of a key without quotes. *)
Definition exn_message (e : exn) : string :=
  match e with
  | FileNotFoundError p => "[Errno 2] No such file or directory: '" ++ p ++ "'"
  | EmptyDataError => "No columns to parse from file"
  | ParserError => "Error tokenizing data"
  | KeyError k => "'" ++ k ++ "'"
  | TypeError => "'<' not supported between instances"
  | ValueError msg => msg
  | ZeroDivisionError => "division by zero"
  end.

(** ** Timestamps *)

Record Timestamp := mkTimestamp {
  ts_year : nat; ts_month : nat; ts_day : nat; ts_hour : nat; ts_minute : nat
}.

(** A key that orders timestamps as the calendar does, for fields within
    their calendar ranges. *)
Definition ts_key (t : Timestamp) : Z :=
  (Z.of_nat (ts_minute t)
   + 60 * (Z.of_nat (ts_hour t)
   + 24 * (Z.of_nat (ts_day t)
   + 32 * (Z.of_nat (ts_month t)
   + 13 * Z.of_nat (ts_year t)))))%Z.

Definition is_leap (y : nat) : bool :=
  ((y mod 4 =? 0) && negb (y mod 100 =? 0)) || (y mod 400 =? 0).

Definition days_in_month (y m : nat) : nat :=
  match m with
  | 2 => if is_leap y then 29 else 28
  | 4 | 6 | 9 | 11 => 30
  | _ => 31
  end.

(** *** Parsing with the format '%d/%m/%Y %H:%M'

    The format is compiled to a regular expression, one group per
    directive, and the text is matched against it character by character:
    [\d] is any decimal digit of Unicode, [\s] any blank of Unicode, a
    class such as [[1-9]] holds ASCII digits only.  A blank in the format
    matches one or more blanks, and the match has to consume the whole
    text.  The groups are then read as integers and have to make a date
    of the calendar. *)

(** The characters of a text in UTF-8; [None] for bytes that are not
    UTF-8. *)
Definition continuation (c : ascii) : option N :=
  let n := N_of_ascii c in
  if ((128 <=? n) && (n <? 192))%N then Some (n - 128)%N else None.

Fixpoint decode_utf8 (s : list ascii) : option (list N) :=
  match s with
  | [] => Some []
  | a :: s1 =>
      let n := N_of_ascii a in
      if (n <? 128)%N then option_map (cons n) (decode_utf8 s1)
      else if ((194 <=? n) && (n <? 224))%N then
        match s1 with
        | b :: s2 =>
            match continuation b with
            | Some x => option_map (cons ((n - 192) * 64 + x)%N) (decode_utf8 s2)
            | None => None
            end
        | [] => None
        end
      else if ((224 <=? n) && (n <? 240))%N then
        match s1 with
        | b :: c :: s3 =>
            match continuation b, continuation c with
            | Some x, Some y =>
                let cp := ((n - 224) * 4096 + x * 64 + y)%N in
                if ((2048 <=? cp) && negb ((55296 <=? cp) && (cp <=? 57343)))%N
                then option_map (cons cp) (decode_utf8 s3) else None
            | _, _ => None
            end
        | _ => None
        end
      else if ((240 <=? n) && (n <? 245))%N then
        match s1 with
        | b :: c :: d :: s4 =>
            match continuation b, continuation c, continuation d with
            | Some x, Some y, Some z =>
                let cp := ((n - 240) * 262144 + x * 4096 + y * 64 + z)%N in
                if ((65536 <=? cp) && (cp <=? 1114111))%N
                then option_map (cons cp) (decode_utf8 s4) else None
            | _, _, _ => None
            end
        | _ => None
        end
      else None
  end.

(** [\d].  The decimal digits of Unicode come in runs of ten, from the
    digit zero to the digit nine of a script; [digit_runs] holds the digit
    zero of every run. *)
Definition digit_runs : list N :=
  [48; 1632; 1776; 1984; 2406; 2534; 2662; 2790; 2918; 3046; 3174; 3302;
   3430; 3558; 3664; 3792; 3872; 4160; 4240; 6112; 6160; 6470; 6608; 6784;
   6800; 6992; 7088; 7232; 7248; 42528; 43216; 43264; 43472; 43504; 43600;
   44016; 65296; 66720; 68912; 69734; 69872; 69942; 70096; 70384; 70736;
   70864; 71248; 71360; 71472; 71904; 72016; 72784; 73040; 73120; 92768;
   92864; 93008; 120782; 120792; 120802; 120812; 120822; 123200; 123632;
   125264; 130032]%N.

(** The value of a digit, as [int] reads it. *)
Definition digit_value (c : N) : option nat :=
  match find (fun zero => (zero <=? c) && (c <? zero + 10))%N digit_runs with
  | Some zero => Some (N.to_nat (c - zero))
  | None => None
  end.

Definition is_digit (c : N) : bool :=
  match digit_value c with
  | Some _ => true
  | None => false
  end.

Definition digit (c : N) : nat :=
  match digit_value c with
  | Some d => d
  | None => 0
  end.

(** [\s] *)
Definition blank_characters : list N :=
  [9; 10; 11; 12; 13; 28; 29; 30; 31; 32; 133; 160; 5760; 8192; 8193; 8194;
   8195; 8196; 8197; 8198; 8199; 8200; 8201; 8202; 8232; 8233; 8239; 8287;
   12288]%N.

Definition is_space (c : N) : bool := existsb (N.eqb c) blank_characters.

(** A class [[lo-hi]] of ASCII digits. *)
Definition in_class (lo hi : ascii) (c : N) : bool :=
  ((N_of_ascii lo <=? c) && (c <=? N_of_ascii hi))%N.

Definition is_char (a : ascii) (c : N) : bool := (c =? N_of_ascii a)%N.

(** A directive is a choice between alternatives, tried in order.  In
    each of %d, %m and %H an alternative of two characters that matches is
    the only one that can lead to a match: the alternative of one character
    would leave a digit where the format goes on with [/] or [:].  %M ends
    the format, and the first alternative that matches decides. *)

(** %d : 3[0-1]|[1-2]\d|0[1-9]|[1-9]| [1-9] *)
Definition directive_d (s : list N) : option (nat * list N) :=
  match s with
  | a :: b :: rest =>
      if is_char "3" a && in_class "0" "1" b then Some (30 + digit b, rest)
      else if in_class "1" "2" a && is_digit b then Some (10 * digit a + digit b, rest)
      else if is_char "0" a && in_class "1" "9" b then Some (digit b, rest)
      else if in_class "1" "9" a then Some (digit a, b :: rest)
      else if is_char " " a && in_class "1" "9" b then Some (digit b, rest)
      else None
  | [a] => if in_class "1" "9" a then Some (digit a, []) else None
  | [] => None
  end.

(** %m : 1[0-2]|0[1-9]|[1-9] *)
Definition directive_m (s : list N) : option (nat * list N) :=
  match s with
  | a :: b :: rest =>
      if is_char "1" a && in_class "0" "2" b then Some (10 + digit b, rest)
      else if is_char "0" a && in_class "1" "9" b then Some (digit b, rest)
      else if in_class "1" "9" a then Some (digit a, b :: rest)
      else None
  | [a] => if in_class "1" "9" a then Some (digit a, []) else None
  | [] => None
  end.

(** %Y : \d\d\d\d *)
Definition directive_Y (s : list N) : option (nat * list N) :=
  match s with
  | a :: b :: c :: d :: rest =>
      if is_digit a && is_digit b && is_digit c && is_digit d
      then Some (1000 * digit a + 100 * digit b + 10 * digit c + digit d, rest)
      else None
  | _ => None
  end.

(** %H : 2[0-3]|[0-1]\d|\d *)
Definition directive_H (s : list N) : option (nat * list N) :=
  match s with
  | a :: b :: rest =>
      if is_char "2" a && in_class "0" "3" b then Some (20 + digit b, rest)
      else if in_class "0" "1" a && is_digit b then Some (10 * digit a + digit b, rest)
      else if is_digit a then Some (digit a, b :: rest)
      else None
  | [a] => if is_digit a then Some (digit a, []) else None
  | [] => None
  end.

(** %M : [0-5]\d|\d *)
Definition directive_M (s : list N) : option (nat * list N) :=
  match s with
  | a :: b :: rest =>
      if in_class "0" "5" a && is_digit b then Some (10 * digit a + digit b, rest)
      else if is_digit a then Some (digit a, b :: rest)
      else None
  | [a] => if is_digit a then Some (digit a, []) else None
  | [] => None
  end.

Definition literal (c : ascii) (s : list N) : option (list N) :=
  match s with
  | a :: rest => if is_char c a then Some rest else None
  | [] => None
  end.

Fixpoint skip_spaces (s : list N) : list N :=
  match s with
  | a :: rest => if is_space a then skip_spaces rest else s
  | [] => []
  end.

(** \s+ *)
Definition blanks (s : list N) : option (list N) :=
  match s with
  | a :: rest => if is_space a then Some (skip_spaces rest) else None
  | [] => None
  end.

Definition obind {A B} (o : option A) (k : A -> option B) : option B :=
  match o with
  | Some a => k a
  | None => None
  end.

(** The text read in the format: the fields of the match, if they make a
    date of the calendar (there is no year 0). *)
Definition match_format (text : string) : option Timestamp :=
  obind (decode_utf8 (list_ascii_of_string text)) (fun s =>
  obind (directive_d s) (fun '(d, s) =>
  obind (literal "/" s) (fun s =>
  obind (directive_m s) (fun '(m, s) =>
  obind (literal "/" s) (fun s =>
  obind (directive_Y s) (fun '(y, s) =>
  obind (blanks s) (fun s =>
  obind (directive_H s) (fun '(h, s) =>
  obind (literal ":" s) (fun s =>
  obind (directive_M s) (fun '(mi, s) =>
  match s with
  | [] =>
      if (1 <=? y) && (d <=? days_in_month y m)
      then Some (mkTimestamp y m d h mi) else None
  | _ :: _ => None
  end)))))))))).

(** The bounds of a timestamp counted in nanoseconds, at minute
    resolution.  The library up to its version 2 holds every timestamp in
    nanoseconds and takes a date outside these bounds for a failure; later
    versions hold it in a coarser unit. *)
Definition ts_min : Timestamp := mkTimestamp 1677 9 21 0 13.
Definition ts_max : Timestamp := mkTimestamp 2262 4 11 23 47.

Definition in_bounds (t : Timestamp) : bool :=
  ((ts_key ts_min <=? ts_key t) && (ts_key t <=? ts_key ts_max))%Z.

Definition strptime (text : string) : option Timestamp :=
  match match_format text with
  | Some t => if in_bounds t then Some t else None
  | None => None
  end.

(** ** Cells, series and frames *)

Inductive cell :=
| NaN
| Str (s : string)
| Ts (t : Timestamp).

Definition Series := list cell.

(** A row gives the cell under each column label.  The labels that belong
    to a frame are its [columns]; [getitem] reads no other. *)
Definition Row := string -> cell.

Record DataFrame := mkDataFrame {
  columns : list string;
  rows : list Row
}.

Definition len (df : DataFrame) : nat := List.length (rows df).

Definition has_column (col : string) (df : DataFrame) : bool :=
  existsb (String.eqb col) (columns df).

(** [df[col]] *)
Definition getitem (df : DataFrame) (col : string) : result Series :=
  if has_column col df then Ok (map (fun r => r col) (rows df))
  else Raise (KeyError col).

(** The row [r] with [v] under [col]. *)
Definition update (r : Row) (col : string) (v : cell) : Row :=
  fun c => if String.eqb c col then v else r c.

(** [df[col] = s], for a series on the frame's own index. *)
Definition setitem (df : DataFrame) (col : string) (s : Series) : DataFrame :=
  {| columns := if has_column col df then columns df else columns df ++ [col];
     rows := map (fun rv => update (fst rv) col (snd rv)) (combine (rows df) s) |}.

(** [df[mask]] for a boolean series on the frame's own index. *)
Definition loc (df : DataFrame) (mask : list bool) : DataFrame :=
  {| columns := columns df;
     rows := map fst (filter snd (combine (rows df) mask)) |}.

Definition notna (c : cell) : bool :=
  match c with
  | NaN => false
  | _ => true
  end.

Definition isna (c : cell) : bool := negb (notna c).

Definition fillna (s : Series) (value : cell) : Series :=
  map (fun c => if notna c then c else value) s.

Definition ts_eqb (a b : Timestamp) : bool :=
  (ts_year a =? ts_year b) && (ts_month a =? ts_month b)
  && (ts_day a =? ts_day b) && (ts_hour a =? ts_hour b)
  && (ts_minute a =? ts_minute b).

(** [==] between two scalars: a missing value equals nothing. *)
Definition cell_eqb (a b : cell) : bool :=
  match a, b with
  | Str x, Str y => String.eqb x y
  | Ts x, Ts y => ts_eqb x y
  | _, _ => false
  end.

(** [series == value] *)
Definition series_eq (s : Series) (v : cell) : list bool :=
  map (fun c => cell_eqb c v) s.

(** [pd.to_datetime(s, format='%d/%m/%Y %H:%M', errors='coerce')] *)
Definition to_datetime_cell (c : cell) : cell :=
  match c with
  | NaN => NaN
  | Str s => match strptime s with
             | Some t => Ts t
             | None => NaN
             end
  | Ts t => Ts t
  end.

Definition to_datetime (s : Series) : Series := map to_datetime_cell s.

(** ** Reading a CSV file *)

(** The file system gives the text of the file at a path; the text of a
    CSV file is taken to be in UTF-8, the encoding that [read_csv]
    expects. *)
Definition csv := string.
Definition FileSystem := string -> option csv.

Definition LF : ascii := ascii_of_nat 10.
Definition CR : ascii := ascii_of_nat 13.
Definition quotechar : ascii := ascii_of_nat 34.
Definition delimiter : ascii := ",".

Definition is_blank_char (c : ascii) : bool :=
  Ascii.eqb c " " || Ascii.eqb c (ascii_of_nat 9).

(** *** The tokenizer

    The tokenizer of [read_csv] reads the text byte by byte and keeps the
    bytes of the field it is in ([word], the last byte first), the fields
    of the line it is in ([fields], the last first) and the lines it has
    read ([lines], the last first).  A line ends at a line feed, at a
    carriage return or at both in that order; an empty line and a line of
    blanks and tabs are skipped; a field in double quotes holds every byte
    up to the closing quote, a doubled quote standing for one. *)
Inductive tokenizer_state :=
| START_RECORD
| START_FIELD
| IN_FIELD
| IN_QUOTED_FIELD
| QUOTE_IN_QUOTED_FIELD
| EAT_CRNL
| EAT_CRNL_NOP
| WHITESPACE_LINE.

Record parser := mkParser {
  state : tokenizer_state;
  word : list ascii;
  fields : list string;
  lines : list (list string)
}.

Definition goto (st : tokenizer_state) (p : parser) : parser :=
  mkParser st (word p) (fields p) (lines p).

Definition push_char (c : ascii) (p : parser) : parser :=
  mkParser (state p) (c :: word p) (fields p) (lines p).

Definition end_field (p : parser) : parser :=
  mkParser (state p) [] (string_of_list_ascii (rev (word p)) :: fields p) (lines p).

Definition end_line (p : parser) : parser :=
  mkParser (state p) (word p) [] (rev (fields p) :: lines p).

Definition drop_word (p : parser) : parser :=
  mkParser (state p) [] (fields p) (lines p).

Definition start_field (p : parser) (c : ascii) : parser :=
  if Ascii.eqb c LF then goto START_RECORD (end_line (end_field p))
  else if Ascii.eqb c CR then goto EAT_CRNL (end_field p)
  else if Ascii.eqb c quotechar then goto IN_QUOTED_FIELD p
  else if Ascii.eqb c delimiter then goto START_FIELD (end_field p)
  else goto IN_FIELD (push_char c p).

Definition in_field (p : parser) (c : ascii) : parser :=
  if Ascii.eqb c LF then goto START_RECORD (end_line (end_field p))
  else if Ascii.eqb c CR then goto EAT_CRNL (end_field p)
  else if Ascii.eqb c delimiter then goto START_FIELD (end_field p)
  else goto IN_FIELD (push_char c p).

(** At the start of a line.  A blank or a tab may begin a line of blanks:
    the tokenizer reads on, and goes back when it meets another byte, to
    the byte after the last line feed, which is the start of the line
    unless the line before ended with a bare carriage return.  Here the
    blanks read are kept in [word], which is what going back to the start
    of the line and reading them as the start of a field makes of them. *)
Definition start_record (p : parser) (c : ascii) : parser :=
  if Ascii.eqb c LF then p
  else if Ascii.eqb c CR then goto EAT_CRNL_NOP p
  else if is_blank_char c then goto WHITESPACE_LINE (push_char c p)
  else start_field p c.

(** One turn of the loop over the bytes. *)
Definition tokenize_byte (p : parser) (c : ascii) : parser :=
  match state p with
  | START_RECORD => start_record p c
  | START_FIELD => start_field p c
  | IN_FIELD => in_field p c
  | IN_QUOTED_FIELD =>
      if Ascii.eqb c quotechar then goto QUOTE_IN_QUOTED_FIELD p
      else push_char c p
  | QUOTE_IN_QUOTED_FIELD =>
      if Ascii.eqb c quotechar then goto IN_QUOTED_FIELD (push_char c p)
      else in_field p c
  | EAT_CRNL =>
      if Ascii.eqb c LF then goto START_RECORD (end_line p)
      else if Ascii.eqb c delimiter then goto START_FIELD (end_field (end_line p))
      else start_record (goto START_RECORD (end_line p)) c
  | EAT_CRNL_NOP =>
      if Ascii.eqb c LF || Ascii.eqb c delimiter then goto START_RECORD p
      else start_record (goto START_RECORD p) c
  | WHITESPACE_LINE =>
      if Ascii.eqb c LF then goto START_RECORD (drop_word p)
      else if Ascii.eqb c CR then goto EAT_CRNL_NOP (drop_word p)
      else if is_blank_char c then push_char c p
      else in_field p c
  end.

Definition tokenize_bytes (p : parser) (s : list ascii) : parser :=
  fold_left tokenize_byte s p.

(** At the end of the text the line being read is closed; a quoted field
    that is still open is an error. *)
Definition handle_eof (p : parser) : result parser :=
  match state p with
  | START_RECORD | WHITESPACE_LINE | EAT_CRNL_NOP => Ok p
  | IN_QUOTED_FIELD => Raise ParserError
  | IN_FIELD | START_FIELD | QUOTE_IN_QUOTED_FIELD => Ok (end_line (end_field p))
  | EAT_CRNL => Ok (end_line p)
  end.

(** A byte-order mark at the start of the text is passed over. *)
Definition begins_with_bom (s : list ascii) : bool :=
  match s with
  | a :: b :: c :: _ =>
      (nat_of_ascii a =? 239) && (nat_of_ascii b =? 187) && (nat_of_ascii c =? 191)
  | _ => false
  end.

Definition skip_bom (s : list ascii) : list ascii :=
  if begins_with_bom s then skipn 3 s else s.

Definition tokenize (text : string) : result (list (list string)) :=
  p <- handle_eof (tokenize_bytes (mkParser START_RECORD [] [] [])
                     (skip_bom (list_ascii_of_string text))) ;;
  Ok (rev (lines p)).

(** The texts [read_csv] takes for a missing value. *)
Definition na_values : list string :=
  [""; "#N/A"; "#N/A N/A"; "#NA"; "-1.#IND"; "-1.#QNAN"; "-NaN"; "-nan";
   "1.#IND"; "1.#QNAN"; "<NA>"; "N/A"; "NA"; "NULL"; "NaN"; "None"; "n/a";
   "nan"; "null"].

Definition parse_cell (text : string) : cell :=
  if existsb (String.eqb text) na_values then NaN else Str text.

(** The cell of a record under a column label; a record shorter than the
    header is missing its last cells. *)
Fixpoint field (header record : list string) (col : string) : cell :=
  match header, record with
  | h :: hs, x :: xs => if String.eqb col h then parse_cell x else field hs xs col
  | _, _ => NaN
  end.

(** The number of cells by which the first record of data is longer than
    the header: the library takes that many leading cells of every record
    for the index of the frame. *)
Definition index_width (header : list string) (data : list (list string)) : nat :=
  match data with
  | [] => 0
  | first :: _ => List.length first - List.length header
  end.

(** [pd.read_csv(file_path)]: the first line is the header, a line with
    more fields than are expected is a tokenising error.  The inference of
    numeric column types is left out: a cell that is not missing keeps its
    text, which is what the library makes of a column that holds a text
    that reads neither as a number nor as a boolean. *)
Definition read_csv (fs : FileSystem) (file_path : string) : result DataFrame :=
  match fs file_path with
  | None => Raise (FileNotFoundError file_path)
  | Some text =>
      records <- tokenize text ;;
      match records with
      | [] => Raise EmptyDataError
      | header :: data =>
          let width := index_width header data in
          if forallb (fun r => List.length r <=? List.length header + width) data
          then Ok {| columns := header;
                     rows := map (fun r => field header (skipn width r)) data |}
          else Raise ParserError
      end
  end.

(** ** load_data *)

Definition date_columns : list string :=
  ["Created"; "Updated"; "Last Viewed"; "Resolved"].

(** One turn of the loop over [date_columns]. *)
Definition convert_date_column (df : DataFrame) (col : string) : result DataFrame :=
  if has_column col df then
    s <- getitem df col ;;
    Ok (setitem df col (to_datetime s))
  else Ok df.

Fixpoint convert_date_columns (cols : list string) (df : DataFrame) : result DataFrame :=
  match cols with
  | [] => Ok df
  | col :: cols' =>
      df' <- convert_date_column df col ;;
      convert_date_columns cols' df'
  end.

(** The body of the [try] block. *)
Definition load_data_try (fs : FileSystem) (file_path : string) : result DataFrame :=
  df <- read_csv fs file_path ;;
  df <- convert_date_columns date_columns df ;;
  category <- getitem df "Category" ;;
  let df := setitem df "Category" (fillna category (Str "Uncategorized")) in
  review_flag <- getitem df "Review_Flag" ;;
  let df := setitem df "Review_Flag" (fillna review_flag (Str "NO")) in
  Ok df.

(** ** Page elements *)

Inductive markup :=
| MainHeader
| Divider
| SidebarControls
| IssueDetails
| CategoryBreakdown
| RecentIssues
| AllIssues
| Footer.

(** The [delta] of a metric: [DeltaPercent q] is [q] shown with one
    decimal and a percent sign. *)
Inductive delta :=
| NoDelta
| DeltaText (s : string)
| DeltaPercent (q : Q).

(** A row of the Category Breakdown table. *)
Record StatsRow := mkStatsRow {
  stat_category : cell;
  stat_total : nat;
  stat_flagged : nat;
  stat_resolved : nat
}.

Inductive figure :=
| BarFigure (counts : list (cell * nat))
| PieFigure (counts : list (cell * nat))
| TimelineFigure (counts : list (string * cell * nat)).

Definition date := (nat * nat * nat)%type.

Inductive element :=
| StMarkdown (m : markup)
| StError (msg : string)
| SidebarMarkdown (m : markup)
| SidebarSelectbox (label : string) (options : list cell)
| SidebarDateInput (label : string) (min_value max_value : date)
| StMetric (label : string) (value : nat) (d : delta)
| StPlotlyChart (fig : figure)
| StDataframe (df : DataFrame)
| StStatsTable (stats : list StatsRow)
| StCheckbox (label : string)
| StButton (label : string)
| StDownloadButton (label : string) (data : csv) (file_name : string).

(** A run of the script: the elements put on the page so far, and a value
    or the exception that stopped it. *)
Definition page (A : Type) := (list element * result A)%type.

Definition ret {A} (a : A) : page A := ([], Ok a).
Definition emit (e : element) : page unit := ([e], Ok tt).
Definition lift {A} (r : result A) : page A := ([], r).

Definition pbind {A B} (c : page A) (k : A -> page B) : page B :=
  match c with
  | (out, Ok a) => let (out', r) := k a in ((out ++ out')%list, r)
  | (out, Raise e) => (out, Raise e)
  end.

Declare Scope page_scope.
Delimit Scope page_scope with page.
Notation "x <- c ;; k" := (pbind c (fun x => k))
  (at level 61, c at next level, right associativity) : page_scope.
Notation "c ;; k" := (pbind c (fun _ => k))
  (at level 61, right associativity) : page_scope.

(** [load_data]: the [try] block, and the handler that reports the
    exception and returns [None]. *)
Definition load_data (fs : FileSystem) (file_path : string) : page (option DataFrame) :=
  match load_data_try fs file_path with
  | Ok df => ret (Some df)
  | Raise e =>
      (emit (StError ("Error loading data: " ++ exn_message e)) ;;
       ret None)%page
  end.

(** ** Sorting and counting *)

Section Sort.
Context {A : Type} (leb : A -> A -> bool).

Fixpoint insert (x : A) (l : list A) : list A :=
  match l with
  | [] => [x]
  | y :: l' => if leb x y then x :: l else y :: insert x l'
  end.

(** A stable sort: of two elements neither of which is before the other,
    the one met first comes first. *)
Definition isort (l : list A) : list A := fold_right insert [] l.

End Sort.

(** Equality of cells as values, a missing value being one value. *)
Definition cell_same (a b : cell) : bool :=
  match a, b with
  | NaN, NaN => true
  | Str x, Str y => String.eqb x y
  | Ts x, Ts y => ts_eqb x y
  | _, _ => false
  end.

(** [s.unique()], in order of first appearance. *)
Fixpoint unique (s : Series) : list cell :=
  match s with
  | [] => []
  | c :: s' => c :: filter (fun x => negb (cell_same x c)) (unique s')
  end.

(** [s.nunique()] leaves the missing value out. *)
Definition nunique (s : Series) : nat := List.length (filter notna (unique s)).

(** [s.count()] *)
Definition count (s : Series) : nat := List.length (filter notna s).

Definition is_str (c : cell) : bool :=
  match c with
  | Str _ => true
  | _ => false
  end.

(** An order on cells: missing, then strings, then timestamps. *)
Definition cell_leb (a b : cell) : bool :=
  match a, b with
  | NaN, _ => true
  | Str _, NaN => false
  | Str x, Str y => String.leb x y
  | Str _, Ts _ => true
  | Ts x, Ts y => (ts_key x <=? ts_key y)%Z
  | Ts _, _ => false
  end.

(** [sorted(values)] on the values of the Category column, which are
    strings or the missing value (a float): the two cannot be compared. *)
Definition sorted (values : list cell) : result (list cell) :=
  match values with
  | [] | [_] => Ok values
  | _ => if forallb is_str values then Ok (isort cell_leb values)
         else Raise TypeError
  end.

(** [s.value_counts()]: the values that are not missing with their numbers
    of occurrences, the most frequent first.  Values of equal frequency
    are taken here in their order of first appearance; the library does
    not fix their order. *)
Definition value_counts (s : Series) : list (cell * nat) :=
  isort (fun a b => snd b <=? snd a)
    (map (fun v => (v, List.length (filter (fun c => cell_same c v) s)))
         (filter notna (unique s))).

(** ** The chart helpers *)

(** [px.bar(x=counts.index, y=counts.values, ...)].  Given no data frame,
    the plotting library takes an argument all of whose elements name
    columns for a list of columns, which an empty argument is; it accepts
    such a list for [x] or for [y], not for both. *)
Definition px_bar (counts : list (cell * nat)) : result figure :=
  match counts with
  | [] =>
      Raise (ValueError
        "Cannot accept list of column references or list of columns for both `x` and `y`.")
  | _ :: _ => Ok (BarFigure counts)
  end.

Definition create_category_bar_chart (df : DataFrame) : result figure :=
  category <- getitem df "Category" ;;
  px_bar (value_counts category).

Definition create_review_flag_chart (df : DataFrame) : result figure :=
  review_flag <- getitem df "Review_Flag" ;;
  Ok (PieFigure (value_counts review_flag)).

Definition digit_char (d : nat) : ascii := ascii_of_nat (48 + d mod 10).

Definition pad2 (n : nat) : string :=
  String (digit_char (n / 10)) (String (digit_char n) "").

Definition pad4 (n : nat) : string :=
  String (digit_char (n / 1000)) (String (digit_char (n / 100)) (pad2 n)).

(** [.dt.to_period('M').astype(str)].  A missing time has the text NaT
    for month, as the library writes it up to its version 2; later versions
    keep the month missing, and [groupby] then leaves the row out. *)
Definition created_month (c : cell) : string :=
  match c with
  | Ts t => pad4 (ts_year t) ++ "-" ++ pad2 (ts_month t)
  | _ => "NaT"
  end.

Definition pair_same (a b : string * cell) : bool :=
  String.eqb (fst a) (fst b) && cell_same (snd a) (snd b).

Definition pair_leb (a b : string * cell) : bool :=
  if String.eqb (fst a) (fst b) then cell_leb (snd a) (snd b)
  else String.leb (fst a) (fst b).

Fixpoint unique_pairs (l : list (string * cell)) : list (string * cell) :=
  match l with
  | [] => []
  | p :: l' => p :: filter (fun x => negb (pair_same x p)) (unique_pairs l')
  end.

(** [groupby(['Created_Month', 'Category']).size()]: the groups in key
    order; a row with a missing key is in no group. *)
Definition timeline_data (df : DataFrame) : list (string * cell * nat) :=
  let keys := map (fun r => (created_month (r "Created"), r "Category")) (rows df) in
  let keys := filter (fun k => notna (snd k)) keys in
  map (fun k => (k, List.length (filter (fun x => pair_same x k) keys)))
      (isort pair_leb (unique_pairs keys)).

Definition create_timeline_chart (df : DataFrame) : result (option figure) :=
  if has_column "Created" df then
    _ <- getitem df "Category" ;;
    Ok (Some (TimelineFigure (timeline_data df)))
  else Ok None.

(** ** create_summary_metrics *)

Definition create_summary_metrics (df : DataFrame) : result (nat * nat * nat * nat) :=
  let total_issues := len df in
  review_flag <- getitem df "Review_Flag" ;;
  let flagged_issues := len (loc df (series_eq review_flag (Str "YES"))) in
  category <- getitem df "Category" ;;
  let unique_categories := nunique category in
  resolved <- getitem df "Resolved" ;;
  let resolved_issues := len (loc df (map notna resolved)) in
  Ok (total_issues, flagged_issues, unique_categories, resolved_issues).

(** [a / b] on two integers. *)
Definition truediv (a b : nat) : result Q :=
  if b =? 0 then Raise ZeroDivisionError
  else Ok (Z.of_nat a # Pos.of_nat b).

(** The [delta] of the Flagged and the Resolved metric. *)
Definition percent_delta (part total_issues : nat) : result delta :=
  if 0 <? total_issues then
    q <- truediv part total_issues ;;
    Ok (DeltaPercent (q * inject_Z 100))
  else Ok (DeltaText "0%").

(** ** The sidebar filters *)

Definition review_options : list string :=
  ["All"; "Flagged for Review"; "Auto-Assigned"].

(** The value a selectbox returns: the option at the chosen position. *)
Definition selectbox {A} (options : list A) (choice : nat) (first : A) : A :=
  nth choice options first.

(** The block under "Apply filters". *)
Definition apply_filters (df : DataFrame) (selected_category : cell)
    (selected_review : string) : result DataFrame :=
  let filtered_df := df in
  filtered_df <-
    (if negb (cell_eqb selected_category (Str "All")) then
       category <- getitem filtered_df "Category" ;;
       Ok (loc filtered_df (series_eq category selected_category))
     else Ok filtered_df) ;;
  if String.eqb selected_review "Flagged for Review" then
    review_flag <- getitem filtered_df "Review_Flag" ;;
    Ok (loc filtered_df (series_eq review_flag (Str "YES")))
  else if String.eqb selected_review "Auto-Assigned" then
    review_flag <- getitem filtered_df "Review_Flag" ;;
    Ok (loc filtered_df (series_eq review_flag (Str "NO")))
  else Ok filtered_df.

(** ** The Category Breakdown table *)

(** The keys of [groupby(col)]: the values that are not missing, in order. *)
Definition group_keys (s : Series) : list cell :=
  isort cell_leb (filter notna (unique s)).

(** [agg] with a dict first looks for the labels of the dict that are
    not columns of the frame, and reports them together, in order. *)
Definition agg_columns (df : DataFrame) (labels : list string) : result unit :=
  match isort String.leb (filter (fun c => negb (has_column c df)) labels) with
  | [] => Ok tt
  | missing =>
      Raise (KeyError
        ("Column(s) [" ++ String.concat ", " (map (fun c => "'" ++ c ++ "'") missing)
         ++ "] do not exist"))
  end.

(** [groupby('Category').agg({'Summary': 'count', 'Review_Flag': lambda x:
    (x == 'YES').sum(), 'Resolved': lambda x: x.notna().sum()})], with the
    columns renamed to Total, Flagged and Resolved. *)
Definition category_stats (df : DataFrame) : result (list StatsRow) :=
  category <- getitem df "Category" ;;
  _ <- agg_columns df ["Summary"; "Review_Flag"; "Resolved"] ;;
  Ok (map (fun key =>
             let group := rows (loc df (map (fun c => cell_same c key) category)) in
             {| stat_category := key;
                stat_total := count (map (fun r => r "Summary") group);
                stat_flagged :=
                  List.length (filter (fun b : bool => b)
                    (series_eq (map (fun r => r "Review_Flag") group) (Str "YES")));
                stat_resolved :=
                  List.length (filter (fun b : bool => b)
                    (map notna (map (fun r => r "Resolved") group))) |})
          (group_keys category)).

(** ** The Recent Issues table *)

(** [a] is not before [b] in descending order of column [col]. *)
Definition key_geb (col : string) (a b : Row) : bool :=
  match a col, b col with
  | Ts x, Ts y => (ts_key y <=? ts_key x)%Z
  | _, _ => true
  end.

(** [df.nlargest(n, col)], with the default [keep='first']: by its
    documentation the same rows as [df.sort_values(col,
    ascending=False).head(n)].  A column of strings is refused.  The
    library sets the rows whose value is missing apart ([dropped] holds the
    others), puts [dropped] in descending order, rows of equal value in
    their order in the frame, appends the rows set apart, in their order
    in the frame, and returns the first [n] rows of that sequence. *)
Definition nlargest (n : nat) (col : string) (df : DataFrame) : result DataFrame :=
  s <- getitem df col ;;
  if existsb is_str s then Raise TypeError
  else
    let dropped := filter (fun r => notna (r col)) (rows df) in
    let nan_index := filter (fun r => isna (r col)) (rows df) in
    Ok {| columns := columns df;
          rows := firstn n (isort (key_geb col) dropped ++ nan_index) |}.

(** [df[cols]] for a list of labels.  A row keeps all its cells; [columns]
    says which of them belong to the frame. *)
Definition select (df : DataFrame) (cols : list string) : result DataFrame :=
  match filter (fun c => negb (has_column c df)) cols with
  | [] => Ok {| columns := cols; rows := rows df |}
  | missing :: _ => Raise (KeyError missing)
  end.

Definition recent_issues (filtered_df : DataFrame) : result (option DataFrame) :=
  if has_column "Created" filtered_df then
    top <- nlargest 10 "Created" filtered_df ;;
    shown <- select top ["Summary"; "Category"; "Created"; "Review_Flag"] ;;
    Ok (Some shown)
  else Ok None.

(** ** The export *)

(** A timestamp as [to_csv] writes it: with the time of day, or, in a
    column all of whose timestamps are at midnight, the date alone. *)
Definition format_timestamp (t : Timestamp) : string :=
  pad4 (ts_year t) ++ "-" ++ pad2 (ts_month t) ++ "-" ++ pad2 (ts_day t)
  ++ " " ++ pad2 (ts_hour t) ++ ":" ++ pad2 (ts_minute t) ++ ":00".

Definition format_date (t : Timestamp) : string :=
  pad4 (ts_year t) ++ "-" ++ pad2 (ts_month t) ++ "-" ++ pad2 (ts_day t).

Definition dates_only (df : DataFrame) (col : string) : bool :=
  forallb (fun r : Row => match r col with
                          | Ts t => (ts_hour t =? 0) && (ts_minute t =? 0)
                          | _ => true
                          end) (rows df).

Definition cell_text (dates : bool) (c : cell) : string :=
  match c with
  | NaN => ""
  | Str s => s
  | Ts t => if dates then format_date t else format_timestamp t
  end.

(** The records of the export: the header, then one record per row. *)
Definition records_of (df : DataFrame) : list (list string) :=
  columns df
  :: map (fun r : Row => map (fun c => cell_text (dates_only df c) (r c)) (columns df))
         (rows df).

(** The writer of the csv module, with minimal quoting and the line feed
    for line terminator: a field is put in double quotes, its own double
    quotes doubled, when it holds a comma, a double quote or a line feed. *)
Definition needs_quotes (s : list ascii) : bool :=
  existsb (fun c => Ascii.eqb c delimiter || Ascii.eqb c quotechar || Ascii.eqb c LF) s.

Definition escape (s : list ascii) : list ascii :=
  flat_map (fun c => if Ascii.eqb c quotechar then [c; c] else [c]) s.

Definition write_field (text : string) : list ascii :=
  let s := list_ascii_of_string text in
  if needs_quotes s then (quotechar :: escape s ++ [quotechar])%list else s.

Fixpoint write_fields (record : list string) : list ascii :=
  match record with
  | [] => [LF]
  | text :: rest =>
      match rest with
      | [] => (write_field text ++ [LF])%list
      | _ :: _ => (write_field text ++ delimiter :: write_fields rest)%list
      end
  end.

(** A record of one empty field is written as a pair of quotes. *)
Definition writerow (record : list string) : list ascii :=
  match record with
  | [EmptyString] => [quotechar; quotechar; LF]
  | _ => write_fields record
  end.

(** [df.to_csv(index=False)] *)
Definition to_csv (df : DataFrame) : csv :=
  string_of_list_ascii (flat_map writerow (records_of df)).

(** ** main *)

(** What the user did on the page. *)
Record Session := mkSession {
  category_choice : nat;
  review_choice : nat;
  show_detailed_data : bool;
  download_clicked : bool;
  now : string
}.

Definition data_file : string :=
  "/Users/Spurthi.Serikari/Documents/Bolt Support Insights/Jira_ARLive_categorized.csv".

Definition ts_min_of (a b : Timestamp) : Timestamp :=
  if (ts_key a <=? ts_key b)%Z then a else b.

Definition ts_max_of (a b : Timestamp) : Timestamp :=
  if (ts_key a <=? ts_key b)%Z then b else a.

Definition timestamps (s : Series) : list Timestamp :=
  flat_map (fun c => match c with Ts t => [t] | _ => [] end) s.

(** [s.min()] and [s.max()] skip the missing values. *)
Definition series_min (s : Series) : option Timestamp :=
  match timestamps s with
  | [] => None
  | t :: ts => Some (fold_left ts_min_of ts t)
  end.

Definition series_max (s : Series) : option Timestamp :=
  match timestamps s with
  | [] => None
  | t :: ts => Some (fold_left ts_max_of ts t)
  end.

Definition date_of (t : Timestamp) : date := (ts_year t, ts_month t, ts_day t).

Definition display_columns : list string :=
  ["Summary"; "Category"; "Created"; "Updated"; "Resolved"; "Review_Flag"].

Definition str_of_nat (n : nat) : string :=
  NilZero.string_of_uint (Nat.to_uint n).

Definition main (fs : FileSystem) (ui : Session) : page unit :=
  (emit (StMarkdown MainHeader) ;;
   emit (StMarkdown Divider) ;;
   df <- load_data fs data_file ;;
   match df with
   | None =>
       emit (StError "Failed to load data. Please check the file path and format.")
   | Some df =>
       emit (SidebarMarkdown SidebarControls) ;;
       category <- lift (getitem df "Category") ;;
       values <- lift (sorted (unique category)) ;;
       let categories := Str "All" :: values in
       emit (SidebarSelectbox "Filter by Category:" categories) ;;
       let selected_category := selectbox categories (category_choice ui) (Str "All") in
       emit (SidebarSelectbox "Filter by Review Status:" (map Str review_options)) ;;
       let selected_review := selectbox review_options (review_choice ui) "All" in
       (if has_column "Created" df then
          created <- lift (getitem df "Created") ;;
          if existsb notna created then
            match series_min created, series_max created with
            | Some min_date, Some max_date =>
                emit (SidebarDateInput "Date Range:" (date_of min_date) (date_of max_date))
            | _, _ => ret tt
            end
          else ret tt
        else ret tt) ;;
       filtered_df <- lift (apply_filters df selected_category selected_review) ;;
       metrics <- lift (create_summary_metrics filtered_df) ;;
       let '(total_issues, flagged_issues, unique_categories, resolved_issues) := metrics in
       emit (StMetric "Total Issues" total_issues
               (if negb (len filtered_df =? total_issues)
                then DeltaText (str_of_nat (len filtered_df) ++ " filtered")
                else NoDelta)) ;;
       flagged_delta <- lift (percent_delta flagged_issues total_issues) ;;
       emit (StMetric "Flagged for Review" flagged_issues flagged_delta) ;;
       emit (StMetric "Categories" unique_categories NoDelta) ;;
       resolved_delta <- lift (percent_delta resolved_issues total_issues) ;;
       emit (StMetric "Resolved" resolved_issues resolved_delta) ;;
       emit (StMarkdown Divider) ;;
       category_chart <- lift (create_category_bar_chart filtered_df) ;;
       emit (StPlotlyChart category_chart) ;;
       review_chart <- lift (create_review_flag_chart filtered_df) ;;
       emit (StPlotlyChart review_chart) ;;
       timeline_chart <- lift (create_timeline_chart filtered_df) ;;
       match timeline_chart with
       | Some fig => emit (StPlotlyChart fig)
       | None => ret tt
       end ;;
       emit (StMarkdown Divider) ;;
       emit (StMarkdown IssueDetails) ;;
       emit (StMarkdown CategoryBreakdown) ;;
       stats <- lift (category_stats filtered_df) ;;
       emit (StStatsTable stats) ;;
       emit (StMarkdown RecentIssues) ;;
       recent <- lift (recent_issues filtered_df) ;;
       match recent with
       | Some shown => emit (StDataframe shown)
       | None => ret tt
       end ;;
       emit (StCheckbox "Show Detailed Data") ;;
       (if show_detailed_data ui then
          emit (StMarkdown AllIssues) ;;
          let available_columns :=
            filter (fun col => has_column col filtered_df) display_columns in
          shown <- lift (select filtered_df available_columns) ;;
          emit (StDataframe shown)
        else ret tt) ;;
       emit (StButton "Download Filtered Data") ;;
       (if download_clicked ui then
          emit (StDownloadButton "Download CSV" (to_csv filtered_df)
                  ("bolt_support_insights_filtered_" ++ now ui ++ ".csv"))
        else ret tt) ;;
       emit (StMarkdown Divider) ;;
       emit (StMarkdown Footer)
   end)%page.

(** * Vocabulary of the properties *)

(** ** Loaded tables and filtered views *)

(** What [load_data] makes of one row of the file, [cols] being the
    column labels of the file: the date cells converted, one column after
    the other, then the two defaults filled in. *)
Definition convert_cell (cols : list string) (r : Row) (col : string) : Row :=
  if existsb (String.eqb col) cols
  then update r col (to_datetime_cell (r col)) else r.

Definition fill (r : Row) (col : string) (value : cell) : Row :=
  update r col (if notna (r col) then r col else value).

Definition loaded_row (cols : list string) (r : Row) : Row :=
  fill (fill (fold_left (convert_cell cols) date_columns r)
             "Category" (Str "Uncategorized"))
       "Review_Flag" (Str "NO").

(** A loaded table is a table that [load_data] has returned. *)
Definition loaded (df : DataFrame) : Prop :=
  exists fs file_path out, load_data fs file_path = (out, Ok (Some df)).

(** A filtered view is what the filters make of a loaded table, under some
    choice in the two select boxes. *)
Definition filtered_view (v : DataFrame) : Prop :=
  exists df selected_category selected_review,
    loaded df /\ apply_filters df selected_category selected_review = Ok v.

(** The view [main] builds from the loaded table and from what the user
    selected in the two select boxes. *)
Definition selected_view (df : DataFrame) (ui : Session) : result DataFrame :=
  category <- getitem df "Category" ;;
  values <- sorted (unique category) ;;
  let categories := Str "All" :: values in
  apply_filters df (selectbox categories (category_choice ui) (Str "All"))
                   (selectbox review_options (review_choice ui) "All").

(** ** Metrics *)

(** The number of rows flagged for review. *)
Definition flagged_count (v : DataFrame) : nat :=
  List.length (filter (fun r => cell_eqb (r "Review_Flag") (Str "YES")) (rows v)).

(** The share of [part] in [total_issues] as the metrics show it. *)
Definition percent (part total_issues : nat) : delta :=
  match total_issues with
  | 0 => DeltaText "0%"
  | S _ => DeltaPercent ((Z.of_nat part # Pos.of_nat total_issues) * inject_Z 100)
  end.

(** ** Order of recency *)

(** The rank of a row by creation time: a missing time ranks lowest. *)
Definition created_rank (r : Row) : option Z :=
  match r "Created" with
  | Ts t => Some (ts_key t)
  | _ => None
  end.

Definition rank_le (a b : option Z) : Prop :=
  match a, b with
  | None, _ => True
  | Some _, None => False
  | Some x, Some y => (x <= y)%Z
  end.

(** [a] may stand before [b] in the table: [b] is not more recent. *)
Definition not_older (a b : Row) : Prop :=
  rank_le (created_rank b) (created_rank a).

Definition has_created (r : Row) : bool := notna (r "Created").
Definition lacks_created (r : Row) : bool := isna (r "Created").

(** The rows of a view by creation time, the latest first, then the rows
    without one. *)
Definition by_recency (v : DataFrame) : list Row :=
  isort (key_geb "Created") (filter has_created (rows v))
  ++ filter lacks_created (rows v).

(** ** Sample files *)

(** The file system that holds [records] at the path [main] reads. *)
Definition fs_with (text : csv) : FileSystem :=
  fun path => if String.eqb path data_file then Some text else None.

(** The text made of the given lines. *)
Definition text_of (text_lines : list string) : csv :=
  String.concat "" (map (fun l => l ++ String LF "") text_lines).

Definition table_of (text : csv) : DataFrame :=
  match load_data_try (fs_with text) data_file with
  | Ok df => df
  | Raise _ => {| columns := []; rows := [] |}
  end.

Definition raw_of (text : csv) : DataFrame :=
  match read_csv (fs_with text) data_file with
  | Ok raw => raw
  | Raise _ => {| columns := []; rows := [] |}
  end.

(** Three tickets: one flagged, one with nothing but an unreadable creation
    date and a resolution date, one filed under a category named "All" with
    a flag that is neither YES nor NO. *)
Definition sample_csv : csv :=
  text_of
    [ "Summary,Category,Review_Flag,Created,Resolved";
      "Login fails,Bug,YES,15/01/2024 10:30,";
      ",,,2024-01-16 09:00:00,16/01/2024 09:00";
      "Slow page,All,MAYBE,17/01/2024 08:00," ].

(** The sample as [read_csv] returns it and as [load_data] returns it. *)
Definition sample_raw : DataFrame := Eval vm_compute in raw_of sample_csv.

Definition sample_table : DataFrame := Eval vm_compute in table_of sample_csv.

(** A file without a Resolved column. *)
Definition no_resolved_csv : csv :=
  text_of
    [ "Summary,Category,Review_Flag,Created";
      "Login fails,Bug,YES,15/01/2024 10:30" ].

(** A first visit of the page: nothing selected, nothing clicked. *)
Definition first_visit : Session :=
  {| category_choice := 0; review_choice := 0; show_detailed_data := false;
     download_clicked := false; now := "20240101_000000" |}.

(** ** Further vocabulary *)

(** The number of rows with a resolution time. *)
Definition resolved_count (v : DataFrame) : nat :=
  List.length (filter (fun r : Row => notna (r "Resolved")) (rows v)).

(** A cell as [read_csv] delivers it and [to_csv] gives it back: missing,
    or a text that is not one of the texts for a missing value. *)
Definition plain (c : cell) : Prop :=
  c = NaN \/ exists text, c = Str text /\ parse_cell text = Str text.

(** *** Columns of texts

    [read_csv] makes numbers of a column whose texts all read as numbers,
    and booleans of one whose texts all read as booleans; the embedding
    keeps the texts, and is the program on the columns that hold no such
    text.  A text that begins with a letter and is none of the words below
    reads as neither. *)
Definition lower (c : ascii) : ascii :=
  let n := nat_of_ascii c in
  if (65 <=? n) && (n <=? 90) then ascii_of_nat (n + 32) else c.

Definition is_letter (c : ascii) : bool :=
  let n := nat_of_ascii (lower c) in (97 <=? n) && (n <=? 122).

Fixpoint lowercase (text : string) : string :=
  match text with
  | EmptyString => EmptyString
  | String c rest => String (lower c) (lowercase rest)
  end.

Definition textual (text : string) : bool :=
  match text with
  | EmptyString => false
  | String c _ =>
      is_letter c
      && negb (existsb (String.eqb (lowercase text))
                 ["inf"; "infinity"; "nan"; "true"; "false"])
  end.

(** The column [col] of the frame that [read_csv] returned holds, where a
    value is present, such a text. *)
Definition text_column (raw : DataFrame) (col : string) : bool :=
  forallb (fun r : Row => match r col with
                          | Str text => textual text
                          | _ => true
                          end) (rows raw).

(** A group of the timeline that stands for a month. *)
Definition is_month (group : string * cell * nat) : bool :=
  negb (String.eqb (fst (fst group)) "NaT").

(** The timeline has a month to show: the view has no Created column, or
    one of its rows has a creation time. *)
Definition some_created (v : DataFrame) : bool :=
  negb (has_column "Created" v) || existsb (fun r : Row => notna (r "Created")) (rows v).

(** *** Fields that the export keeps whole

    The writer quotes a field for a comma, a double quote or a line feed,
    not for a carriage return: a field with a carriage return and none of
    the three is written as it is, and read back as the end of a line. *)
Definition whole (text : string) : bool :=
  let s := list_ascii_of_string text in
  needs_quotes s || negb (existsb (Ascii.eqb CR) s).

Definition written_whole (v : DataFrame) : bool :=
  forallb (forallb whole) (records_of v).

(** A byte that is part of a field wherever it stands outside quotes. *)
Definition plain_char (c : ascii) : bool :=
  negb (Ascii.eqb c LF || Ascii.eqb c CR || Ascii.eqb c quotechar
        || Ascii.eqb c delimiter).

(** The states in which such a byte goes into the field being read, and
    those in which a quote opens a quoted field. *)
Definition accepting (st : tokenizer_state) : bool :=
  match st with
  | START_RECORD | START_FIELD | IN_FIELD | WHITESPACE_LINE => true
  | _ => false
  end.

Definition in_line (st : tokenizer_state) : bool :=
  match st with
  | START_FIELD | IN_FIELD => true
  | _ => false
  end.

Definition fresh (st : tokenizer_state) : bool :=
  match st with
  | START_RECORD | START_FIELD => true
  | _ => false
  end.

(** Twelve tickets, eight of them with a creation time. *)
Definition twelve_csv : csv :=
  text_of
    [ "Summary,Category,Review_Flag,Created,Resolved";
      "T01,Bug,YES,03/01/2024 09:00,";
      "T02,Bug,NO,,";
      "T03,Access,NO,07/01/2024 09:00,";
      "T04,Access,YES,01/01/2024 09:00,";
      "T05,Bug,NO,,";
      "T06,Bug,NO,05/01/2024 09:00,";
      "T07,Access,NO,08/01/2024 09:00,";
      "T08,Bug,YES,,";
      "T09,Bug,NO,02/01/2024 09:00,";
      "T10,Access,NO,06/01/2024 09:00,";
      "T11,Bug,NO,,";
      "T12,Bug,NO,04/01/2024 09:00," ].

Definition twelve_table : DataFrame := Eval vm_compute in table_of twelve_csv.

(** A ticket whose summary, quoted in the file, holds a carriage return. *)
Definition cr_csv : csv :=
  "Summary,Category,Review_Flag"
  ++ String LF (String quotechar ("Login"
  ++ String CR ("fails" ++ String quotechar (",Bug,YES" ++ String LF "")))).

Definition cr_table : DataFrame := Eval vm_compute in table_of cr_csv.

(** A file system without the file. *)
Definition no_file : FileSystem := fun _ => None.

(** A file without a Summary column. *)
Definition no_summary_csv : csv :=
  text_of
    [ "Category,Review_Flag,Created,Resolved";
      "Bug,YES,15/01/2024 10:30," ].

Definition no_summary_raw : DataFrame := Eval vm_compute in raw_of no_summary_csv.

Definition no_summary_table : DataFrame :=
  Eval vm_compute in table_of no_summary_csv.

(** * Properties *)

(** ** The date format *)

Example strptime_day_first :
  strptime "15/01/2024 10:30" = Some (mkTimestamp 2024 1 15 10 30)
  /\ strptime "5/1/2024 9:05" = Some (mkTimestamp 2024 1 5 9 5).
Proof. split; reflexivity. Qed.

Example strptime_rejects :
  match_format "2024-01-15 10:30:00" = None
  /\ match_format "31/02/2024 10:30" = None
  /\ match_format "15/01/2024 24:00" = None
  /\ match_format "15/01/2024 10:30 " = None
  /\ match_format "01/01/0000 10:30" = None
  /\ match_format "" = None.
Proof. repeat split; reflexivity. Qed.

(** A digit of another script is a digit: the day and the minute are
    written with an Arabic-Indic five. *)
Example strptime_unicode_digits :
  strptime "1٥/01/2024 10:0٥" = Some (mkTimestamp 2024 1 15 10 5).
Proof. reflexivity. Qed.

(** A date of the calendar beyond the range of a nanosecond count. *)
Example strptime_out_of_bounds :
  match_format "01/01/3000 10:30" = Some (mkTimestamp 3000 1 1 10 30)
  /\ strptime "01/01/3000 10:30" = None.
Proof. split; reflexivity. Qed.

(** ** Frames *)

Lemma mask_filter {A} (f : A -> bool) (l : list A) :
  map fst (filter snd (combine l (map f l))) = filter f l.
Proof.
  induction l as [|x l IH]; simpl; [reflexivity|].
  destruct (f x); simpl; now rewrite IH.
Qed.

Lemma loc_rows df (f : Row -> bool) :
  loc df (map f (rows df)) = {| columns := columns df; rows := filter f (rows df) |}.
Proof. unfold loc. now rewrite mask_filter. Qed.

Lemma loc_series_eq df col v :
  loc df (series_eq (map (fun r : Row => r col) (rows df)) v)
  = {| columns := columns df;
       rows := filter (fun r => cell_eqb (r col) v) (rows df) |}.
Proof.
  unfold series_eq. rewrite map_map. apply (loc_rows df (fun r => cell_eqb (r col) v)).
Qed.

Lemma getitem_ok df col :
  has_column col df = true ->
  getitem df col = Ok (map (fun r : Row => r col) (rows df)).
Proof. unfold getitem. now intros ->. Qed.

Lemma getitem_raise df col :
  has_column col df = false -> getitem df col = Raise (KeyError col).
Proof. unfold getitem. now intros ->. Qed.

Lemma getitem_inv df col s :
  getitem df col = Ok s ->
  has_column col df = true /\ s = map (fun r : Row => r col) (rows df).
Proof.
  unfold getitem. destruct (has_column col df); [|discriminate].
  intros H. injection H as <-. now split.
Qed.

Lemma setitem_rows df col (g : cell -> cell) :
  has_column col df = true ->
  setitem df col (map g (map (fun r : Row => r col) (rows df)))
  = {| columns := columns df;
       rows := map (fun r => update r col (g (r col))) (rows df) |}.
Proof.
  intros H. unfold setitem. rewrite H. f_equal.
  rewrite map_map. induction (rows df) as [|r l IH]; simpl; [reflexivity|].
  now rewrite IH.
Qed.

Lemma update_same r col v : update r col v col = v.
Proof. unfold update. now rewrite String.eqb_refl. Qed.

Lemma update_other r col v c : c <> col -> update r col v c = r c.
Proof. unfold update. intros H. apply String.eqb_neq in H. now rewrite H. Qed.

(** ** load_data *)

Lemma convert_date_columns_spec dates df :
  convert_date_columns dates df
  = Ok {| columns := columns df;
          rows := map (fun r => fold_left (convert_cell (columns df)) dates r) (rows df) |}.
Proof.
  revert df. induction dates as [|col dates IH]; intros df; simpl.
  - rewrite map_id. now destruct df.
  - unfold convert_date_column.
    destruct (has_column col df) eqn:Hc.
    + rewrite (getitem_ok _ _ Hc). unfold bind at 2. unfold bind at 1.
      unfold to_datetime.
      rewrite (setitem_rows df col to_datetime_cell Hc).
      rewrite IH. cbn [columns rows]. rewrite map_map.
      unfold convert_cell at 3. fold (has_column col df). rewrite Hc.
      reflexivity.
    + unfold bind at 1. rewrite IH.
      unfold convert_cell at 3. fold (has_column col df). rewrite Hc.
      reflexivity.
Qed.

Lemma load_data_try_spec fs file_path df :
  load_data_try fs file_path = Ok df <->
  exists raw,
    read_csv fs file_path = Ok raw
    /\ has_column "Category" raw = true
    /\ has_column "Review_Flag" raw = true
    /\ df = {| columns := columns raw;
               rows := map (loaded_row (columns raw)) (rows raw) |}.
Proof.
  unfold load_data_try.
  destruct (read_csv fs file_path) as [raw|e]; cbn [bind].
  2:{ split; [discriminate|]. intros (raw & H & _). discriminate. }
  rewrite convert_date_columns_spec. cbn [bind].
  set (df1 := {| columns := columns raw; rows := _ |}).
  assert (Hcols : forall c, has_column c df1 = has_column c raw) by reflexivity.
  destruct (has_column "Category" raw) eqn:Hcat.
  2:{ rewrite getitem_raise by now rewrite Hcols. cbn [bind]. split; [discriminate|].
      intros (raw' & H & Hc & _). injection H as <-. congruence. }
  rewrite getitem_ok by now rewrite Hcols. cbn [bind].
  unfold fillna.
  rewrite (setitem_rows df1 "Category"
             (fun c => if notna c then c else Str "Uncategorized"))
    by now rewrite Hcols.
  set (df2 := {| columns := columns df1; rows := _ |}).
  assert (Hcols2 : forall c, has_column c df2 = has_column c raw) by reflexivity.
  destruct (has_column "Review_Flag" raw) eqn:Hflag.
  2:{ rewrite getitem_raise by now rewrite Hcols2. cbn [bind]. split; [discriminate|].
      intros (raw' & H & _ & Hc & _). injection H as <-. congruence. }
  rewrite getitem_ok by now rewrite Hcols2. cbn [bind].
  rewrite (setitem_rows df2 "Review_Flag" (fun c => if notna c then c else Str "NO"))
    by now rewrite Hcols2.
  subst df2 df1. cbn [columns rows]. rewrite !map_map.
  split.
  - intros H. injection H as <-. exists raw. repeat split; auto.
  - intros (raw' & H & _ & _ & ->). injection H as <-. reflexivity.
Qed.

Lemma load_data_some fs file_path out df :
  load_data fs file_path = (out, Ok (Some df)) <->
  load_data_try fs file_path = Ok df /\ out = [].
Proof.
  unfold load_data. destruct (load_data_try fs file_path) as [df'|e]; cbn.
  - split.
    + intros H. injection H as <- <-. now split.
    + intros [H ->]. now injection H as <-.
  - split; [discriminate|]. intros [H _]. discriminate.
Qed.

Lemma load_data_none fs file_path out :
  load_data fs file_path = (out, Ok None) <->
  exists e, load_data_try fs file_path = Raise e
            /\ out = [StError ("Error loading data: " ++ exn_message e)].
Proof.
  unfold load_data. destruct (load_data_try fs file_path) as [df'|e]; cbn.
  - split; [discriminate|]. intros (e & H & _). discriminate.
  - split.
    + intros H. injection H as <-. now exists e.
    + intros (e' & H & ->). now injection H as <-.
Qed.


Lemma fold_convert_other cols dates r c :
  ~ In c dates -> fold_left (convert_cell cols) dates r c = r c.
Proof.
  revert r. induction dates as [|d dates IH]; intros r Hc; simpl; [reflexivity|].
  rewrite IH by (intros H; apply Hc; now right).
  unfold convert_cell. destruct (existsb _ cols); [|reflexivity].
  apply update_other. intros ->. apply Hc. now left.
Qed.

Lemma fold_convert_in cols dates r c :
  NoDup dates -> In c dates ->
  fold_left (convert_cell cols) dates r c
  = if existsb (String.eqb c) cols then to_datetime_cell (r c) else r c.
Proof.
  revert r. induction dates as [|d dates IH]; intros r Hnd Hc; [destruct Hc|].
  inversion Hnd as [|? ? Hd Hnd']; subst. simpl.
  destruct (String.eqb_spec c d) as [->|Hneq].
  - rewrite fold_convert_other by assumption.
    unfold convert_cell. destruct (existsb _ cols); [|reflexivity].
    apply update_same.
  - destruct Hc as [->|Hc]; [congruence|].
    rewrite IH by assumption.
    assert (E : convert_cell cols r d c = r c).
    { unfold convert_cell. destruct (existsb (String.eqb d) cols); [|reflexivity].
      now apply update_other. }
    now rewrite E.
Qed.

Lemma date_columns_nodup : NoDup date_columns.
Proof.
  unfold date_columns.
  repeat (constructor; [simpl; intuition discriminate|]). constructor.
Qed.

Lemma loaded_row_category cols r :
  loaded_row cols r "Category"
  = if notna (r "Category") then r "Category" else Str "Uncategorized".
Proof.
  unfold loaded_row, fill.
  rewrite update_other by discriminate. rewrite update_same.
  rewrite fold_convert_other; [reflexivity|].
  unfold date_columns. simpl. intuition discriminate.
Qed.

Lemma loaded_row_review_flag cols r :
  loaded_row cols r "Review_Flag"
  = if notna (r "Review_Flag") then r "Review_Flag" else Str "NO".
Proof.
  unfold loaded_row, fill.
  rewrite update_same. rewrite update_other by discriminate.
  rewrite fold_convert_other; [reflexivity|].
  unfold date_columns. simpl. intuition discriminate.
Qed.

Lemma loaded_row_date cols r col :
  In col date_columns ->
  loaded_row cols r col
  = if existsb (String.eqb col) cols then to_datetime_cell (r col) else r col.
Proof.
  intros Hin. unfold loaded_row, fill.
  assert (col <> "Category" /\ col <> "Review_Flag") as [H1 H2].
  { unfold date_columns in Hin. simpl in Hin.
    split; intros ->; intuition discriminate. }
  rewrite !update_other by assumption.
  apply fold_convert_in; [apply date_columns_nodup | assumption].
Qed.

Lemma Forall2_map_same {A B} (R : A -> B -> Prop) (f : A -> B) (l : list A) :
  (forall x, In x l -> R x (f x)) -> Forall2 R l (map f l).
Proof.
  induction l as [|x l IH]; intros H; simpl; constructor.
  - apply H. now left.
  - apply IH. intros y Hy. apply H. now right.
Qed.

(** C1.  After [load_data] has returned a table, each row of it comes from
    one row of the file, in order; its Category and its Review_Flag are
    present; a Category missing in the file has become "Uncategorized", a
    Review_Flag missing in the file has become "NO", and a value present in
    the file is kept. *)
Theorem load_data_fills_defaults fs file_path out df :
  load_data fs file_path = (out, Ok (Some df)) ->
  exists raw,
    read_csv fs file_path = Ok raw /\
    Forall2 (fun r0 r : Row =>
               r "Category" <> NaN /\ r "Review_Flag" <> NaN
               /\ (r0 "Category" = NaN -> r "Category" = Str "Uncategorized")
               /\ (r0 "Review_Flag" = NaN -> r "Review_Flag" = Str "NO")
               /\ (r0 "Category" <> NaN -> r "Category" = r0 "Category")
               /\ (r0 "Review_Flag" <> NaN -> r "Review_Flag" = r0 "Review_Flag"))
            (rows raw) (rows df).
Proof.
  intros H. apply load_data_some in H as [H _].
  apply load_data_try_spec in H as (raw & Hread & _ & _ & ->).
  exists raw. split; [assumption|]. cbn [rows].
  apply Forall2_map_same. intros r _.
  rewrite loaded_row_category, loaded_row_review_flag.
  destruct (r "Category"), (r "Review_Flag"); cbn;
    repeat split; try discriminate; try reflexivity; intros; congruence.
Qed.


(** ** What holds of every loaded table and of every filtered view *)

Lemma read_csv_inv fs file_path raw :
  read_csv fs file_path = Ok raw ->
  exists header data,
    raw = {| columns := header; rows := map (field header) data |}.
Proof.
  unfold read_csv. destruct (fs file_path) as [text|]; [|discriminate].
  destruct (tokenize text) as [[|header data]|]; [discriminate| |discriminate].
  cbn [bind]. cbv zeta. destruct (forallb _ data); [|discriminate].
  intros H. injection H as <-.
  exists header, (map (skipn (index_width header data)) data).
  now rewrite map_map.
Qed.

Lemma parse_cell_not_ts text : is_str (parse_cell text) = true \/ parse_cell text = NaN.
Proof. unfold parse_cell. destruct (existsb _ na_values); auto. Qed.

Lemma field_not_ts header record col :
  is_str (field header record col) = true \/ field header record col = NaN.
Proof.
  revert record. induction header as [|h hs IH]; intros [|x xs]; simpl; auto.
  destruct (String.eqb col h); [apply parse_cell_not_ts | apply IH].
Qed.

Lemma loaded_inv df :
  loaded df ->
  exists header data,
    has_column "Category" df = true /\ has_column "Review_Flag" df = true
    /\ columns df = header
    /\ rows df = map (fun record => loaded_row header (field header record)) data.
Proof.
  intros (fs & file_path & out & H).
  apply load_data_some in H as [H _].
  apply load_data_try_spec in H as (raw & Hread & Hcat & Hflag & ->).
  apply read_csv_inv in Hread as (header & data & ->).
  exists header, data. cbn [columns rows]. rewrite map_map. auto.
Qed.

Lemma loaded_columns df :
  loaded df ->
  has_column "Category" df = true /\ has_column "Review_Flag" df = true.
Proof. intros H. apply loaded_inv in H as (? & ? & ? & ? & _). auto. Qed.

Lemma loaded_category_str df r :
  loaded df -> In r (rows df) -> is_str (r "Category") = true.
Proof.
  intros H Hr. apply loaded_inv in H as (header & data & _ & _ & _ & Hrows).
  rewrite Hrows in Hr. apply in_map_iff in Hr as (record & <- & _).
  rewrite loaded_row_category.
  destruct (field_not_ts header record "Category") as [E|E].
  - destruct (field header record "Category"); try discriminate. reflexivity.
  - now rewrite E.
Qed.

Lemma loaded_review_flag_str df r :
  loaded df -> In r (rows df) -> is_str (r "Review_Flag") = true.
Proof.
  intros H Hr. apply loaded_inv in H as (header & data & _ & _ & _ & Hrows).
  rewrite Hrows in Hr. apply in_map_iff in Hr as (record & <- & _).
  rewrite loaded_row_review_flag.
  destruct (field_not_ts header record "Review_Flag") as [E|E].
  - destruct (field header record "Review_Flag"); try discriminate. reflexivity.
  - now rewrite E.
Qed.

Lemma to_datetime_cell_not_str c : is_str (to_datetime_cell c) = false.
Proof. destruct c as [|s|t]; cbn; [reflexivity| |reflexivity]. now destruct (strptime s). Qed.

Lemma loaded_created_not_str df r :
  loaded df -> has_column "Created" df = true ->
  In r (rows df) -> is_str (r "Created") = false.
Proof.
  intros H Hc Hr. apply loaded_inv in H as (header & data & _ & _ & Hcols & Hrows).
  rewrite Hrows in Hr. apply in_map_iff in Hr as (record & <- & _).
  rewrite loaded_row_date by (unfold date_columns; simpl; auto).
  unfold has_column in Hc. rewrite Hcols in Hc. rewrite Hc.
  apply to_datetime_cell_not_str.
Qed.

(** A filtered view has the columns of the table and some of its rows, in
    the order of the table. *)
Lemma apply_filters_spec df selected_category selected_review :
  has_column "Category" df = true ->
  has_column "Review_Flag" df = true ->
  apply_filters df selected_category selected_review
  = Ok {| columns := columns df;
          rows :=
            filter (fun r =>
                      if String.eqb selected_review "Flagged for Review"
                      then cell_eqb (r "Review_Flag") (Str "YES")
                      else if String.eqb selected_review "Auto-Assigned"
                      then cell_eqb (r "Review_Flag") (Str "NO")
                      else true)
              (filter (fun r =>
                         if negb (cell_eqb selected_category (Str "All"))
                         then cell_eqb (r "Category") selected_category
                         else true)
                 (rows df)) |}.
Proof.
  intros Hcat Hflag. unfold apply_filters.
  assert (Hall : forall l : list Row, filter (fun _ => true) l = l).
  { induction l as [|x l IH]; simpl; [reflexivity|now rewrite IH]. }
  destruct (negb (cell_eqb selected_category (Str "All"))).
  - rewrite (getitem_ok _ _ Hcat). cbn [bind]. rewrite loc_series_eq.
    set (df1 := {| columns := columns df; rows := _ |}).
    assert (Hflag1 : has_column "Review_Flag" df1 = true) by exact Hflag.
    destruct (String.eqb selected_review "Flagged for Review").
    + rewrite (getitem_ok _ _ Hflag1). cbn [bind]. now rewrite loc_series_eq.
    + destruct (String.eqb selected_review "Auto-Assigned").
      * rewrite (getitem_ok _ _ Hflag1). cbn [bind]. now rewrite loc_series_eq.
      * subst df1. now rewrite Hall.
  - cbn [bind]. rewrite Hall.
    destruct (String.eqb selected_review "Flagged for Review").
    + rewrite (getitem_ok _ _ Hflag). cbn [bind]. now rewrite loc_series_eq.
    + destruct (String.eqb selected_review "Auto-Assigned").
      * rewrite (getitem_ok _ _ Hflag). cbn [bind]. now rewrite loc_series_eq.
      * rewrite Hall. now destruct df.
Qed.

Lemma filtered_view_inv v :
  filtered_view v ->
  exists df (keep : Row -> bool),
    loaded df /\ columns v = columns df /\ rows v = filter keep (rows df).
Proof.
  intros (df & sc & sr & Hl & Hv).
  destruct (loaded_columns df Hl) as [Hcat Hflag].
  rewrite (apply_filters_spec df sc sr Hcat Hflag) in Hv. injection Hv as <-.
  exists df. eexists. split; [assumption|]. split; [reflexivity|].
  cbn [rows]. 
  assert (Hff : forall (f g : Row -> bool) l,
             filter f (filter g l) = filter (fun r => g r && f r) l).
  { intros f g l. induction l as [|x l IH]; simpl; [reflexivity|].
    destruct (g x); simpl; [destruct (f x)|]; now rewrite IH. }
  apply Hff.
Qed.

Lemma filtered_view_columns v :
  filtered_view v ->
  has_column "Category" v = true /\ has_column "Review_Flag" v = true.
Proof.
  intros H. apply filtered_view_inv in H as (df & keep & Hl & Hc & _).
  unfold has_column. rewrite Hc. now apply loaded_columns.
Qed.

Lemma sample_loaded : loaded sample_table.
Proof. exists (fs_with sample_csv), data_file, []. vm_compute. reflexivity. Qed.

Lemma ts_eqb_eq a b : ts_eqb a b = true <-> a = b.
Proof.
  unfold ts_eqb. rewrite !andb_true_iff, !Nat.eqb_eq.
  destruct a, b; cbn. split.
  - intros [[[[-> ->] ->] ->] ->]. reflexivity.
  - intros H. injection H. auto.
Qed.

Lemma cell_eqb_eq a b : cell_eqb a b = true -> a = b.
Proof.
  destruct a, b; cbn; try discriminate.
  - intros H. apply String.eqb_eq in H. now subst.
  - intros H. apply ts_eqb_eq in H. now subst.
Qed.

Lemma cell_eqb_str s : cell_eqb (Str s) (Str s) = true.
Proof. cbn. apply String.eqb_refl. Qed.

Lemma cell_same_eq a b : cell_same a b = true <-> a = b.
Proof.
  destruct a, b; cbn; split; try discriminate; try reflexivity.
  - intros H. apply String.eqb_eq in H. now subst.
  - intros H. injection H as ->. apply String.eqb_refl.
  - intros H. apply ts_eqb_eq in H. now subst.
  - intros H. injection H as ->. now apply ts_eqb_eq.
Qed.

Lemma unique_In s x : In x (unique s) <-> In x s.
Proof.
  induction s as [|c s IH]; simpl; [tauto|].
  rewrite filter_In, IH. split.
  - intros [H|[H _]]; auto.
  - intros [H|H]; auto.
    destruct (cell_same x c) eqn:E.
    + left. symmetry. now apply cell_same_eq.
    + right. auto.
Qed.

(** C9.  In every loaded table, under any choice of category, the view
    "Flagged for Review" and the view "Auto-Assigned" hold rows of the
    table only, the first only rows whose Review_Flag is YES and the second
    only rows whose Review_Flag is NO, so that no row is in both, and a row
    whose Review_Flag is neither YES nor NO is in neither.  The sample
    table has such a row: the two views need not cover the table. *)
Theorem review_views_disjoint :
  (forall df selected_category,
      loaded df ->
      exists flagged auto,
        apply_filters df selected_category "Flagged for Review" = Ok flagged
        /\ apply_filters df selected_category "Auto-Assigned" = Ok auto
        /\ incl (rows flagged) (rows df)
        /\ incl (rows auto) (rows df)
        /\ (forall r, In r (rows flagged) -> r "Review_Flag" = Str "YES")
        /\ (forall r, In r (rows auto) -> r "Review_Flag" = Str "NO")
        /\ (forall r, In r (rows flagged) -> In r (rows auto) -> False)
        /\ (forall r, r "Review_Flag" <> Str "YES" -> r "Review_Flag" <> Str "NO" ->
                      ~ In r (rows flagged) /\ ~ In r (rows auto)))
  /\ (exists df r,
        loaded df /\ In r (rows df)
        /\ r "Review_Flag" <> Str "YES" /\ r "Review_Flag" <> Str "NO").
Proof.
  split.
  - intros df sc Hl. destruct (loaded_columns df Hl) as [Hcat Hflag].
    do 2 eexists.
    split; [apply (apply_filters_spec df sc _ Hcat Hflag)|].
    split; [apply (apply_filters_spec df sc _ Hcat Hflag)|].
    cbn [rows String.eqb Ascii.eqb Bool.eqb].
    assert (Hyes : forall r l, In r (filter (fun r : Row => cell_eqb (r "Review_Flag") (Str "YES")) l)
                               -> r "Review_Flag" = Str "YES").
    { intros r l H. apply filter_In in H as [_ H]. now apply cell_eqb_eq. }
    assert (Hno : forall r l, In r (filter (fun r : Row => cell_eqb (r "Review_Flag") (Str "NO")) l)
                              -> r "Review_Flag" = Str "NO").
    { intros r l H. apply filter_In in H as [_ H]. now apply cell_eqb_eq. }
    refine (conj _ (conj _ (conj _ (conj _ (conj _ _))))).
    + intros r H. apply filter_In in H as [H _]. now apply filter_In in H as [H _].
    + intros r H. apply filter_In in H as [H _]. now apply filter_In in H as [H _].
    + intros r H. eapply Hyes, H.
    + intros r H. eapply Hno, H.
    + intros r H1 H2. apply Hyes in H1. apply Hno in H2. congruence.
    + intros r Hy Hn. split; intros H.
      * apply Hyes in H. contradiction.
      * apply Hno in H. contradiction.
  - exists sample_table, (nth 2 (rows sample_table) (fun _ => NaN)).
    split; [apply sample_loaded|].
    split; [vm_compute; auto|].
    split; vm_compute; discriminate.
Qed.

(** The views of the sample table for the category "Bug". *)
Lemma review_views_disjoint_witness :
  loaded sample_table
  /\ exists flagged auto,
      apply_filters sample_table (Str "Bug") "Flagged for Review" = Ok flagged
      /\ apply_filters sample_table (Str "Bug") "Auto-Assigned" = Ok auto
      /\ incl (rows flagged) (rows sample_table)
      /\ incl (rows auto) (rows sample_table)
      /\ (forall r, In r (rows flagged) -> r "Review_Flag" = Str "YES")
      /\ (forall r, In r (rows auto) -> r "Review_Flag" = Str "NO")
      /\ (forall r, In r (rows flagged) -> In r (rows auto) -> False)
      /\ (forall r, r "Review_Flag" <> Str "YES" -> r "Review_Flag" <> Str "NO" ->
                    ~ In r (rows flagged) /\ ~ In r (rows auto)).
Proof.
  split.
  - exists (fs_with sample_csv), data_file, []. vm_compute. reflexivity.
  - apply (proj1 review_views_disjoint sample_table (Str "Bug")).
    exists (fs_with sample_csv), data_file, []. vm_compute. reflexivity.
Defined.

(** C3, as stated, fails on the sample table: "All" is one of its category
    values, and the view for that value holds the whole table, with the
    rows filed under "Bug" and "Uncategorized". *)
Lemma category_filter_all_counterexample :
  loaded sample_table
  /\ In (Str "All") (unique (map (fun r : Row => r "Category") (rows sample_table)))
  /\ exists v,
      apply_filters sample_table (Str "All") "All" = Ok v
      /\ map (fun r : Row => r "Category") (rows v)
         = [Str "Bug"; Str "Uncategorized"; Str "All"]
      /\ rows v <> filter (fun r => cell_eqb (r "Category") (Str "All"))
                          (rows sample_table).
Proof.
  split; [apply sample_loaded|].
  split; [cbn; auto|].
  eexists. split; [reflexivity|]. split; [reflexivity|].
  intros H. apply (f_equal (@List.length Row)) in H. discriminate H.
Qed.

(** C3, amended.  In every loaded table, for every value [c] other than
    the text "All", the view for category [c] has the columns of the table
    and exactly its rows whose Category equals [c], in the order of the
    table; and a row is in the table if and only if it is in the view for
    one of the distinct category values of the table. *)
Theorem category_filter_exact df :
  loaded df ->
  (forall c,
      c <> Str "All" ->
      exists v,
        apply_filters df c "All" = Ok v
        /\ columns v = columns df
        /\ rows v = filter (fun r => cell_eqb (r "Category") c) (rows df)
        /\ (forall r, In r (rows v) <-> In r (rows df) /\ r "Category" = c))
  /\ (forall r,
        In r (rows df) <->
        exists c v,
          In c (unique (map (fun r : Row => r "Category") (rows df)))
          /\ apply_filters df c "All" = Ok v
          /\ In r (rows v)).
Proof.
  intros Hl. destruct (loaded_columns df Hl) as [Hcat Hflag].
  assert (Hall : forall l : list Row, filter (fun _ => true) l = l).
  { induction l as [|x l IH]; simpl; [reflexivity|now rewrite IH]. }
  assert (Hview : forall c,
             apply_filters df c "All"
             = Ok {| columns := columns df;
                     rows := filter (fun r =>
                                       if negb (cell_eqb c (Str "All"))
                                       then cell_eqb (r "Category") c else true)
                               (rows df) |}).
  { intros c. rewrite (apply_filters_spec df c "All" Hcat Hflag).
    cbn [String.eqb Ascii.eqb Bool.eqb]. now rewrite Hall. }
  split.
  - intros c Hc. eexists. split; [apply Hview|].
    assert (E : cell_eqb c (Str "All") = false).
    { destruct (cell_eqb c (Str "All")) eqn:E; [|reflexivity].
      apply cell_eqb_eq in E. contradiction. }
    rewrite E. cbn [negb columns rows].
    split; [reflexivity|]. split; [reflexivity|].
    intros r. rewrite filter_In. split.
    + intros [Hr He]. split; [assumption|]. now apply cell_eqb_eq.
    + intros [Hr He]. split; [assumption|].
      pose proof (loaded_category_str df r Hl Hr) as Hs.
      rewrite <- He. destruct (r "Category"); try discriminate.
      apply cell_eqb_str.
  - intros r. split.
    + intros Hr. exists (r "Category"). eexists.
      split; [|split; [apply Hview|]].
      * apply unique_In. apply in_map_iff. now exists r.
      * cbn [rows]. apply filter_In. split; [assumption|].
        destruct (negb _); [|reflexivity].
        pose proof (loaded_category_str df r Hl Hr) as Hs.
        destruct (r "Category"); try discriminate. apply cell_eqb_str.
    + intros (c & v & _ & Hv & Hr). rewrite Hview in Hv. injection Hv as <-.
      cbn [rows] in Hr. now apply filter_In in Hr as [Hr _].
Qed.

(** The view of the sample table for the category "Bug". *)
Lemma category_filter_exact_witness :
  loaded sample_table
  /\ Str "Bug" <> Str "All"
  /\ exists v,
      apply_filters sample_table (Str "Bug") "All" = Ok v
      /\ columns v = columns sample_table
      /\ rows v = filter (fun r => cell_eqb (r "Category") (Str "Bug"))
                         (rows sample_table)
      /\ (forall r, In r (rows v) <->
                    In r (rows sample_table) /\ r "Category" = Str "Bug").
Proof.
  split; [exists (fs_with sample_csv), data_file, []; vm_compute; reflexivity|].
  split; [discriminate|].
  apply (proj1 (category_filter_exact sample_table
                  (ex_intro _ (fs_with sample_csv)
                     (ex_intro _ data_file (ex_intro _ [] eq_refl))))
               (Str "Bug")).
  discriminate.
Defined.

Lemma filter_all {A} (f : A -> bool) (l : list A) :
  (forall x, In x l -> f x = true) -> filter f l = l.
Proof.
  induction l as [|x l IH]; intros H; simpl; [reflexivity|].
  rewrite (H x) by now left. rewrite IH; [reflexivity|].
  intros y Hy. apply H. now right.
Qed.

(** ** The export, read back *)

Lemma tokenize_bytes_app p s t :
  tokenize_bytes p (s ++ t) = tokenize_bytes (tokenize_bytes p s) t.
Proof. apply fold_left_app. Qed.

Lemma plain_char_inv c :
  plain_char c = true ->
  Ascii.eqb c LF = false /\ Ascii.eqb c CR = false
  /\ Ascii.eqb c quotechar = false /\ Ascii.eqb c delimiter = false.
Proof.
  unfold plain_char. intros H. apply negb_true_iff in H.
  apply orb_false_iff in H as [H Hd]. apply orb_false_iff in H as [H Hq].
  apply orb_false_iff in H as [Hl Hr]. auto.
Qed.

Lemma plain_step p c :
  plain_char c = true -> accepting (state p) = true ->
  exists st,
    tokenize_byte p c = mkParser st (c :: word p) (fields p) (lines p)
    /\ accepting st = true
    /\ (in_line (state p) = true -> in_line st = true).
Proof.
  intros Hc Ha. apply plain_char_inv in Hc as (Hl & Hr & Hq & Hd).
  destruct p as [st w f l]. cbn [state word fields lines] in *.
  destruct st; try discriminate Ha;
    unfold tokenize_byte, start_record, start_field, in_field;
    cbn [state]; rewrite ?Hl, ?Hr, ?Hq, ?Hd;
    try destruct (is_blank_char c);
    eexists; (split; [reflexivity|]); split; try reflexivity;
    intros H; try discriminate H; reflexivity.
Qed.

Lemma plain_run s : forall p,
  forallb plain_char s = true -> accepting (state p) = true ->
  exists st,
    tokenize_bytes p s = mkParser st (rev s ++ word p) (fields p) (lines p)
    /\ accepting st = true
    /\ (in_line (state p) = true -> in_line st = true).
Proof.
  induction s as [|c s IH]; intros p Hs Ha.
  - exists (state p). destruct p. auto.
  - cbn [forallb] in Hs. apply andb_true_iff in Hs as [Hc Hs].
    destruct (plain_step p c Hc Ha) as (st1 & E1 & Ha1 & Hl1).
    cbn [tokenize_bytes fold_left]. fold (tokenize_bytes (tokenize_byte p c) s).
    rewrite E1.
    destruct (IH (mkParser st1 (c :: word p) (fields p) (lines p)) Hs Ha1)
      as (st & E & Ha' & Hl').
    exists st. cbn [state word fields lines] in *. rewrite E.
    cbn [rev]. rewrite <- app_assoc. auto.
Qed.

Lemma tokenize_bytes_cons p c s :
  tokenize_bytes p (c :: s) = tokenize_bytes (tokenize_byte p c) s.
Proof. reflexivity. Qed.

Lemma quoted_run s : forall p,
  state p = IN_QUOTED_FIELD ->
  tokenize_bytes p (escape s)
  = mkParser IN_QUOTED_FIELD (rev s ++ word p) (fields p) (lines p).
Proof.
  induction s as [|c s IH]; intros p Hp.
  - destruct p. cbn in *. now subst.
  - unfold escape. cbn [flat_map]. fold (escape s).
    destruct p as [st w f l]. cbn [state] in Hp. subst st.
    assert (E : tokenize_bytes (mkParser IN_QUOTED_FIELD w f l)
                  ((if Ascii.eqb c quotechar then [c; c] else [c]) ++ escape s)
                = tokenize_bytes (mkParser IN_QUOTED_FIELD (c :: w) f l) (escape s)).
    { destruct (Ascii.eqb c quotechar) eqn:Hq; cbn [app];
        rewrite ?tokenize_bytes_cons; f_equal.
      - unfold tokenize_byte at 2. cbn [state]. rewrite Hq.
        unfold tokenize_byte, goto. cbn [state]. now rewrite Hq.
      - unfold tokenize_byte. cbn [state]. now rewrite Hq. }
    rewrite E, IH by reflexivity. cbn [word fields lines rev].
    now rewrite <- app_assoc.
Qed.

(** The bytes of a field that is written without quotes and is whole. *)
Lemma whole_plain text :
  whole text = true ->
  needs_quotes (list_ascii_of_string text) = false ->
  forallb plain_char (list_ascii_of_string text) = true.
Proof.
  unfold whole. cbv zeta. intros Hw Hq. rewrite Hq in Hw. cbn [orb] in Hw.
  apply negb_true_iff in Hw. apply forallb_forall. intros c Hc.
  unfold plain_char. apply negb_true_iff.
  destruct (Ascii.eqb c CR) eqn:Hr.
  { exfalso. assert (H : existsb (Ascii.eqb CR) (list_ascii_of_string text) = true).
    { apply existsb_exists. exists c. split; [exact Hc|].
      now rewrite Ascii.eqb_sym. }
    congruence. }
  unfold needs_quotes in Hq.
  assert (H : Ascii.eqb c delimiter || Ascii.eqb c quotechar || Ascii.eqb c LF = false).
  { destruct (_ || _ || _) eqn:E; [|reflexivity]. exfalso.
    assert (H : existsb (fun c => Ascii.eqb c delimiter || Ascii.eqb c quotechar
                                  || Ascii.eqb c LF)
                  (list_ascii_of_string text) = true)
      by (apply existsb_exists; eauto).
    congruence. }
  apply orb_false_iff in H as [H Hl]. apply orb_false_iff in H as [Hd Hq'].
  now rewrite Hl, Hq', Hd.
Qed.

Lemma quote_opens p :
  fresh (state p) = true ->
  tokenize_byte p quotechar = goto IN_QUOTED_FIELD p.
Proof. destruct p as [[] w f l]; intros H; try discriminate H; reflexivity. Qed.

Lemma close_quote_comma w f l :
  tokenize_bytes (mkParser IN_QUOTED_FIELD w f l) [quotechar; delimiter]
  = mkParser START_FIELD [] (string_of_list_ascii (rev w) :: f) l.
Proof. reflexivity. Qed.

Lemma close_quote_lf w f l :
  tokenize_bytes (mkParser IN_QUOTED_FIELD w f l) [quotechar; LF]
  = mkParser START_RECORD [] [] (rev (string_of_list_ascii (rev w) :: f) :: l).
Proof. reflexivity. Qed.

Lemma comma_step p :
  accepting (state p) = true ->
  tokenize_bytes p [delimiter]
  = mkParser START_FIELD [] (string_of_list_ascii (rev (word p)) :: fields p) (lines p).
Proof. destruct p as [[] w f l]; intros H; try discriminate H; reflexivity. Qed.

Lemma lf_step p :
  in_line (state p) = true ->
  tokenize_bytes p [LF]
  = mkParser START_RECORD [] []
      (rev (string_of_list_ascii (rev (word p)) :: fields p) :: lines p).
Proof. destruct p as [[] w f l]; intros H; try discriminate H; reflexivity. Qed.

Lemma field_comma p text :
  whole text = true -> fresh (state p) = true -> word p = [] ->
  tokenize_bytes p (write_field text ++ [delimiter])
  = mkParser START_FIELD [] (text :: fields p) (lines p).
Proof.
  intros Hw Hf Hword. unfold write_field. cbv zeta.
  destruct (needs_quotes (list_ascii_of_string text)) eqn:Hq.
  - cbn [app]. rewrite tokenize_bytes_cons, (quote_opens p Hf), <- app_assoc.
    cbn [app]. rewrite tokenize_bytes_app, quoted_run by reflexivity.
    rewrite close_quote_comma. cbn [goto word fields lines].
    rewrite Hword, app_nil_r, rev_involutive.
    now rewrite string_of_list_ascii_of_string.
  - rewrite tokenize_bytes_app.
    destruct (plain_run (list_ascii_of_string text) p (whole_plain text Hw Hq))
      as (st & -> & Ha & _).
    { destruct (state p); try discriminate Hf; reflexivity. }
    rewrite comma_step by exact Ha. cbn [word fields lines].
    rewrite Hword, app_nil_r, rev_involutive.
    now rewrite string_of_list_ascii_of_string.
Qed.

Lemma field_lf p text :
  whole text = true -> state p = START_FIELD -> word p = [] ->
  tokenize_bytes p (write_field text ++ [LF])
  = mkParser START_RECORD [] [] (rev (text :: fields p) :: lines p).
Proof.
  intros Hw Hf Hword. unfold write_field. cbv zeta.
  destruct (needs_quotes (list_ascii_of_string text)) eqn:Hq.
  - cbn [app]. rewrite tokenize_bytes_cons, (quote_opens p), <- app_assoc
      by now rewrite Hf.
    cbn [app]. rewrite tokenize_bytes_app, quoted_run by reflexivity.
    rewrite close_quote_lf. cbn [goto word fields lines].
    rewrite Hword, app_nil_r, rev_involutive.
    now rewrite string_of_list_ascii_of_string.
  - rewrite tokenize_bytes_app.
    destruct (plain_run (list_ascii_of_string text) p (whole_plain text Hw Hq))
      as (st & -> & _ & Hl).
    { now rewrite Hf. }
    rewrite Hf in Hl. rewrite lf_step by (now apply Hl).
    cbn [word fields lines].
    rewrite Hword, app_nil_r, rev_involutive.
    now rewrite string_of_list_ascii_of_string.
Qed.

Lemma fields_run record : forall p,
  record <> [] -> forallb whole record = true ->
  state p = START_FIELD -> word p = [] ->
  tokenize_bytes p (write_fields record)
  = mkParser START_RECORD [] [] ((rev (fields p) ++ record)%list :: lines p).
Proof.
  induction record as [|text rest IH]; intros p Hne Hw Hst Hword; [congruence|].
  cbn [forallb] in Hw. apply andb_true_iff in Hw as [Hw Hrest].
  destruct rest as [|next rest].
  - cbn [write_fields]. now rewrite field_lf.
  - change (write_fields (text :: next :: rest))
      with (write_field text ++ delimiter :: write_fields (next :: rest))%list.
    change (write_field text ++ delimiter :: write_fields (next :: rest))%list
      with (write_field text ++ [delimiter] ++ write_fields (next :: rest))%list.
    rewrite app_assoc, tokenize_bytes_app, field_comma
      by (try assumption; now rewrite Hst).
    rewrite IH by (try assumption; try reflexivity; discriminate).
    cbn [fields lines rev]. now rewrite <- app_assoc.
Qed.

Lemma writerow_wide a b rest :
  writerow (a :: b :: rest)
  = ((write_field a ++ [delimiter]) ++ write_fields (b :: rest))%list.
Proof.
  rewrite <- app_assoc. unfold writerow. now destruct a.
Qed.

Lemma row_run record ls :
  2 <= List.length record -> forallb whole record = true ->
  tokenize_bytes (mkParser START_RECORD [] [] ls) (writerow record)
  = mkParser START_RECORD [] [] (record :: ls).
Proof.
  intros Hlen Hw. destruct record as [|a [|b rest]]; [cbn in Hlen; lia..|].
  cbn [forallb] in Hw. apply andb_true_iff in Hw as [Ha Hrest].
  rewrite writerow_wide, tokenize_bytes_app, field_comma
    by (try assumption; reflexivity).
  rewrite fields_run by (try assumption; try reflexivity; discriminate).
  reflexivity.
Qed.

Lemma rows_run records : forall ls,
  (forall record, In record records ->
                  2 <= List.length record /\ forallb whole record = true) ->
  tokenize_bytes (mkParser START_RECORD [] [] ls) (flat_map writerow records)
  = mkParser START_RECORD [] [] (rev records ++ ls).
Proof.
  induction records as [|record records IH]; intros ls H; [reflexivity|].
  cbn [flat_map]. rewrite tokenize_bytes_app.
  destruct (H record (or_introl eq_refl)) as [Hlen Hw].
  rewrite row_run by assumption.
  rewrite IH by (intros r Hr; apply H; now right).
  cbn [rev]. now rewrite <- app_assoc.
Qed.

Lemma bom_quote s : begins_with_bom (quotechar :: s) = false.
Proof. destruct s as [|b [|c s]]; reflexivity. Qed.

Lemma begins_with_bom_inv s :
  begins_with_bom s = true ->
  exists s', s = ascii_of_nat 239 :: ascii_of_nat 187 :: ascii_of_nat 191 :: s'.
Proof.
  destruct s as [|a [|b [|c s]]]; try discriminate. cbn [begins_with_bom].
  intros H. apply andb_true_iff in H as [H Hc]. apply andb_true_iff in H as [Ha Hb].
  apply Nat.eqb_eq in Ha, Hb, Hc. exists s.
  rewrite <- (ascii_nat_embedding a), <- (ascii_nat_embedding b),
          <- (ascii_nat_embedding c), Ha, Hb, Hc. reflexivity.
Qed.

(** The byte-order mark that the tokenizer passes over can only be the
    start of the first label, written without quotes. *)
Lemma skip_bom_label a rest :
  whole a = true ->
  exists a',
    skip_bom ((write_field a ++ [delimiter]) ++ rest)
    = ((write_field a' ++ [delimiter]) ++ rest)%list
    /\ whole a' = true
    /\ (a' = a \/ begins_with_bom (list_ascii_of_string a) = true).
Proof.
  intros Hw. unfold skip_bom.
  destruct (begins_with_bom ((write_field a ++ [delimiter]) ++ rest)) eqn:Hb.
  2:{ exists a. auto. }
  unfold write_field in *. cbv zeta in *.
  destruct (needs_quotes (list_ascii_of_string a)) eqn:Hq.
  { cbn [app] in Hb. rewrite bom_quote in Hb. discriminate Hb. }
  pose proof (whole_plain a Hw Hq) as Hp.
  pose proof (begins_with_bom_inv _ Hb) as (s' & Hs').
  destruct (list_ascii_of_string a) as [|x [|y [|z s]]] eqn:Ea; cbn [app] in Hs'.
  - injection Hs' as H _. vm_compute in H. discriminate H.
  - injection Hs' as _ H _. vm_compute in H. discriminate H.
  - injection Hs' as _ _ H _. vm_compute in H. discriminate H.
  - exists (string_of_list_ascii s).
    rewrite list_ascii_of_string_of_list_ascii.
    assert (Hq' : needs_quotes s = false).
    { unfold needs_quotes in *. cbn [existsb] in Hq.
      repeat (apply orb_false_iff in Hq as [_ Hq]). exact Hq. }
    assert (Hw' : whole (string_of_list_ascii s) = true).
    { unfold whole. rewrite list_ascii_of_string_of_list_ascii. cbv zeta.
      rewrite Hq'. cbn [orb]. apply negb_true_iff.
      destruct (existsb (Ascii.eqb CR) s) eqn:E; [|reflexivity]. exfalso.
      apply existsb_exists in E as (c & Hc & E).
      cbn [forallb] in Hp. repeat (apply andb_true_iff in Hp as [_ Hp]).
      rewrite forallb_forall in Hp. specialize (Hp c Hc).
      apply plain_char_inv in Hp as (_ & Hr & _). rewrite Ascii.eqb_sym in E.
      congruence. }
    rewrite Hq'. split; [reflexivity|]. split; [exact Hw'|].
    right. exact Hb.
Qed.

Lemma wide_columns v :
  has_column "Category" v = true -> has_column "Review_Flag" v = true ->
  exists a b cols, columns v = a :: b :: cols.
Proof.
  intros Hcat Hflag. unfold has_column in Hcat, Hflag.
  destruct (columns v) as [|a [|b cols]]; [discriminate| |eauto].
  cbn [existsb] in Hcat, Hflag. rewrite orb_false_r in Hcat, Hflag.
  apply String.eqb_eq in Hcat, Hflag. congruence.
Qed.

(** What the tokenizer makes of an export: the records that were written,
    the first label without its byte-order mark if it began with one. *)
Lemma tokenize_export v a b cols :
  columns v = a :: b :: cols ->
  written_whole v = true ->
  exists a',
    tokenize (to_csv v) = Ok ((a' :: b :: cols) :: tl (records_of v))
    /\ (a' = a \/ begins_with_bom (list_ascii_of_string a) = true).
Proof.
  intros Hcols Hw. unfold written_whole in Hw. rewrite forallb_forall in Hw.
  unfold tokenize, to_csv. rewrite list_ascii_of_string_of_list_ascii.
  assert (Hrec : records_of v = (a :: b :: cols) :: tl (records_of v))
    by (unfold records_of; now rewrite Hcols).
  assert (Hwide : forall record, In record (tl (records_of v)) ->
                    2 <= List.length record /\ forallb whole record = true).
  { intros record Hr. split; [|apply Hw; rewrite Hrec; now right].
    unfold records_of in Hr. cbn [tl] in Hr.
    apply in_map_iff in Hr as (r & <- & _). rewrite length_map, Hcols. cbn. lia. }
  assert (Hhead : forallb whole (a :: b :: cols) = true)
    by (apply Hw; rewrite Hrec; now left).
  rewrite Hrec. cbn [flat_map]. rewrite writerow_wide, <- app_assoc.
  cbn [forallb] in Hhead. apply andb_true_iff in Hhead as [Ha Htail].
  destruct (skip_bom_label a
              (write_fields (b :: cols) ++ flat_map writerow (tl (records_of v))) Ha)
    as (a' & -> & Ha' & Hor).
  exists a'. split; [|exact Hor].
  rewrite app_assoc, <- writerow_wide.
  change (writerow (a' :: b :: cols) ++ flat_map writerow (tl (records_of v)))%list
    with (flat_map writerow ((a' :: b :: cols) :: tl (records_of v))).
  rewrite rows_run.
  - cbn [handle_eof state bind lines]. now rewrite app_nil_r, rev_involutive.
  - intros record [<-|Hr]; [|now apply Hwide].
    split; [cbn; lia|]. cbn [forallb]. now rewrite Ha', Htail.
Qed.

(** Reading an export back: every record has as many fields as the header. *)
Lemma read_exported v fs file_path :
  has_column "Category" v = true -> has_column "Review_Flag" v = true ->
  written_whole v = true ->
  fs file_path = Some (to_csv v) ->
  exists header,
    read_csv fs file_path
    = Ok {| columns := header; rows := map (field header) (tl (records_of v)) |}
    /\ has_column "Category" {| columns := header; rows := [] |} = true
    /\ has_column "Review_Flag" {| columns := header; rows := [] |} = true
    /\ (header = columns v
        \/ begins_with_bom (list_ascii_of_string (hd "" (columns v))) = true).
Proof.
  intros Hcat Hflag Hw Hfile.
  destruct (wide_columns v Hcat Hflag) as (a & b & cols & Hcols).
  destruct (tokenize_export v a b cols Hcols Hw) as (a' & Htok & Hor).
  exists (a' :: b :: cols).
  assert (Hlen : forall record, In record (tl (records_of v)) ->
                   List.length record = List.length (a' :: b :: cols)).
  { intros record Hr. unfold records_of in Hr. cbn [tl] in Hr.
    apply in_map_iff in Hr as (r & <- & _). now rewrite length_map, Hcols. }
  split; [|split; [|split]].
  - unfold read_csv. rewrite Hfile, Htok. cbn [bind].
    set (data := tl (records_of v)) in *.
    assert (Hwidth : index_width (a' :: b :: cols) data = 0).
    { unfold index_width. destruct data as [|first rest]; [reflexivity|].
      rewrite (Hlen first) by now left. apply Nat.sub_diag. }
    cbv zeta. rewrite Hwidth, Nat.add_0_r.
    replace (forallb _ data) with true; [reflexivity|].
    symmetry. apply forallb_forall. intros record Hr.
    rewrite (Hlen record Hr). apply Nat.leb_refl.
  - destruct Hor as [->|Hb]; [unfold has_column in *; now rewrite Hcols in Hcat|].
    unfold has_column in *. cbn [columns]. rewrite Hcols in Hcat.
    cbn [existsb] in *.
    destruct (String.eqb_spec "Category" a) as [<-|_]; [discriminate Hb|].
    cbn [orb] in Hcat. rewrite Hcat. apply orb_true_r.
  - destruct Hor as [->|Hb]; [unfold has_column in *; now rewrite Hcols in Hflag|].
    unfold has_column in *. cbn [columns]. rewrite Hcols in Hflag.
    cbn [existsb] in *.
    destruct (String.eqb_spec "Review_Flag" a) as [<-|_]; [discriminate Hb|].
    cbn [orb] in Hflag. rewrite Hflag. apply orb_true_r.
  - rewrite Hcols. cbn [hd]. destruct Hor as [->|Hb]; auto.
Qed.

(** C5, as stated, fails on a ticket whose summary holds a carriage
    return: the export writes the summary without quotes, and the reader
    takes the carriage return for the end of a line, so that the one row
    of the view comes back as two. *)
Lemma export_splits_row_counterexample :
  filtered_view cr_table
  /\ len cr_table = 1
  /\ exists df,
      load_data (fs_with (to_csv cr_table)) data_file = ([], Ok (Some df))
      /\ len df = 2.
Proof.
  split; [|split; [reflexivity|]].
  - exists cr_table, (Str "All"), "All". split; [|reflexivity].
    exists (fs_with cr_csv), data_file, []. vm_compute. reflexivity.
  - eexists. split; [vm_compute; reflexivity|reflexivity].
Qed.

(** C5, amended.  When a filtered view none of whose labels and cells
    holds a carriage return that the export leaves outside quotes is
    exported with [to_csv] and the export is read back with [load_data],
    the load succeeds, reports nothing, and the table it returns has as
    many rows as the view. *)
Theorem export_reload_row_count v fs file_path :
  filtered_view v ->
  written_whole v = true ->
  fs file_path = Some (to_csv v) ->
  exists df,
    load_data fs file_path = ([], Ok (Some df)) /\ len df = len v.
Proof.
  intros Hv Hw Hfile. destruct (filtered_view_columns v Hv) as [Hcat Hflag].
  destruct (read_exported v fs file_path Hcat Hflag Hw Hfile)
    as (header & Hread & Hcat' & Hflag' & _).
  eexists. split.
  - apply load_data_some. split; [|reflexivity].
    apply load_data_try_spec. eexists. split; [exact Hread|].
    split; [exact Hcat'|]. split; [exact Hflag'|]. reflexivity.
  - unfold len, records_of. cbn [rows columns tl]. now rewrite !length_map.
Qed.

(** The sample table, exported unfiltered and read back. *)
Lemma export_reload_row_count_witness :
  filtered_view sample_table
  /\ written_whole sample_table = true
  /\ fs_with (to_csv sample_table) data_file = Some (to_csv sample_table)
  /\ exists df,
      load_data (fs_with (to_csv sample_table)) data_file = ([], Ok (Some df))
      /\ len df = len sample_table.
Proof.
  assert (Hv : filtered_view sample_table).
  { exists sample_table, (Str "All"), "All". split; [|reflexivity].
    exists (fs_with sample_csv), data_file, []. vm_compute. reflexivity. }
  assert (Hw : written_whole sample_table = true) by (vm_compute; reflexivity).
  split; [exact Hv|]. split; [exact Hw|]. split; [reflexivity|].
  exact (export_reload_row_count sample_table (fs_with (to_csv sample_table))
           data_file Hv Hw eq_refl).
Defined.

(** ** Sorting *)

Section SortFacts.
Context {A : Type} (leb : A -> A -> bool).

Lemma insert_perm x l : Permutation (x :: l) (insert leb x l).
Proof.
  induction l as [|y l IH]; simpl; [reflexivity|].
  destruct (leb x y); [reflexivity|].
  rewrite perm_swap. now constructor.
Qed.

Lemma isort_perm l : Permutation l (isort leb l).
Proof.
  induction l as [|x l IH]; simpl; [constructor|].
  rewrite <- insert_perm. now constructor.
Qed.

Context (R : A -> A -> Prop) (P : A -> Prop).
Hypothesis leb_true : forall a b, P a -> P b -> leb a b = true -> R a b.
Hypothesis leb_false : forall a b, P a -> P b -> leb a b = false -> R b a.
Hypothesis R_trans : forall a b c, P a -> P b -> P c -> R a b -> R b c -> R a c.

Lemma insert_sorted x l :
  P x -> Forall P l -> StronglySorted R l -> StronglySorted R (insert leb x l).
Proof.
  intros Hx Hl Hs. induction l as [|y l IH]; simpl.
  - constructor; constructor.
  - inversion Hl as [|? ? Hy Hl']; subst.
    inversion Hs as [|? ? Hs' Hall]; subst.
    destruct (leb x y) eqn:E.
    + constructor; [assumption|]. constructor.
      * now apply leb_true.
      * rewrite Forall_forall in *. intros z Hz.
        apply (R_trans x y z); auto.
    + constructor; [now apply IH|].
      rewrite Forall_forall in *. intros z Hz.
      apply (Permutation_in _ (Permutation_sym (insert_perm x l))) in Hz.
      destruct Hz as [<-|Hz]; [now apply leb_false | now apply Hall].
Qed.

Lemma isort_sorted l : Forall P l -> StronglySorted R (isort leb l).
Proof.
  induction l as [|x l IH]; intros Hl; simpl; [constructor|].
  inversion Hl as [|? ? Hx Hl']; subst.
  apply insert_sorted; auto.
  rewrite Forall_forall in *. intros z Hz.
  apply Hl'. apply (Permutation_in _ (Permutation_sym (isort_perm l))), Hz.
Qed.
End SortFacts.

Lemma sorted_app {A} (R : A -> A -> Prop) l1 l2 :
  StronglySorted R l1 -> StronglySorted R l2 ->
  (forall a b, In a l1 -> In b l2 -> R a b) ->
  StronglySorted R (l1 ++ l2).
Proof.
  intros H1 H2 H. induction H1 as [|x l1 Hs IH Hall]; simpl; [assumption|].
  constructor.
  - apply IH. intros a b Ha Hb. apply H; [now right|assumption].
  - apply Forall_app. split; [assumption|].
    apply Forall_forall. intros b Hb. apply H; [now left|assumption].
Qed.

Lemma sorted_split {A} (R : A -> A -> Prop) n l :
  StronglySorted R l ->
  StronglySorted R (firstn n l)
  /\ forall a b, In a (firstn n l) -> In b (skipn n l) -> R a b.
Proof.
  intros Hs. revert n. induction Hs as [|x l Hs IH Hall]; intros [|n]; simpl.
  - split; [constructor|intros ? ? []].
  - split; [constructor|intros ? ? []].
  - split; [constructor|intros ? ? []].
  - destruct (IH n) as [IH1 IH2]. split.
    + constructor; [assumption|].
      rewrite Forall_forall in *. intros z Hz. apply Hall.
      rewrite <- (firstn_skipn n l). apply in_or_app. now left.
    + intros a b [<-|Ha] Hb.
      * rewrite Forall_forall in Hall. apply Hall.
        rewrite <- (firstn_skipn n l). apply in_or_app. now right.
      * now apply IH2.
Qed.

Lemma filter_split_perm {A} (f : A -> bool) l :
  Permutation l (filter f l ++ filter (fun x => negb (f x)) l).
Proof.
  induction l as [|x l IH]; simpl; [constructor|].
  destruct (f x); simpl.
  - now constructor.
  - now apply Permutation_cons_app.
Qed.

(** ** The Recent Issues table *)

Lemma nlargest_created v :
  has_column "Created" v = true ->
  (forall r, In r (rows v) -> is_str (r "Created") = false) ->
  nlargest 10 "Created" v
  = Ok {| columns := columns v; rows := firstn 10 (by_recency v) |}.
Proof.
  intros Hcr Hns. unfold nlargest.
  rewrite (getitem_ok _ _ Hcr). cbn [bind].
  replace (existsb is_str _) with false; [reflexivity|].
  symmetry. apply not_true_is_false. intros H.
  apply existsb_exists in H as (c & Hc & Hstr).
  apply in_map_iff in Hc as (r & <- & Hr). rewrite (Hns r Hr) in Hstr.
  discriminate.
Qed.

Lemma recent_issues_spec v :
  has_column "Created" v = true ->
  has_column "Summary" v = true ->
  has_column "Category" v = true ->
  has_column "Review_Flag" v = true ->
  (forall r, In r (rows v) -> is_str (r "Created") = false) ->
  recent_issues v
  = Ok (Some {| columns := ["Summary"; "Category"; "Created"; "Review_Flag"];
                rows := firstn 10 (by_recency v) |}).
Proof.
  intros Hcr Hsum Hcat Hflag Hns. unfold recent_issues.
  rewrite Hcr, (nlargest_created v Hcr Hns). cbn [bind].
  unfold select. cbn [filter].
  unfold has_column in *. cbn [columns].
  rewrite Hcr, Hsum, Hcat, Hflag. reflexivity.
Qed.

Lemma by_recency_perm v : Permutation (rows v) (by_recency v).
Proof.
  unfold by_recency. rewrite <- isort_perm. apply filter_split_perm.
Qed.

Lemma by_recency_sorted v :
  (forall r, In r (rows v) -> is_str (r "Created") = false) ->
  StronglySorted not_older (by_recency v).
Proof.
  intros Hns. unfold by_recency. apply sorted_app.
  - apply (isort_sorted (key_geb "Created") not_older
             (fun r => exists t, r "Created" = Ts t)).
    + intros a b [ta Ha] [tb Hb]. unfold key_geb, not_older, created_rank.
      rewrite Ha, Hb. cbn. intros H. now apply Z.leb_le.
    + intros a b [ta Ha] [tb Hb]. unfold key_geb, not_older, created_rank.
      rewrite Ha, Hb. cbn. intros H. apply Z.leb_gt in H. lia.
    + intros a b c [ta Ha] [tb Hb] [tc Hc]. unfold not_older, created_rank.
      rewrite Ha, Hb, Hc. cbn. lia.
    + apply Forall_forall. intros r Hr. apply filter_In in Hr as [Hr Hp].
      specialize (Hns r Hr). unfold has_created in Hp.
      destruct (r "Created"); try discriminate. eauto.
  - assert (Hnone : forall r, lacks_created r = true -> created_rank r = None).
    { intros r. unfold lacks_created, created_rank, isna.
      destruct (r "Created"); cbn; try discriminate; reflexivity. }
    induction (rows v) as [|x l IH]; simpl; [constructor|].
    destruct (lacks_created x) eqn:E; [|apply IH; intros; apply Hns; now right].
    constructor; [apply IH; intros; apply Hns; now right|].
    apply Forall_forall. intros r Hr. apply filter_In in Hr as [_ Hr].
    unfold not_older. now rewrite (Hnone r Hr).
  - intros a b _ Hb. apply filter_In in Hb as [_ Hb].
    unfold not_older, created_rank. unfold lacks_created, isna in Hb.
    destruct (b "Created"); cbn in Hb; try discriminate; exact I.
Qed.

Lemma filtered_view_created_not_str v r :
  filtered_view v -> has_column "Created" v = true ->
  In r (rows v) -> is_str (r "Created") = false.
Proof.
  intros Hv Hc Hr. apply filtered_view_inv in Hv as (df & keep & Hl & Hcols & Hrows).
  rewrite Hrows in Hr. apply filter_In in Hr as [Hr _].
  apply (loaded_created_not_str df r Hl); [|assumption].
  unfold has_column in *. now rewrite <- Hcols.
Qed.

Lemma firstn_In {A} n (l : list A) x : In x (firstn n l) -> In x l.
Proof.
  intros H. rewrite <- (firstn_skipn n l). apply in_or_app. now left.
Qed.

(** C6, as stated, fails on a table of twelve tickets of which eight
    have a creation time: fewer than 10 rows have a Created timestamp, yet
    the Recent Issues table has 10 rows, the eight and two rows that have
    no timestamp at all. *)
Lemma recent_issues_undated_counterexample :
  filtered_view twelve_table
  /\ has_column "Created" twelve_table = true
  /\ List.length (filter has_created (rows twelve_table)) = 8
  /\ exists shown,
      recent_issues twelve_table = Ok (Some shown)
      /\ len shown = 10
      /\ map (fun r : Row => r "Summary") (filter lacks_created (rows shown))
         = [Str "T02"; Str "T05"].
Proof.
  split; [|split; [reflexivity|split; [reflexivity|]]].
  - exists twelve_table, (Str "All"), "All". split; [|reflexivity].
    exists (fs_with twelve_csv), data_file, []. vm_compute. reflexivity.
  - eexists. split; [vm_compute; reflexivity|]. split; reflexivity.
Qed.

(** C6, amended.  For every filtered view that has the Created and
    Summary columns, the Recent Issues table shows four columns of
    min(10, n) of the n rows of the view, all of them when the view has at
    most 10; the rows are ranked by creation time, a row without one
    ranking below every row that has one: no row left out is more recent
    than a row shown, and the rows are shown from the most recent down.
    So the table holds the 10 rows with the largest creation times when 10
    rows or more have one, and otherwise every row that has one, followed
    by rows that have none. *)
Theorem recent_issues_top10 v :
  filtered_view v ->
  has_column "Created" v = true ->
  has_column "Summary" v = true ->
  exists shown rest,
    recent_issues v = Ok (Some shown)
    /\ columns shown = ["Summary"; "Category"; "Created"; "Review_Flag"]
    /\ Permutation (rows v) (rows shown ++ rest)
    /\ len shown = Nat.min 10 (len v)
    /\ (len v <= 10 -> rest = [])
    /\ (forall r r', In r (rows shown) -> In r' rest -> not_older r r')
    /\ StronglySorted not_older (rows shown)
    /\ (10 <= List.length (filter has_created (rows v)) ->
        forall r, In r (rows shown) -> has_created r = true)
    /\ (List.length (filter has_created (rows v)) <= 10 ->
        forall r, In r (rows v) -> has_created r = true -> In r (rows shown)).
Proof.
  intros Hv Hcr Hsum. destruct (filtered_view_columns v Hv) as [Hcat Hflag].
  pose proof (fun r => filtered_view_created_not_str v r Hv Hcr) as Hns.
  exists {| columns := ["Summary"; "Category"; "Created"; "Review_Flag"];
            rows := firstn 10 (by_recency v) |},
         (skipn 10 (by_recency v)).
  split; [now apply recent_issues_spec|].
  split; [reflexivity|].
  cbn [rows]. rewrite firstn_skipn.
  pose proof (by_recency_perm v) as Hperm.
  pose proof (Permutation_length Hperm) as Hlen.
  destruct (sorted_split not_older 10 (by_recency v) (by_recency_sorted v Hns))
    as [Hsorted Hcut].
  split; [assumption|].
  split; [unfold len; cbn [rows]; rewrite length_firstn; now rewrite Hlen|].
  split; [intros Hle; apply skipn_all2; unfold len in Hle; lia|].
  split; [assumption|]. split; [assumption|].
  assert (Hdated : Permutation (filter has_created (rows v))
                     (isort (key_geb "Created") (filter has_created (rows v))))
    by apply isort_perm.
  pose proof (Permutation_length Hdated) as Hdlen.
  split.
  - intros Hten r Hr. unfold by_recency in Hr. rewrite firstn_app in Hr.
    replace (10 - _) with 0 in Hr by lia.
    change (firstn 0 (filter lacks_created (rows v))) with (@nil Row) in Hr.
    rewrite app_nil_r in Hr. apply firstn_In in Hr.
    apply (Permutation_in _ (Permutation_sym Hdated)) in Hr.
    now apply filter_In in Hr.
  - intros Hfew r Hr Hc. unfold by_recency. rewrite firstn_app.
    apply in_or_app. left. rewrite firstn_all2 by lia.
    apply (Permutation_in _ Hdated). apply filter_In. now split.
Qed.

(** The Recent Issues of the twelve tickets: ten rows, two left out. *)
Lemma recent_issues_top10_witness :
  filtered_view twelve_table
  /\ has_column "Created" twelve_table = true
  /\ has_column "Summary" twelve_table = true
  /\ len twelve_table = 12
  /\ exists shown rest,
      recent_issues twelve_table = Ok (Some shown)
      /\ columns shown = ["Summary"; "Category"; "Created"; "Review_Flag"]
      /\ Permutation (rows twelve_table) (rows shown ++ rest)
      /\ len shown = Nat.min 10 (len twelve_table)
      /\ (len twelve_table <= 10 -> rest = [])
      /\ (forall r r', In r (rows shown) -> In r' rest -> not_older r r')
      /\ StronglySorted not_older (rows shown)
      /\ (10 <= List.length (filter has_created (rows twelve_table)) ->
          forall r, In r (rows shown) -> has_created r = true)
      /\ (List.length (filter has_created (rows twelve_table)) <= 10 ->
          forall r, In r (rows twelve_table) -> has_created r = true ->
                    In r (rows shown)).
Proof.
  assert (Hv : filtered_view twelve_table).
  { exists twelve_table, (Str "All"), "All". split; [|reflexivity].
    exists (fs_with twelve_csv), data_file, []. vm_compute. reflexivity. }
  split; [exact Hv|]. split; [reflexivity|]. split; [reflexivity|].
  split; [reflexivity|].
  exact (recent_issues_top10 twelve_table Hv eq_refl eq_refl).
Defined.

(** C10, as stated, fails on the sample table: its second ticket has no
    creation time that parses, and it is the third row of the Recent
    Issues table, after the two tickets that have one. *)
Lemma absent_created_shown_counterexample :
  filtered_view sample_table
  /\ exists shown,
      recent_issues sample_table = Ok (Some shown)
      /\ map (fun r : Row => r "Created") (rows shown)
         = [Ts (mkTimestamp 2024 1 17 8 0); Ts (mkTimestamp 2024 1 15 10 30); NaN].
Proof.
  split.
  - exists sample_table, (Str "All"), "All". split; [|reflexivity].
    apply sample_loaded.
  - eexists. split; reflexivity.
Qed.

Lemma filter_none {A} (f : A -> bool) (l : list A) :
  (forall x, In x l -> f x = false) -> filter f l = [].
Proof.
  induction l as [|x l IH]; intros H; simpl; [reflexivity|].
  rewrite (H x) by now left. apply IH. intros y Hy. apply H. now right.
Qed.

(** C10, amended.  For every filtered view that has a Created column,
    with p rows that have a creation time and a rows that have none, the
    rows that [nlargest(10, 'Created')] returns, which the Recent Issues
    table shows whenever the view has the Summary column, include
    min(10 - p, a) rows without a creation time: none when the view has 10
    rows or more with a creation time, and otherwise as many as fill the
    table up to 10 rows. *)
Theorem absent_created_fill_table v :
  filtered_view v ->
  has_column "Created" v = true ->
  exists top,
    nlargest 10 "Created" v = Ok top
    /\ (has_column "Summary" v = true ->
        recent_issues v
        = Ok (Some {| columns := ["Summary"; "Category"; "Created"; "Review_Flag"];
                      rows := rows top |}))
    /\ List.length (filter lacks_created (rows top))
       = Nat.min (10 - List.length (filter has_created (rows v)))
                 (List.length (filter lacks_created (rows v)))
    /\ (10 <= List.length (filter has_created (rows v)) ->
        forall r, In r (rows top) -> r "Created" <> NaN).
Proof.
  intros Hv Hcr. destruct (filtered_view_columns v Hv) as [Hcat Hflag].
  pose proof (fun r => filtered_view_created_not_str v r Hv Hcr) as Hns.
  eexists. split; [now apply nlargest_created|].
  split; [intros Hsum; now apply recent_issues_spec|]. cbn [rows].
  set (present := isort (key_geb "Created") (filter has_created (rows v))).
  set (absent := filter lacks_created (rows v)).
  assert (Hlen : List.length present = List.length (filter has_created (rows v))).
  { symmetry. apply Permutation_length, isort_perm. }
  assert (Hpresent : forall r, In r present -> lacks_created r = false).
  { intros r Hr.
    apply (Permutation_in _ (Permutation_sym (isort_perm _ _))) in Hr.
    apply filter_In in Hr as [_ Hr]. unfold lacks_created, isna.
    unfold has_created in Hr. now rewrite Hr. }
  assert (Habsent : forall r, In r absent -> lacks_created r = true).
  { intros r Hr. now apply filter_In in Hr as [_ Hr]. }
  assert (Hshown : firstn 10 (by_recency v)
                   = (firstn 10 present
                      ++ firstn (10 - List.length present) absent)%list).
  { unfold by_recency. fold present absent. apply firstn_app. }
  rewrite Hshown. split.
  - rewrite filter_app, filter_none, filter_all.
    + cbn [app]. rewrite length_firstn. now rewrite Hlen.
    + intros r Hr. apply Habsent. eapply firstn_In, Hr.
    + intros r Hr. apply Hpresent. eapply firstn_In, Hr.
  - intros Hmany r Hr.
    replace (10 - List.length present) with 0 in Hr by lia.
    change (firstn 0 absent) with (@nil Row) in Hr. rewrite app_nil_r in Hr.
    apply firstn_In in Hr. apply Hpresent in Hr.
    unfold lacks_created, isna in Hr. intros E. rewrite E in Hr. discriminate.
Qed.

(** The sample table has two tickets with a creation time and one without. *)
Lemma absent_created_fill_table_witness :
  filtered_view sample_table
  /\ has_column "Created" sample_table = true
  /\ exists top,
      nlargest 10 "Created" sample_table = Ok top
      /\ (has_column "Summary" sample_table = true ->
          recent_issues sample_table
          = Ok (Some {| columns := ["Summary"; "Category"; "Created"; "Review_Flag"];
                        rows := rows top |}))
      /\ List.length (filter lacks_created (rows top)) = Nat.min (10 - 2) 1
      /\ (10 <= 2 -> forall r, In r (rows top) -> r "Created" <> NaN).
Proof.
  assert (Hv : filtered_view sample_table).
  { exists sample_table, (Str "All"), "All". split; [|reflexivity].
    exists (fs_with sample_csv), data_file, []. vm_compute. reflexivity. }
  split; [exact Hv|]. split; [reflexivity|].
  exact (absent_created_fill_table sample_table Hv eq_refl).
Defined.

(** The sample file, loaded. *)
Lemma load_data_fills_defaults_witness :
  load_data (fs_with sample_csv) data_file = ([], Ok (Some sample_table))
  /\ exists raw,
      read_csv (fs_with sample_csv) data_file = Ok raw /\
      Forall2 (fun r0 r : Row =>
                 r "Category" <> NaN /\ r "Review_Flag" <> NaN
                 /\ (r0 "Category" = NaN -> r "Category" = Str "Uncategorized")
                 /\ (r0 "Review_Flag" = NaN -> r "Review_Flag" = Str "NO")
                 /\ (r0 "Category" <> NaN -> r "Category" = r0 "Category")
                 /\ (r0 "Review_Flag" <> NaN -> r "Review_Flag" = r0 "Review_Flag"))
              (rows raw) (rows sample_table).
Proof.
  split; [reflexivity|].
  exact (load_data_fills_defaults (fs_with sample_csv) data_file [] sample_table
           eq_refl).
Defined.


(** The second ticket of the sample: its creation date is not in the
    format and is missing after loading. *)
Example sample_created_column :
  map (fun r : Row => r "Created") (rows sample_raw)
  = [Str "15/01/2024 10:30"; Str "2024-01-16 09:00:00"; Str "17/01/2024 08:00"]
  /\ map (fun r : Row => r "Created") (rows sample_table)
     = [Ts (mkTimestamp 2024 1 15 10 30); NaN; Ts (mkTimestamp 2024 1 17 8 0)].
Proof. split; reflexivity. Qed.

(** ** The Category Breakdown table *)

(** C2 fails on the sample table, taken unfiltered.  Its second ticket has
    no Summary: the 'count' of the Summary column leaves it out, the Total
    of "Uncategorized" is 0, and the Totals add up to 2 for a view of 3
    rows. *)
Theorem category_totals_miss_blank_summary :
  filtered_view sample_table
  /\ len sample_table = 3
  /\ exists stats,
      category_stats sample_table = Ok stats
      /\ map (fun s => (stat_category s, stat_total s)) stats
         = [(Str "All", 1); (Str "Bug", 1); (Str "Uncategorized", 0)]
      /\ list_sum (map stat_total stats) = 2.
Proof.
  split.
  - exists sample_table, (Str "All"), "All". split; [|reflexivity].
    apply sample_loaded.
  - split; [reflexivity|]. eexists. split; [reflexivity|]. split; reflexivity.
Qed.

(** ** main *)

(** C8 fails on a file without a Resolved column: [load_data] returns a
    table and reports nothing, and [main] then stops with a KeyError raised
    by [create_summary_metrics], after the sidebar and before any metric. *)
Theorem main_fails_without_resolved :
  (exists df, load_data (fs_with no_resolved_csv) data_file = ([], Ok (Some df)))
  /\ main (fs_with no_resolved_csv) first_visit
     = ([StMarkdown MainHeader; StMarkdown Divider;
         SidebarMarkdown SidebarControls;
         SidebarSelectbox "Filter by Category:" [Str "All"; Str "Bug"];
         SidebarSelectbox "Filter by Review Status:"
           [Str "All"; Str "Flagged for Review"; Str "Auto-Assigned"];
         SidebarDateInput "Date Range:" (2024, 1, 15) (2024, 1, 15)],
        Raise (KeyError "Resolved")).
Proof.
  split; [exists (table_of no_resolved_csv)|]; vm_compute; reflexivity.
Qed.

(** When loading fails, [load_data] returns [None] after reporting the
    exception, and [main] adds one message and stops: nothing is filtered,
    aggregated or drawn. *)
Lemma main_load_failure fs ui e :
  load_data_try fs data_file = Raise e ->
  load_data fs data_file
  = ([StError ("Error loading data: " ++ exn_message e)], Ok None)
  /\ main fs ui
     = ([StMarkdown MainHeader; StMarkdown Divider;
         StError ("Error loading data: " ++ exn_message e);
         StError "Failed to load data. Please check the file path and format."],
        Ok tt).
Proof.
  intros H. unfold main, load_data. rewrite H. split; reflexivity.
Qed.

(** ** What the Totals of the Category Breakdown add up to *)

Lemma unique_once s c :
  In c s -> List.length (filter (cell_same c) (unique s)) = 1.
Proof.
  induction s as [|a s IH]; intros Hc; [destruct Hc|]. simpl.
  assert (Hdrop : forall l,
             cell_same c a = true ->
             filter (cell_same c) (filter (fun x => negb (cell_same x a)) l) = []).
  { intros l E. apply cell_same_eq in E. subst a. apply filter_none.
    intros x Hx. apply filter_In in Hx as [_ Hx].
    destruct (cell_same c x) eqn:E; [|reflexivity].
    apply cell_same_eq in E. subst x.
    rewrite (proj2 (cell_same_eq c c) eq_refl) in Hx. discriminate. }
  assert (Hkeep : forall l,
             cell_same c a = false ->
             filter (cell_same c) (filter (fun x => negb (cell_same x a)) l)
             = filter (cell_same c) l).
  { intros l E. induction l as [|x l IHl]; simpl; [reflexivity|].
    destruct (cell_same x a) eqn:Ex; simpl.
    - apply cell_same_eq in Ex. subst x. now rewrite E.
    - now rewrite IHl. }
  destruct (cell_same c a) eqn:E.
  - now rewrite Hdrop.
  - rewrite Hkeep by reflexivity. apply IH.
    destruct Hc as [->|Hc]; [|assumption].
    rewrite (proj2 (cell_same_eq c c) eq_refl) in E. discriminate.
Qed.

Lemma filter_length_perm {A} (f : A -> bool) l l' :
  Permutation l l' -> List.length (filter f l) = List.length (filter f l').
Proof.
  induction 1 as [|x l l' _ IH|x y l|l l' l'' _ IH1 _ IH2]; simpl.
  - reflexivity.
  - destruct (f x); simpl; now rewrite IH.
  - destruct (f x), (f y); reflexivity.
  - now rewrite IH1.
Qed.

Lemma group_keys_once s c :
  In c s -> notna c = true ->
  List.length (filter (cell_same c) (group_keys s)) = 1.
Proof.
  intros Hc Hn. unfold group_keys.
  rewrite <- (filter_length_perm (cell_same c) _ _
                (isort_perm cell_leb (filter notna (unique s)))).
  rewrite <- (unique_once s c Hc). f_equal.
  induction (unique s) as [|x l IH]; simpl; [reflexivity|].
  destruct (notna x) eqn:Ex; simpl.
  - now rewrite IH.
  - destruct (cell_same c x) eqn:E; [|assumption].
    apply cell_same_eq in E. subst x. congruence.
Qed.

Lemma list_sum_add {A} (f g : A -> nat) l :
  list_sum (map (fun k => f k + g k) l)
  = list_sum (map f l) + list_sum (map g l).
Proof. induction l as [|x l IH]; simpl; [reflexivity|]. rewrite IH. lia. Qed.

Lemma list_sum_indicator {A} (f : A -> bool) l :
  list_sum (map (fun k => if f k then 1 else 0) l) = List.length (filter f l).
Proof.
  induction l as [|x l IH]; simpl; [reflexivity|].
  destruct (f x); simpl; now rewrite IH.
Qed.

(** Counting by group and adding up counts each element whose key is one
    of the group keys once. *)
Lemma group_counts_add_up {A} (key : A -> cell) (q : A -> bool) keys (l : list A) :
  (forall x, In x l -> List.length (filter (cell_same (key x)) keys) = 1) ->
  list_sum (map (fun k =>
                   List.length (filter q (filter (fun x => cell_same (key x) k) l)))
                keys)
  = List.length (filter q l).
Proof.
  induction l as [|x l IH]; intros H; simpl.
  - clear H. induction keys as [|k keys IHk]; simpl; auto.
  - rewrite (map_ext _ (fun k =>
               (if cell_same (key x) k && q x then 1 else 0)
               + List.length (filter q (filter (fun x => cell_same (key x) k) l)))).
    2:{ intros k. destruct (cell_same (key x) k); simpl; [|reflexivity].
        destruct (q x); reflexivity. }
    rewrite list_sum_add, IH by (intros y Hy; apply H; now right).
    rewrite list_sum_indicator.
    destruct (q x); simpl.
    + rewrite (filter_ext _ (cell_same (key x))) by (intros k; apply andb_true_r).
      rewrite H by now left. reflexivity.
    + rewrite filter_none by (intros k _; apply andb_false_r). reflexivity.
Qed.

Lemma filter_map_length {A B} (p : B -> bool) (g : A -> B) l :
  List.length (filter p (map g l)) = List.length (filter (fun x => p (g x)) l).
Proof.
  induction l as [|x l IH]; simpl; [reflexivity|].
  destruct (p (g x)); simpl; now rewrite IH.
Qed.

Lemma agg_columns_ok df labels :
  forallb (fun c => has_column c df) labels = true -> agg_columns df labels = Ok tt.
Proof.
  intros H. unfold agg_columns. rewrite filter_none; [reflexivity|].
  intros c Hc. rewrite forallb_forall in H. now rewrite (H c Hc).
Qed.

(** For every filtered view with the Summary and Resolved columns, the
    Category Breakdown is produced and its Totals add up to the number of
    rows of the view whose Summary is present. *)
Lemma category_totals_count_summaries v :
  filtered_view v ->
  has_column "Summary" v = true ->
  has_column "Resolved" v = true ->
  exists stats,
    category_stats v = Ok stats
    /\ list_sum (map stat_total stats)
       = List.length (filter (fun r : Row => notna (r "Summary")) (rows v)).
Proof.
  intros Hv Hsum Hres. destruct (filtered_view_columns v Hv) as [Hcat Hflag].
  unfold category_stats.
  rewrite (getitem_ok _ _ Hcat), agg_columns_ok
    by (cbn [forallb]; now rewrite Hsum, Hflag, Hres).
  cbn [bind].
  eexists. split; [reflexivity|].
  rewrite map_map. cbn [stat_total].
  rewrite (map_ext _ (fun k =>
             List.length (filter (fun r : Row => notna (r "Summary"))
                            (filter (fun r : Row => cell_same (r "Category") k)
                               (rows v))))).
  2:{ intros k. rewrite map_map.
      rewrite (loc_rows v (fun r => cell_same (r "Category") k)). cbn [rows].
      unfold count. apply filter_map_length. }
  apply (group_counts_add_up (fun r : Row => r "Category")).
  intros r Hr. apply group_keys_once.
  - apply in_map_iff. now exists r.
  - apply filtered_view_inv in Hv as (df & keep & Hl & _ & Hrows).
    rewrite Hrows in Hr. apply filter_In in Hr as [Hr _].
    pose proof (loaded_category_str df r Hl Hr) as Hs.
    now destruct (r "Category").
Qed.

(** ** A run of main on a table with all the columns it reads *)

Lemma snd_pbind {A B} (c : page A) (k : A -> page B) :
  snd (pbind c k)
  = match snd c with
    | Ok a => snd (k a)
    | Raise e => Raise e
    end.
Proof. destruct c as [out [a|e]]; cbn; [now destruct (k a)|reflexivity]. Qed.

Lemma fst_pbind {A B} (c : page A) (k : A -> page B) :
  fst (pbind c k)
  = (fst c ++ match snd c with
              | Ok a => fst (k a)
              | Raise e => []
              end)%list.
Proof.
  destruct c as [out [a|e]]; cbn; [now destruct (k a)|now rewrite app_nil_r].
Qed.

Lemma sorted_strings values :
  forallb is_str values = true ->
  exists ordered, sorted values = Ok ordered /\ Permutation values ordered.
Proof.
  intros H. unfold sorted. destruct values as [|a [|b l]].
  - now exists [].
  - now exists [a].
  - rewrite H. eexists. split; [reflexivity|apply isort_perm].
Qed.

Lemma select_available df cols :
  select df (filter (fun col => has_column col df) cols)
  = Ok {| columns := filter (fun col => has_column col df) cols; rows := rows df |}.
Proof.
  unfold select. rewrite filter_none; [reflexivity|].
  intros c Hc. apply filter_In in Hc as [_ Hc]. now rewrite Hc.
Qed.

Lemma create_summary_metrics_spec v :
  has_column "Review_Flag" v = true ->
  has_column "Category" v = true ->
  has_column "Resolved" v = true ->
  create_summary_metrics v
  = Ok (len v, flagged_count v,
        nunique (map (fun r : Row => r "Category") (rows v)),
        List.length (filter (fun r : Row => notna (r "Resolved")) (rows v))).
Proof.
  intros Hflag Hcat Hres. unfold create_summary_metrics.
  rewrite (getitem_ok _ _ Hflag), (getitem_ok _ _ Hcat), (getitem_ok _ _ Hres).
  cbn [bind]. rewrite loc_series_eq, map_map.
  rewrite (loc_rows v (fun r => notna (r "Resolved"))). reflexivity.
Qed.

Lemma percent_delta_spec part total_issues :
  percent_delta part total_issues = Ok (percent part total_issues).
Proof.
  unfold percent_delta, percent, truediv.
  destruct total_issues; reflexivity.
Qed.

Lemma unique_all_str s :
  (forall c, In c s -> is_str c = true) -> forallb is_str (unique s) = true.
Proof.
  intros H. apply forallb_forall. intros c Hc. apply H. now apply unique_In.
Qed.

Ltac run_page := repeat (rewrite snd_pbind; cbn [snd emit lift ret]).

Lemma insert_not_nil {A} (leb : A -> A -> bool) x l : insert leb x l <> [].
Proof. destruct l as [|y l]; simpl; [discriminate|]. destruct (leb x y); discriminate. Qed.

Lemma value_counts_not_nil c s : notna c = true -> value_counts (c :: s) <> [].
Proof.
  intros H. unfold value_counts. cbn [unique filter]. rewrite H.
  cbn [map]. unfold isort. cbn [fold_right]. apply insert_not_nil.
Qed.

(** The bar chart of a view with rows is drawn; that of a view without
    rows is refused. *)
Lemma bar_chart_drawn v :
  filtered_view v -> 0 < len v ->
  create_category_bar_chart v
  = Ok (BarFigure (value_counts (map (fun r : Row => r "Category") (rows v)))).
Proof.
  intros Hv Hpos. destruct (filtered_view_columns v Hv) as [Hcat _].
  unfold create_category_bar_chart. rewrite (getitem_ok _ _ Hcat). cbn [bind].
  apply filtered_view_inv in Hv as (df & keep & Hl & _ & Hrows).
  unfold len in Hpos. destruct (rows v) as [|r l] eqn:E; [simpl in Hpos; lia|].
  assert (Hr : In r (rows df)).
  { assert (Hin : In r (filter keep (rows df))) by (rewrite <- Hrows; now left).
    now apply filter_In in Hin. }
  pose proof (loaded_category_str df r Hl Hr) as Hs.
  cbn [map]. unfold px_bar.
  destruct (value_counts _) eqn:Evc; [|reflexivity].
  exfalso. revert Evc. apply value_counts_not_nil. now destruct (r "Category").
Qed.

Lemma bar_chart_refused v :
  has_column "Category" v = true -> len v = 0 ->
  exists msg, create_category_bar_chart v = Raise (ValueError msg).
Proof.
  intros Hcat Hlen. unfold create_category_bar_chart.
  rewrite (getitem_ok _ _ Hcat). cbn [bind].
  unfold len in Hlen. apply length_zero_iff_nil in Hlen. rewrite Hlen.
  cbn. eauto.
Qed.

(** The view [main] builds from a loaded table is a filtered view. *)
Lemma selected_view_spec df ui :
  loaded df ->
  exists values v,
    sorted (unique (map (fun r : Row => r "Category") (rows df))) = Ok values
    /\ apply_filters df (selectbox (Str "All" :: values) (category_choice ui) (Str "All"))
         (selectbox review_options (review_choice ui) "All") = Ok v
    /\ selected_view df ui = Ok v
    /\ filtered_view v
    /\ columns v = columns df.
Proof.
  intros Hl. destruct (loaded_columns df Hl) as [Hcat Hflag].
  destruct (sorted_strings (unique (map (fun r : Row => r "Category") (rows df))))
    as (values & Hvalues & _).
  { apply unique_all_str. intros c Hc. apply in_map_iff in Hc as (r & <- & Hr).
    now apply (loaded_category_str df). }
  pose proof (apply_filters_spec df
                (selectbox (Str "All" :: values) (category_choice ui) (Str "All"))
                (selectbox review_options (review_choice ui) "All") Hcat Hflag)
    as Hview.
  match type of Hview with _ = Ok ?x => set (v := x) in * end.
  exists values, v. split; [exact Hvalues|]. split; [exact Hview|].
  split; [|split; [exists df; eauto|reflexivity]].
  unfold selected_view. rewrite (getitem_ok _ _ Hcat). cbn [bind].
  rewrite Hvalues. cbn [bind]. exact Hview.
Qed.

Lemma agg_columns_summary v :
  has_column "Summary" v = false ->
  has_column "Review_Flag" v = true ->
  has_column "Resolved" v = true ->
  agg_columns v ["Summary"; "Review_Flag"; "Resolved"]
  = Raise (KeyError "Column(s) ['Summary'] do not exist").
Proof.
  intros Hsum Hflag Hres. unfold agg_columns. cbn [filter].
  rewrite Hsum, Hflag, Hres. reflexivity.
Qed.

(** After the load, [main] stops where the metrics, the bar chart or the
    Category Breakdown stop, and nowhere else. *)
Lemma main_end fs ui df v :
  load_data_try fs data_file = Ok df ->
  selected_view df ui = Ok v ->
  snd (main fs ui)
  = (_ <- create_summary_metrics v ;;
     _ <- create_category_bar_chart v ;;
     _ <- category_stats v ;;
     Ok tt).
Proof.
  intros H Hsel.
  assert (Hl : loaded df) by (exists fs, data_file, []; now apply load_data_some).
  destruct (loaded_columns df Hl) as [Hcat Hflag].
  assert (Hload : load_data fs data_file = ([], Ok (Some df)))
    by now apply load_data_some.
  destruct (selected_view_spec df ui Hl)
    as (values & v' & Hvalues & Hview & Hsel' & Hv & Hcols).
  assert (v' = v) by congruence. subst v'.
  assert (Hvcols : forall c, has_column c v = has_column c df)
    by (intros c; unfold has_column; now rewrite Hcols).
  unfold main. run_page. rewrite Hload. cbn [snd]. run_page.
  rewrite (getitem_ok _ _ Hcat). run_page.
  rewrite Hvalues. run_page.
  match goal with
  | |- match snd ?c with _ => _ end = _ => assert (Hdate : snd c = Ok tt)
  end.
  { destruct (has_column "Created" df) eqn:Hcr; [|reflexivity].
    run_page. rewrite (getitem_ok _ _ Hcr).
    destruct (existsb notna _); [|reflexivity].
    destruct (series_min _); [|reflexivity].
    destruct (series_max _); reflexivity. }
  rewrite Hdate. run_page.
  rewrite Hview. run_page.
  destruct (has_column "Resolved" df) eqn:Hres.
  2:{ unfold create_summary_metrics.
      rewrite (getitem_ok v "Review_Flag"), (getitem_ok v "Category")
        by (rewrite Hvcols; assumption).
      rewrite (getitem_raise v "Resolved") by (now rewrite Hvcols).
      reflexivity. }
  rewrite create_summary_metrics_spec by (rewrite Hvcols; assumption).
  cbn [bind]. run_page. rewrite !percent_delta_spec. run_page.
  destruct (Nat.eq_dec (len v) 0) as [Hz|Hnz].
  { destruct (bar_chart_refused v) as (msg & ->);
      [rewrite Hvcols; assumption|exact Hz|reflexivity]. }
  rewrite (bar_chart_drawn v Hv) by lia. cbn [bind]. run_page.
  unfold create_review_flag_chart.
  rewrite (getitem_ok v "Review_Flag") by (rewrite Hvcols; assumption).
  cbn [bind]. run_page.
  assert (Htimeline : exists fig, create_timeline_chart v = Ok fig).
  { unfold create_timeline_chart. rewrite (getitem_ok v "Category")
      by (rewrite Hvcols; assumption).
    destruct (has_column "Created" v); cbn [bind]; eauto. }
  destruct Htimeline as (fig & ->).
  rewrite snd_pbind.
  match goal with
  | |- match snd ?c with _ => _ end = _ =>
      assert (Hfig : snd c = Ok tt) by now destruct fig
  end.
  rewrite Hfig. run_page.
  destruct (has_column "Summary" df) eqn:Hsum.
  2:{ unfold category_stats.
      rewrite (getitem_ok v "Category") by (rewrite Hvcols; assumption).
      rewrite agg_columns_summary by (rewrite Hvcols; assumption).
      reflexivity. }
  destruct (category_totals_count_summaries v Hv) as (stats & Hstats & _);
    try (rewrite Hvcols; assumption).
  rewrite Hstats. cbn [bind]. run_page.
  assert (Hrecent : exists shown, recent_issues v = Ok shown).
  { destruct (has_column "Created" v) eqn:Hcr.
    - rewrite recent_issues_spec; eauto.
      intros r Hr. now apply (filtered_view_created_not_str v).
    - unfold recent_issues. rewrite Hcr. eauto. }
  destruct Hrecent as (shown & ->).
  rewrite snd_pbind.
  match goal with
  | |- match snd ?c with _ => _ end = _ =>
      assert (Hshown : snd c = Ok tt) by now destruct shown
  end.
  rewrite Hshown. run_page.
  match goal with
  | |- match snd ?c with _ => _ end = _ => assert (Hdetail : snd c = Ok tt)
  end.
  { destruct (show_detailed_data ui); [|reflexivity].
    run_page. now rewrite select_available. }
  rewrite Hdetail. run_page.
  destruct (download_clicked ui); reflexivity.
Qed.

Lemma getitem_raises df col e : getitem df col = Raise e -> e = KeyError col.
Proof. unfold getitem. destruct (has_column col df); congruence. Qed.

(** [main] raises nothing but a KeyError or a ValueError. *)
Lemma main_raises fs ui e :
  snd (main fs ui) = Raise e ->
  (exists key, e = KeyError key) \/ (exists msg, e = ValueError msg).
Proof.
  destruct (load_data_try fs data_file) as [df|e0] eqn:Hload.
  2:{ unfold main, load_data. rewrite Hload. discriminate. }
  assert (Hl : loaded df) by (exists fs, data_file, []; now apply load_data_some).
  destruct (selected_view_spec df ui Hl) as (values & v & _ & _ & Hsel & _ & _).
  rewrite (main_end fs ui df v Hload Hsel).
  unfold create_summary_metrics.
  destruct (getitem v "Review_Flag") eqn:E1; cbn [bind];
    [|intros H; injection H as <-; apply getitem_raises in E1; eauto].
  destruct (getitem v "Category") eqn:E2; cbn [bind];
    [|intros H; injection H as <-; apply getitem_raises in E2; eauto].
  destruct (getitem v "Resolved") eqn:E3; cbn [bind];
    [|intros H; injection H as <-; apply getitem_raises in E3; eauto].
  unfold create_category_bar_chart. rewrite E2. cbn [bind].
  unfold px_bar. destruct (value_counts _); cbn [bind];
    [intros H; injection H as <-; eauto|].
  unfold category_stats. rewrite E2. cbn [bind].
  unfold agg_columns. destruct (isort _ _); cbn [bind]; [discriminate|].
  intros H; injection H as <-; eauto.
Qed.

Lemma in_fst_pbind {A B} (c : page A) (k : A -> page B) x :
  In x (fst (pbind c k)) ->
  In x (fst c) \/ exists a, snd c = Ok a /\ In x (fst (k a)).
Proof.
  rewrite fst_pbind. intros H. apply in_app_or in H as [H|H]; [now left|].
  destruct (snd c) as [a|e]; [right; eauto|destruct H].
Qed.

Tactic Notation "walk" hyp(H) "as" ident(a) ident(Ha) :=
  apply in_fst_pbind in H as [H | (a & Ha & H)];
  cbn [fst snd emit lift ret In] in *.

(** A step that puts one element on the page, other than the one looked
    for, or none. *)
Ltac skip H :=
  let a := fresh "a" in
  let Ha := fresh "Ha" in
  walk H as a Ha; [first [contradiction | intuition discriminate]|];
  clear a Ha.

Lemma create_summary_metrics_inv v total_issues flagged_issues cats resolved :
  create_summary_metrics v = Ok (total_issues, flagged_issues, cats, resolved) ->
  total_issues = len v /\ flagged_issues = flagged_count v.
Proof.
  unfold create_summary_metrics.
  destruct (getitem v "Review_Flag") as [flag|] eqn:E1; [|discriminate].
  destruct (getitem v "Category") as [cat|] eqn:E2; [|discriminate].
  destruct (getitem v "Resolved") as [res|] eqn:E3; [|discriminate].
  cbn [bind]. intros H. injection H as <- <- _ _.
  apply getitem_inv in E1 as [_ ->]. rewrite loc_series_eq. now split.
Qed.

(** Whenever [main] shows the metric "Flagged for Review", the file has
    loaded, and the value of the metric is the number of rows whose
    Review_Flag is YES in the view that [main] built from the table and
    the selection, and its delta the share of that number in the rows of
    that view. *)
Lemma flagged_metric_shown fs ui value d :
  In (StMetric "Flagged for Review" value d) (fst (main fs ui)) ->
  exists df v,
    load_data_try fs data_file = Ok df
    /\ selected_view df ui = Ok v
    /\ value = flagged_count v
    /\ d = percent (flagged_count v) (len v).
Proof.
  unfold main. intros H.
  do 2 skip H.
  walk H as loaded_df Hload.
  { unfold load_data in H. destruct (load_data_try fs data_file); cbn in H;
      intuition discriminate. }
  destruct loaded_df as [df|]; [|cbn in H; intuition discriminate].
  assert (Htry : load_data_try fs data_file = Ok df).
  { unfold load_data in Hload. destruct (load_data_try fs data_file);
      cbn in Hload; congruence. }
  assert (Hl : loaded df) by (exists fs, data_file, []; now apply load_data_some).
  destruct (loaded_columns df Hl) as [Hcat Hflag].
  skip H.
  walk H as category Hcategory; [contradiction|].
  walk H as values Hvalues; [contradiction|].
  do 2 skip H.
  walk H as u Hdate.
  { exfalso. destruct (has_column "Created" df); [|destruct H].
    walk H as created Hcreated; [contradiction|].
    destruct (existsb notna created); [|destruct H].
    destruct (series_min created); [|destruct H].
    destruct (series_max created); cbn in H; intuition discriminate. }
  walk H as v Hview; [contradiction|].
  assert (Hsel : selected_view df ui = Ok v).
  { unfold selected_view. rewrite Hcategory. cbn [bind]. rewrite Hvalues.
    exact Hview. }
  walk H as metrics Hmetrics; [contradiction|].
  destruct metrics as [[[total_issues flagged_issues] cats] resolved].
  apply create_summary_metrics_inv in Hmetrics as [-> ->].
  skip H.
  walk H as flagged_delta Hdelta; [contradiction|].
  rewrite percent_delta_spec in Hdelta. injection Hdelta as <-.
  walk H as u1 Hu1.
  { destruct H as [H|[]]. injection H as <- <-. exists df, v. auto. }
  exfalso. clear Hview Hsel Hdate Hvalues Hcategory.
  skip H.
  walk H as resolved_delta Hresolved; [contradiction|].
  do 2 skip H.
  walk H as category_chart Hchart; [contradiction|]. skip H.
  walk H as review_chart Hreview; [contradiction|]. skip H.
  walk H as timeline_chart Htimeline; [contradiction|].
  walk H as u2 Hu2; [destruct timeline_chart; cbn in H; intuition discriminate|].
  do 3 skip H.
  walk H as stats Hstats; [contradiction|].
  do 2 skip H.
  walk H as recent Hrecent; [contradiction|].
  walk H as u3 Hu3; [destruct recent; cbn in H; intuition discriminate|].
  skip H.
  walk H as u4 Hu4.
  { destruct (show_detailed_data ui); [|destruct H].
    skip H. walk H as shown Hshown; [contradiction|].
    cbn in H. intuition discriminate. }
  skip H.
  walk H as u5 Hu5.
  { destruct (download_clicked ui); cbn in H; intuition discriminate. }
  skip H. cbn in H. intuition discriminate.
Qed.

Lemma in_fst_pbind_later {A B} (c : page A) (k : A -> page B) a x :
  snd c = Ok a -> In x (fst (k a)) -> In x (fst (pbind c k)).
Proof.
  intros Hc Hx. rewrite fst_pbind, Hc. apply in_or_app. now right.
Qed.

Lemma in_fst_pbind_now {A B} (c : page A) (k : A -> page B) x :
  In x (fst c) -> In x (fst (pbind c k)).
Proof. intros Hx. rewrite fst_pbind. apply in_or_app. now left. Qed.

Ltac next := eapply in_fst_pbind_later; [cbn [snd emit lift ret]; reflexivity|].

(** When the file loads and the table has a Resolved column, [main] shows
    the metric "Flagged for Review" of the view it built. *)
Lemma flagged_metric_produced fs ui df v :
  load_data_try fs data_file = Ok df ->
  has_column "Resolved" df = true ->
  selected_view df ui = Ok v ->
  In (StMetric "Flagged for Review" (flagged_count v)
        (percent (flagged_count v) (len v)))
     (fst (main fs ui)).
Proof.
  intros H Hres Hsel.
  assert (Hl : loaded df) by (exists fs, data_file, []; now apply load_data_some).
  destruct (loaded_columns df Hl) as [Hcat Hflag].
  assert (Hload : load_data fs data_file = ([], Ok (Some df)))
    by now apply load_data_some.
  destruct (selected_view_spec df ui Hl)
    as (values & v' & Hvalues & Hview & Hsel' & Hv & Hcols).
  assert (v' = v) by congruence. subst v'.
  assert (Hvcols : forall c, has_column c v = has_column c df)
    by (intros c; unfold has_column; now rewrite Hcols).
  unfold main. do 2 next.
  eapply in_fst_pbind_later; [rewrite Hload; reflexivity|]. cbn iota.
  next.
  eapply in_fst_pbind_later; [exact (getitem_ok _ _ Hcat)|].
  eapply in_fst_pbind_later; [exact Hvalues|].
  do 2 next.
  eapply (in_fst_pbind_later _ _ tt).
  { destruct (has_column "Created" df) eqn:Hcr; [|reflexivity].
    rewrite snd_pbind. cbn [snd lift]. rewrite (getitem_ok _ _ Hcr).
    destruct (existsb notna _); [|reflexivity].
    destruct (series_min _); [|reflexivity].
    destruct (series_max _); reflexivity. }
  eapply in_fst_pbind_later; [exact Hview|].
  eapply in_fst_pbind_later.
  { cbn [snd lift]. apply create_summary_metrics_spec; rewrite Hvcols; assumption. }
  cbn iota beta. next.
  eapply in_fst_pbind_later; [apply percent_delta_spec|].
  apply in_fst_pbind_now. now left.
Qed.

(** C4.  Whenever [main] shows the metric "Flagged for Review", its value
    is the number of rows whose Review_Flag is YES in the filtered view
    that [main] built from the loaded table and the selection, and its
    delta is that number divided by the number of rows of the view, times
    100, when the view has rows, and the text "0%" when it has none.
    [main] shows this metric whenever the file loads with a Category column
    of texts and a Resolved column, also for a view without rows.  And
    [main] never raises a ZeroDivisionError. *)
Theorem review_flag_percentage fs ui :
  (forall value d,
      In (StMetric "Flagged for Review" value d) (fst (main fs ui)) ->
      exists df v,
        load_data_try fs data_file = Ok df
        /\ selected_view df ui = Ok v
        /\ value = flagged_count v
        /\ (0 < len v ->
            d = DeltaPercent
                  ((Z.of_nat (flagged_count v) # Pos.of_nat (len v)) * inject_Z 100))
        /\ (len v = 0 -> d = DeltaText "0%"))
  /\ (forall raw df v,
        read_csv fs data_file = Ok raw ->
        text_column raw "Category" = true ->
        load_data_try fs data_file = Ok df ->
        has_column "Resolved" df = true ->
        selected_view df ui = Ok v ->
        In (StMetric "Flagged for Review" (flagged_count v)
              (percent (flagged_count v) (len v)))
           (fst (main fs ui)))
  /\ snd (main fs ui) <> Raise ZeroDivisionError.
Proof.
  split; [|split].
  - intros value d H.
    apply flagged_metric_shown in H as (df & v & Hload & Hsel & -> & ->).
    exists df, v. split; [assumption|]. split; [assumption|].
    split; [reflexivity|].
    unfold percent. split.
    + intros Hpos. destruct (len v); [lia|reflexivity].
    + now intros ->.
  - intros raw df v _ _ Hload Hres Hsel.
    now apply (flagged_metric_produced fs ui df v).
  - intros H. apply main_raises in H as [(key & H)|(msg & H)]; discriminate H.
Qed.

(** A first visit of the page on the sample file: one ticket in three is
    flagged. *)
Lemma review_flag_percentage_witness :
  In (StMetric "Flagged for Review" 1 (DeltaPercent ((1 # 3) * inject_Z 100)))
     (fst (main (fs_with sample_csv) first_visit))
  /\ exists df v,
      load_data_try (fs_with sample_csv) data_file = Ok df
      /\ selected_view df first_visit = Ok v
      /\ 1 = flagged_count v
      /\ (0 < len v ->
          DeltaPercent ((1 # 3) * inject_Z 100)
          = DeltaPercent
              ((Z.of_nat (flagged_count v) # Pos.of_nat (len v)) * inject_Z 100))
      /\ (len v = 0 -> DeltaPercent ((1 # 3) * inject_Z 100) = DeltaText "0%").
Proof.
  assert (H : In (StMetric "Flagged for Review" 1
                    (DeltaPercent ((1 # 3) * inject_Z 100)))
                 (fst (main (fs_with sample_csv) first_visit))).
  { vm_compute. do 7 right. left. reflexivity. }
  split; [exact H|].
  exact (proj1 (review_flag_percentage (fs_with sample_csv) first_visit) _ _ H).
Defined.

(** * Further properties of the script *)

(** ** load_data *)

(** X1.  [load_data] returns a table exactly when the file can be read
    and has the Category and the Review_Flag column; the table then has
    the columns of the file and one row per record of data, and nothing is
    reported.  In every other case it returns [None] after one message,
    made of the exception: the one [read_csv] raised, or the KeyError of
    the first of the two columns that the file lacks. *)
Theorem load_data_outcome fs file_path :
  match read_csv fs file_path with
  | Raise e =>
      load_data fs file_path
      = ([StError ("Error loading data: " ++ exn_message e)], Ok None)
  | Ok raw =>
      if has_column "Category" raw then
        if has_column "Review_Flag" raw then
          exists df,
            load_data fs file_path = ([], Ok (Some df))
            /\ columns df = columns raw /\ len df = len raw
        else
          load_data fs file_path
          = ([StError ("Error loading data: " ++ exn_message (KeyError "Review_Flag"))],
             Ok None)
      else
        load_data fs file_path
        = ([StError ("Error loading data: " ++ exn_message (KeyError "Category"))],
           Ok None)
  end.
Proof.
  destruct (read_csv fs file_path) as [raw|e] eqn:Hread.
  - destruct (has_column "Category" raw) eqn:Hcat.
    + destruct (has_column "Review_Flag" raw) eqn:Hflag.
      * exists {| columns := columns raw;
                  rows := map (loaded_row (columns raw)) (rows raw) |}.
        split; [|split; [reflexivity|]].
        -- apply load_data_some. split; [|reflexivity].
           apply load_data_try_spec. exists raw. auto.
        -- unfold len. cbn [rows]. apply length_map.
      * unfold load_data, load_data_try. rewrite Hread. cbn [bind].
        rewrite convert_date_columns_spec. cbn [bind].
        rewrite getitem_ok by exact Hcat. cbn [bind].
        rewrite getitem_raise; [reflexivity|].
        unfold fillna.
        rewrite (setitem_rows _ "Category"
                   (fun c => if notna c then c else Str "Uncategorized"))
          by exact Hcat.
        exact Hflag.
    + unfold load_data, load_data_try. rewrite Hread. cbn [bind].
      rewrite convert_date_columns_spec. cbn [bind].
      rewrite getitem_raise by exact Hcat. reflexivity.
  - unfold load_data, load_data_try. rewrite Hread. reflexivity.
Qed.

Lemma loaded_row_other cols r col :
  ~ In col date_columns -> col <> "Category" -> col <> "Review_Flag" ->
  loaded_row cols r col = r col.
Proof.
  intros Hd Hc Hf. unfold loaded_row, fill.
  rewrite !update_other by assumption. now apply fold_convert_other.
Qed.

(** X2.  In a table that [load_data] has returned, each row comes from
    one row of the file, in order.  A cell outside the four date columns,
    Category and Review_Flag is as read.  In a date column that the file
    has, a text that parses in the format has become its timestamp and a
    missing value has stayed missing. *)
Theorem load_data_converts_dates fs file_path out df :
  load_data fs file_path = (out, Ok (Some df)) ->
  exists raw,
    read_csv fs file_path = Ok raw /\
    columns df = columns raw /\
    Forall2 (fun r0 r : Row =>
               (forall col,
                   ~ In col date_columns -> col <> "Category" ->
                   col <> "Review_Flag" -> r col = r0 col)
               /\ (forall col,
                      In col date_columns -> has_column col raw = true ->
                      (r0 col = NaN -> r col = NaN)
                      /\ (forall text t,
                             r0 col = Str text -> strptime text = Some t ->
                             r col = Ts t)))
            (rows raw) (rows df).
Proof.
  intros H. apply load_data_some in H as [H _].
  apply load_data_try_spec in H as (raw & Hread & _ & _ & ->).
  exists raw. split; [assumption|]. split; [reflexivity|]. cbn [rows].
  apply Forall2_map_same. intros r _. split.
  - intros col Hd Hc Hf. now apply loaded_row_other.
  - intros col Hin Hcol. rewrite loaded_row_date by assumption.
    unfold has_column in Hcol. rewrite Hcol. split.
    + now intros ->.
    + intros text t -> Ht. cbn. now rewrite Ht.
Qed.

(** The sample file, loaded: the first creation date has been parsed. *)
Lemma load_data_converts_dates_witness :
  load_data (fs_with sample_csv) data_file = ([], Ok (Some sample_table))
  /\ exists raw,
      read_csv (fs_with sample_csv) data_file = Ok raw /\
      columns sample_table = columns raw /\
      Forall2 (fun r0 r : Row =>
                 (forall col,
                     ~ In col date_columns -> col <> "Category" ->
                     col <> "Review_Flag" -> r col = r0 col)
                 /\ (forall col,
                        In col date_columns -> has_column col raw = true ->
                        (r0 col = NaN -> r col = NaN)
                        /\ (forall text t,
                               r0 col = Str text -> strptime text = Some t ->
                               r col = Ts t)))
              (rows raw) (rows sample_table).
Proof.
  split; [reflexivity|].
  exact (load_data_converts_dates (fs_with sample_csv) data_file [] sample_table
           eq_refl).
Defined.

(** ** The sidebar *)

Lemma filter_twice {A} (f g : A -> bool) (l : list A) :
  filter g (filter f (filter g (filter f l))) = filter g (filter f l).
Proof.
  rewrite (filter_all f (filter g (filter f l))).
  - apply filter_all. intros x Hx. now apply filter_In in Hx as [_ Hx].
  - intros x Hx. apply filter_In in Hx as [Hx _].
    now apply filter_In in Hx as [_ Hx].
Qed.

Lemma filter_filter {A} (f g : A -> bool) (l : list A) :
  filter f (filter g l) = filter (fun x => g x && f x) l.
Proof.
  induction l as [|x l IH]; simpl; [reflexivity|].
  destruct (g x); simpl; [destruct (f x)|]; now rewrite IH.
Qed.

(** X3.  The filters only narrow a loaded table: a view has the columns
    of the table and some of its rows, in the order of the table, so never
    more rows than the table; applying the same selection to the view
    gives the view again; and the selection "All", "All" gives the table
    itself. *)
Theorem apply_filters_idempotent df selected_category selected_review v :
  loaded df ->
  apply_filters df selected_category selected_review = Ok v ->
  apply_filters v selected_category selected_review = Ok v
  /\ columns v = columns df
  /\ (exists keep, rows v = filter keep (rows df))
  /\ len v <= len df
  /\ apply_filters df (Str "All") "All" = Ok df.
Proof.
  intros Hl Hv. destruct (loaded_columns df Hl) as [Hcat Hflag].
  rewrite (apply_filters_spec df _ _ Hcat Hflag) in Hv. injection Hv as <-.
  split; [|split; [reflexivity|split; [|split]]].
  - rewrite apply_filters_spec by assumption. cbn [columns rows].
    now rewrite filter_twice.
  - cbn [rows]. eexists. apply filter_filter.
  - unfold len. cbn [rows].
    etransitivity; apply filter_length_le.
  - rewrite apply_filters_spec by assumption. cbn.
    rewrite !filter_all by reflexivity. now destruct df.
Qed.

(** The sample table, narrowed to the tickets flagged for review. *)
Lemma apply_filters_idempotent_witness :
  loaded sample_table
  /\ exists v,
      apply_filters sample_table (Str "All") "Flagged for Review" = Ok v
      /\ apply_filters v (Str "All") "Flagged for Review" = Ok v
      /\ columns v = columns sample_table
      /\ (exists keep, rows v = filter keep (rows sample_table))
      /\ len v <= len sample_table
      /\ apply_filters sample_table (Str "All") "All" = Ok sample_table.
Proof.
  assert (Hl : loaded sample_table)
    by (exists (fs_with sample_csv), data_file, []; vm_compute; reflexivity).
  split; [exact Hl|].
  eexists. split; [reflexivity|].
  exact (apply_filters_idempotent sample_table (Str "All") "Flagged for Review"
           _ Hl eq_refl).
Defined.

Lemma string_leb_trans a b c :
  String.leb a b = true -> String.leb b c = true -> String.leb a c = true.
Proof.
  unfold String.leb. revert b c.
  induction a as [|x a IH]; intros [|y b] [|z c]; cbn; try easy.
  unfold Ascii.compare.
  destruct (N.compare_spec (N_of_ascii x) (N_of_ascii y)) as [Exy|Lxy|Gxy];
    destruct (N.compare_spec (N_of_ascii y) (N_of_ascii z)) as [Eyz|Lyz|Gyz];
    try easy; intros Hab Hbc.
  - rewrite Exy, Eyz, N.compare_refl. now apply (IH b c).
  - rewrite Exy, (proj2 (N.compare_lt_iff _ _) Lyz). reflexivity.
  - rewrite <- Eyz, (proj2 (N.compare_lt_iff _ _) Lxy). reflexivity.
  - rewrite (proj2 (N.compare_lt_iff _ _) (N.lt_trans _ _ _ Lxy Lyz)). reflexivity.
Qed.

Lemma sorted_strings_ordered values :
  forallb is_str values = true ->
  exists ordered,
    sorted values = Ok ordered
    /\ Permutation values ordered
    /\ StronglySorted (fun a b => cell_leb a b = true) ordered.
Proof.
  intros H. unfold sorted. destruct values as [|a [|b l]].
  - exists []. repeat split; constructor.
  - exists [a]. repeat split; [reflexivity|]. constructor; constructor.
  - rewrite H. eexists. split; [reflexivity|]. split; [apply isort_perm|].
    apply (isort_sorted cell_leb _ (fun c => is_str c = true)).
    + intros x y _ _ E. exact E.
    + intros [|x|x] [|y|y]; try discriminate. intros _ _. cbn.
      destruct (String.leb_total x y) as [E|E]; [congruence|auto].
    + intros [|x|x] [|y|y] [|z|z]; try discriminate. intros _ _ _. cbn.
      apply string_leb_trans.
    + apply Forall_forall. now apply forallb_forall.
Qed.

Lemma unique_nodup s : NoDup (unique s).
Proof.
  induction s as [|c s IH]; simpl; constructor.
  - intros H. apply filter_In in H as [_ H].
    rewrite (proj2 (cell_same_eq c c) eq_refl) in H. discriminate.
  - now apply NoDup_filter.
Qed.

Ltac show_page := rewrite fst_pbind; cbn [fst snd emit lift ret].

(** X4.  When the file loads with a Category column of texts, [main]
    opens the page with the header, the rule, the sidebar heading and the
    category selector, whose options are "All" followed by the categories
    of the table: each category once, in ascending order.  Sorting them
    raises nothing. *)
Theorem category_options_sorted fs ui raw df :
  read_csv fs data_file = Ok raw ->
  text_column raw "Category" = true ->
  load_data_try fs data_file = Ok df ->
  exists options rest,
    fst (main fs ui)
    = ([StMarkdown MainHeader; StMarkdown Divider;
        SidebarMarkdown SidebarControls;
        SidebarSelectbox "Filter by Category:" (Str "All" :: options)]
       ++ rest)%list
    /\ StronglySorted (fun a b => cell_leb a b = true) options
    /\ NoDup options
    /\ (forall c, In c options <-> exists r, In r (rows df) /\ r "Category" = c).
Proof.
  intros _ _ H.
  assert (Hl : loaded df) by (exists fs, data_file, []; now apply load_data_some).
  destruct (loaded_columns df Hl) as [Hcat _].
  assert (Hload : load_data fs data_file = ([], Ok (Some df)))
    by now apply load_data_some.
  destruct (sorted_strings_ordered
              (unique (map (fun r : Row => r "Category") (rows df))))
    as (options & Hsorted & Hperm & Hord).
  { apply unique_all_str. intros c Hc. apply in_map_iff in Hc as (r & <- & Hr).
    now apply (loaded_category_str df). }
  exists options. eexists. split; [|split; [exact Hord|split]].
  - unfold main. do 2 show_page. show_page. rewrite Hload. cbn [fst snd].
    show_page. show_page. rewrite (getitem_ok _ _ Hcat). cbn [fst snd].
    show_page. rewrite Hsorted. cbn [fst snd].
    show_page. cbn [app]. reflexivity.
  - apply (Permutation_NoDup Hperm), unique_nodup.
  - intros c. rewrite <- (Permutation_in' (eq_refl c) Hperm).
    rewrite unique_In, in_map_iff. split; intros (r & H1 & H2); eauto.
Qed.

(** The options on the sample file. *)
Lemma category_options_sorted_witness :
  read_csv (fs_with sample_csv) data_file = Ok sample_raw
  /\ text_column sample_raw "Category" = true
  /\ load_data_try (fs_with sample_csv) data_file = Ok sample_table
  /\ exists options rest,
      fst (main (fs_with sample_csv) first_visit)
      = ([StMarkdown MainHeader; StMarkdown Divider;
          SidebarMarkdown SidebarControls;
          SidebarSelectbox "Filter by Category:" (Str "All" :: options)]
         ++ rest)%list
      /\ StronglySorted (fun a b => cell_leb a b = true) options
      /\ NoDup options
      /\ (forall c, In c options <->
                    exists r, In r (rows sample_table) /\ r "Category" = c).
Proof.
  split; [reflexivity|]. split; [reflexivity|]. split; [reflexivity|].
  exact (category_options_sorted (fs_with sample_csv) first_visit sample_raw
           sample_table eq_refl eq_refl eq_refl).
Defined.

Lemma timestamps_In s t : In t (timestamps s) <-> In (Ts t) s.
Proof.
  unfold timestamps. rewrite in_flat_map. split.
  - intros (c & Hc & Ht). destruct c; cbn in Ht; try contradiction.
    destruct Ht as [->|[]]. exact Hc.
  - intros H. exists (Ts t). split; [exact H|now left].
Qed.

Lemma fold_min_spec ts t0 :
  In (fold_left ts_min_of ts t0) (t0 :: ts)
  /\ forall x, In x (t0 :: ts) -> (ts_key (fold_left ts_min_of ts t0) <= ts_key x)%Z.
Proof.
  revert t0. induction ts as [|t ts IH]; intros t0; cbn [fold_left].
  - split; [now left|]. intros x [<-|[]]. lia.
  - destruct (IH (ts_min_of t0 t)) as [Hin Hle]. split.
    + destruct Hin as [E|Hin]; [|right; now right].
      rewrite <- E. unfold ts_min_of.
      destruct (ts_key t0 <=? ts_key t)%Z; [now left|right; now left].
    + assert (Hm : (ts_key (ts_min_of t0 t) <= ts_key t0
                    /\ ts_key (ts_min_of t0 t) <= ts_key t)%Z).
      { unfold ts_min_of. destruct (Z.leb_spec (ts_key t0) (ts_key t)); lia. }
      pose proof (Hle _ (or_introl eq_refl)) as H0.
      intros x [<-|[<-|Hx]]; [lia|lia|]. apply Hle. now right.
Qed.

Lemma fold_max_spec ts t0 :
  In (fold_left ts_max_of ts t0) (t0 :: ts)
  /\ forall x, In x (t0 :: ts) -> (ts_key x <= ts_key (fold_left ts_max_of ts t0))%Z.
Proof.
  revert t0. induction ts as [|t ts IH]; intros t0; cbn [fold_left].
  - split; [now left|]. intros x [<-|[]]. lia.
  - destruct (IH (ts_max_of t0 t)) as [Hin Hle]. split.
    + destruct Hin as [E|Hin]; [|right; now right].
      rewrite <- E. unfold ts_max_of.
      destruct (ts_key t0 <=? ts_key t)%Z; [right; now left|now left].
    + assert (Hm : (ts_key t0 <= ts_key (ts_max_of t0 t)
                    /\ ts_key t <= ts_key (ts_max_of t0 t))%Z).
      { unfold ts_max_of. destruct (Z.leb_spec (ts_key t0) (ts_key t)); lia. }
      pose proof (Hle _ (or_introl eq_refl)) as H0.
      intros x [<-|[<-|Hx]]; [lia|lia|]. apply Hle. now right.
Qed.

(** X5.  When the file loads with a Category column of texts and the
    table has a Created column with at least one creation time, the date
    input follows the two selectors, and the range it offers runs from the
    date of the earliest creation time of the table to the date of the
    latest: both are times of the table and every creation time lies
    between them. *)
Theorem date_range_spans_table fs ui raw df :
  read_csv fs data_file = Ok raw ->
  text_column raw "Category" = true ->
  load_data_try fs data_file = Ok df ->
  has_column "Created" df = true ->
  (exists r t, In r (rows df) /\ r "Created" = Ts t) ->
  exists options earliest latest rest,
    fst (main fs ui)
    = ([StMarkdown MainHeader; StMarkdown Divider;
        SidebarMarkdown SidebarControls;
        SidebarSelectbox "Filter by Category:" options;
        SidebarSelectbox "Filter by Review Status:"
          [Str "All"; Str "Flagged for Review"; Str "Auto-Assigned"];
        SidebarDateInput "Date Range:" (date_of earliest) (date_of latest)]
       ++ rest)%list
    /\ (exists r, In r (rows df) /\ r "Created" = Ts earliest)
    /\ (exists r, In r (rows df) /\ r "Created" = Ts latest)
    /\ (forall r t, In r (rows df) -> r "Created" = Ts t ->
                    (ts_key earliest <= ts_key t <= ts_key latest)%Z).
Proof.
  intros _ _ H Hcr (r0 & t0 & Hr0 & Ht0).
  assert (Hl : loaded df) by (exists fs, data_file, []; now apply load_data_some).
  destruct (loaded_columns df Hl) as [Hcat _].
  assert (Hload : load_data fs data_file = ([], Ok (Some df)))
    by now apply load_data_some.
  destruct (sorted_strings_ordered
              (unique (map (fun r : Row => r "Category") (rows df))))
    as (options & Hsorted & _ & _).
  { apply unique_all_str. intros c Hc. apply in_map_iff in Hc as (r & <- & Hr).
    now apply (loaded_category_str df). }
  set (created := map (fun r : Row => r "Created") (rows df)).
  assert (Hin0 : In t0 (timestamps created)).
  { apply timestamps_In. apply in_map_iff. exists r0. now split. }
  assert (Hany : existsb notna created = true).
  { apply existsb_exists. exists (Ts t0). split; [|reflexivity].
    now apply timestamps_In. }
  destruct (timestamps created) as [|t ts] eqn:Hts; [destruct Hin0|].
  destruct (fold_min_spec ts t) as [Hmin_in Hmin].
  destruct (fold_max_spec ts t) as [Hmax_in Hmax].
  assert (Hrow : forall x, In x (t :: ts) ->
                           exists r, In r (rows df) /\ r "Created" = Ts x).
  { intros x Hx. rewrite <- Hts in Hx. apply timestamps_In in Hx.
    apply in_map_iff in Hx as (r & E & Hr). eauto. }
  exists (Str "All" :: options), (fold_left ts_min_of ts t),
         (fold_left ts_max_of ts t).
  eexists. split; [|split; [now apply Hrow|split; [now apply Hrow|]]].
  - unfold main. do 2 show_page. show_page. rewrite Hload. cbn [fst snd].
    show_page. show_page. rewrite (getitem_ok _ _ Hcat). cbn [fst snd].
    show_page. rewrite Hsorted. cbn [fst snd].
    do 2 show_page. show_page.
    rewrite Hcr. show_page. rewrite (getitem_ok _ _ Hcr). cbn [fst snd].
    fold created. rewrite Hany. unfold series_min, series_max. rewrite Hts.
    cbn [fst snd emit app map review_options]. reflexivity.
  - intros r x Hr Hx.
    assert (Hx' : In x (t :: ts)).
    { rewrite <- Hts. apply timestamps_In. apply in_map_iff. exists r. now split. }
    split; [now apply Hmin|now apply Hmax].
Qed.

(** The date range on the sample file: 15 to 17 January 2024. *)
Lemma date_range_spans_table_witness :
  read_csv (fs_with sample_csv) data_file = Ok sample_raw
  /\ text_column sample_raw "Category" = true
  /\ load_data_try (fs_with sample_csv) data_file = Ok sample_table
  /\ has_column "Created" sample_table = true
  /\ (exists r t, In r (rows sample_table) /\ r "Created" = Ts t)
  /\ exists options earliest latest rest,
      fst (main (fs_with sample_csv) first_visit)
      = ([StMarkdown MainHeader; StMarkdown Divider;
          SidebarMarkdown SidebarControls;
          SidebarSelectbox "Filter by Category:" options;
          SidebarSelectbox "Filter by Review Status:"
            [Str "All"; Str "Flagged for Review"; Str "Auto-Assigned"];
          SidebarDateInput "Date Range:" (date_of earliest) (date_of latest)]
         ++ rest)%list
      /\ (exists r, In r (rows sample_table) /\ r "Created" = Ts earliest)
      /\ (exists r, In r (rows sample_table) /\ r "Created" = Ts latest)
      /\ (forall r t, In r (rows sample_table) -> r "Created" = Ts t ->
                      (ts_key earliest <= ts_key t <= ts_key latest)%Z).
Proof.
  assert (Hsome : exists r t, In r (rows sample_table) /\ r "Created" = Ts t).
  { exists (nth 0 (rows sample_table) (fun _ => NaN)), (mkTimestamp 2024 1 15 10 30).
    split; [now left|reflexivity]. }
  split; [reflexivity|]. split; [reflexivity|].
  split; [reflexivity|]. split; [reflexivity|]. split; [exact Hsome|].
  exact (date_range_spans_table (fs_with sample_csv) first_visit sample_raw
           sample_table eq_refl eq_refl eq_refl eq_refl Hsome).
Defined.

(** ** The metrics *)

Lemma create_summary_metrics_full v metrics :
  create_summary_metrics v = Ok metrics ->
  has_column "Resolved" v = true
  /\ metrics = (len v, flagged_count v,
                nunique (map (fun r : Row => r "Category") (rows v)),
                resolved_count v).
Proof.
  unfold create_summary_metrics.
  destruct (getitem v "Review_Flag") as [flag|] eqn:E1; [|discriminate].
  destruct (getitem v "Category") as [cat|] eqn:E2; [|discriminate].
  destruct (getitem v "Resolved") as [res|] eqn:E3; [|discriminate].
  cbn [bind]. intros H. injection H as <-.
  apply getitem_inv in E1 as [_ ->]. apply getitem_inv in E2 as [_ ->].
  apply getitem_inv in E3 as [Hres ->]. split; [exact Hres|].
  rewrite loc_series_eq, map_map.
  now rewrite (loc_rows v (fun r => notna (r "Resolved"))).
Qed.

(** When the file loads and the table has a Resolved column, [main] shows
    the four metrics of the view it built, one after the other. *)
Lemma metrics_produced fs ui df v :
  load_data_try fs data_file = Ok df ->
  has_column "Resolved" df = true ->
  selected_view df ui = Ok v ->
  exists before after,
    fst (main fs ui)
    = (before
       ++ [StMetric "Total Issues" (len v) NoDelta;
           StMetric "Flagged for Review" (flagged_count v)
             (percent (flagged_count v) (len v));
           StMetric "Categories"
             (nunique (map (fun r : Row => r "Category") (rows v))) NoDelta;
           StMetric "Resolved" (resolved_count v)
             (percent (resolved_count v) (len v))]
       ++ after)%list.
Proof.
  intros H Hres Hsel.
  assert (Hl : loaded df) by (exists fs, data_file, []; now apply load_data_some).
  destruct (loaded_columns df Hl) as [Hcat Hflag].
  assert (Hload : load_data fs data_file = ([], Ok (Some df)))
    by now apply load_data_some.
  destruct (selected_view_spec df ui Hl)
    as (values & v' & Hvalues & Hview & Hsel' & Hv & Hcols).
  assert (v' = v) by congruence. subst v'.
  assert (Hvcols : forall c, has_column c v = has_column c df)
    by (intros c; unfold has_column; now rewrite Hcols).
  unfold main. do 2 show_page. show_page. rewrite Hload. cbn [fst snd].
  show_page. show_page. rewrite (getitem_ok _ _ Hcat). cbn [fst snd].
  show_page. rewrite Hvalues. cbn [fst snd].
  do 2 show_page. show_page.
  match goal with
  | |- context [match snd ?c with _ => _ end] =>
      assert (Hdate : exists shown, c = (shown, Ok tt))
  end.
  { destruct (has_column "Created" df) eqn:Hcr; [|now exists []].
    unfold pbind, lift. rewrite (getitem_ok _ _ Hcr).
    destruct (existsb notna _); [|now exists []].
    destruct (series_min _); [|now exists []].
    destruct (series_max _); [|now exists []]. cbn. eauto. }
  destruct Hdate as (shown & ->). cbn [fst snd].
  show_page. rewrite Hview. cbn [fst snd].
  show_page. rewrite create_summary_metrics_spec by (rewrite Hvcols; assumption).
  cbn [fst snd]. rewrite Nat.eqb_refl. cbn [negb].
  show_page. show_page. rewrite percent_delta_spec. cbn [fst snd].
  do 2 show_page. show_page. rewrite percent_delta_spec. cbn [fst snd].
  show_page.
  eexists (_ :: _ :: _ :: _ :: _ :: shown)%list. eexists.
  cbn [app]. repeat rewrite <- app_comm_cons. cbn [app].
  repeat f_equal.
Qed.

(** X6.  A metric that [main] shows is one of four, computed on the view
    that [main] built from the loaded table and the selection, which has a
    Resolved column: "Total Issues" with the number of rows of the view and
    no delta (the "filtered" delta is never shown), "Flagged for Review"
    and "Resolved" with their count and its share of the rows,
    "Categories" with the number of distinct categories and no delta.
    And when the file loads with a Category column of texts and a Resolved
    column, [main] shows these four metrics, one after the other. *)
Theorem metrics_shown fs ui :
  (forall label value d,
      In (StMetric label value d) (fst (main fs ui)) ->
      exists df v,
        load_data_try fs data_file = Ok df
        /\ selected_view df ui = Ok v
        /\ has_column "Resolved" v = true
        /\ ((label = "Total Issues" /\ value = len v /\ d = NoDelta)
            \/ (label = "Flagged for Review" /\ value = flagged_count v
                /\ d = percent (flagged_count v) (len v))
            \/ (label = "Categories"
                /\ value = nunique (map (fun r : Row => r "Category") (rows v))
                /\ d = NoDelta)
            \/ (label = "Resolved" /\ value = resolved_count v
                /\ d = percent (resolved_count v) (len v))))
  /\ (forall raw df v,
        read_csv fs data_file = Ok raw ->
        text_column raw "Category" = true ->
        load_data_try fs data_file = Ok df ->
        has_column "Resolved" df = true ->
        selected_view df ui = Ok v ->
        exists before after,
          fst (main fs ui)
          = (before
             ++ [StMetric "Total Issues" (len v) NoDelta;
                 StMetric "Flagged for Review" (flagged_count v)
                   (percent (flagged_count v) (len v));
                 StMetric "Categories"
                   (nunique (map (fun r : Row => r "Category") (rows v))) NoDelta;
                 StMetric "Resolved" (resolved_count v)
                   (percent (resolved_count v) (len v))]
             ++ after)%list).
Proof.
  split.
  2:{ intros raw df v _ _ Htry Hres Hsel. now apply (metrics_produced fs ui df v). }
  intros label value d.
  cut (In (StMetric label value d) (fst (main fs ui)) ->
       exists df v,
         load_data_try fs data_file = Ok df
         /\ selected_view df ui = Ok v
         /\ has_column "Resolved" v = true
    /\ ((label = "Total Issues" /\ value = len v /\ d = NoDelta)
        \/ (label = "Flagged for Review" /\ value = flagged_count v
            /\ d = percent (flagged_count v) (len v))
        \/ (label = "Categories"
            /\ value = nunique (map (fun r : Row => r "Category") (rows v))
            /\ d = NoDelta)
        \/ (label = "Resolved" /\ value = resolved_count v
            /\ d = percent (resolved_count v) (len v)))); [exact (fun H => H)|].
  unfold main. intros H.
  do 2 skip H.
  walk H as loaded_df Hload.
  { unfold load_data in H. destruct (load_data_try fs data_file); cbn in H;
      intuition discriminate. }
  destruct loaded_df as [df|]; [|cbn in H; intuition discriminate].
  assert (Htry : load_data_try fs data_file = Ok df).
  { unfold load_data in Hload. destruct (load_data_try fs data_file);
      cbn in Hload; congruence. }
  assert (Hl : loaded df) by (exists fs, data_file, []; now apply load_data_some).
  skip H.
  walk H as category Hcategory; [contradiction|].
  walk H as values Hvalues; [contradiction|].
  do 2 skip H.
  walk H as u Hdate.
  { exfalso. destruct (has_column "Created" df); [|destruct H].
    walk H as created Hcreated; [contradiction|].
    destruct (existsb notna created); [|destruct H].
    destruct (series_min created); [|destruct H].
    destruct (series_max created); cbn in H; intuition discriminate. }
  walk H as v Hview; [contradiction|].
  assert (Hsel : selected_view df ui = Ok v).
  { unfold selected_view. rewrite Hcategory. cbn [bind]. rewrite Hvalues.
    exact Hview. }
  walk H as metrics Hmetrics; [contradiction|].
  apply create_summary_metrics_full in Hmetrics as [Hres ->].
  exists df, v. split; [exact Htry|]. split; [exact Hsel|]. split; [exact Hres|].
  clear Hview Hsel Hdate Hvalues Hcategory Hload Htry Hl.
  cbn iota beta in H.
  walk H as u0 Hu0.
  { destruct H as [H|[]]. injection H as <- <- <-. left.
    rewrite Nat.eqb_refl. auto. }
  walk H as flagged_delta Hdelta; [contradiction|].
  rewrite percent_delta_spec in Hdelta. injection Hdelta as <-.
  walk H as u1 Hu1.
  { destruct H as [H|[]]. injection H as <- <- <-. right. left. auto. }
  walk H as u2 Hu2.
  { destruct H as [H|[]]. injection H as <- <- <-. right. right. left. auto. }
  walk H as resolved_delta Hresolved; [contradiction|].
  rewrite percent_delta_spec in Hresolved. injection Hresolved as <-.
  walk H as u3 Hu3.
  { destruct H as [H|[]]. injection H as <- <- <-. right. right. right. auto. }
  exfalso. skip H.
  walk H as category_chart Hchart; [contradiction|]. skip H.
  walk H as review_chart Hreview; [contradiction|]. skip H.
  walk H as timeline_chart Htimeline; [contradiction|].
  walk H as u4 Hu4; [destruct timeline_chart; cbn in H; intuition discriminate|].
  do 3 skip H.
  walk H as stats Hstats; [contradiction|].
  do 2 skip H.
  walk H as recent Hrecent; [contradiction|].
  walk H as u5 Hu5; [destruct recent; cbn in H; intuition discriminate|].
  skip H.
  walk H as u6 Hu6.
  { destruct (show_detailed_data ui); [|destruct H].
    skip H. walk H as shown Hshown; [contradiction|].
    cbn in H. intuition discriminate. }
  skip H.
  walk H as u7 Hu7.
  { destruct (download_clicked ui); cbn in H; intuition discriminate. }
  skip H. cbn in H. intuition discriminate.
Qed.

(** The metric "Total Issues" on a first visit of the sample file. *)
Lemma metrics_shown_witness :
  In (StMetric "Total Issues" 3 NoDelta)
     (fst (main (fs_with sample_csv) first_visit))
  /\ exists df v,
      load_data_try (fs_with sample_csv) data_file = Ok df
      /\ selected_view df first_visit = Ok v
      /\ has_column "Resolved" v = true
      /\ (("Total Issues" = "Total Issues" /\ 3 = len v /\ NoDelta = NoDelta)
          \/ ("Total Issues" = "Flagged for Review" /\ 3 = flagged_count v
              /\ NoDelta = percent (flagged_count v) (len v))
          \/ ("Total Issues" = "Categories"
              /\ 3 = nunique (map (fun r : Row => r "Category") (rows v))
              /\ NoDelta = NoDelta)
          \/ ("Total Issues" = "Resolved" /\ 3 = resolved_count v
              /\ NoDelta = percent (resolved_count v) (len v))).
Proof.
  assert (H : In (StMetric "Total Issues" 3 NoDelta)
                 (fst (main (fs_with sample_csv) first_visit))).
  { vm_compute. do 6 right. left. reflexivity. }
  split; [exact H|].
  exact (proj1 (metrics_shown (fs_with sample_csv) first_visit) _ _ _ H).
Defined.

(** ** The Category Breakdown and the metrics *)

Lemma filter_id_map_length {A} (p : A -> bool) l :
  List.length (filter (fun b : bool => b) (map p l)) = List.length (filter p l).
Proof. apply (filter_map_length (fun b : bool => b)). Qed.

Lemma group_rows (l : list Row) k :
  map fst (filter snd
             (combine l (map (fun c => cell_same c k)
                           (map (fun r : Row => r "Category") l))))
  = filter (fun r => cell_same (r "Category") k) l.
Proof. rewrite map_map. apply mask_filter. Qed.

(** X7.  For every filtered view with the Summary and Resolved columns,
    the Category Breakdown has one row per distinct category, as many as
    the metric "Categories" counts; its Flagged and Resolved columns add up
    to the metrics "Flagged for Review" and "Resolved"; and its Total
    column adds up to no more than the metric "Total Issues". *)
Theorem breakdown_matches_metrics v :
  filtered_view v ->
  has_column "Summary" v = true ->
  has_column "Resolved" v = true ->
  exists stats,
    category_stats v = Ok stats
    /\ create_summary_metrics v
       = Ok (len v, list_sum (map stat_flagged stats), List.length stats,
             list_sum (map stat_resolved stats))
    /\ list_sum (map stat_total stats) <= len v.
Proof.
  intros Hv Hsum Hres. destruct (filtered_view_columns v Hv) as [Hcat Hflag].
  destruct (category_totals_count_summaries v Hv Hsum Hres)
    as (stats & Hstats & Htotal).
  exists stats. split; [exact Hstats|].
  split; [|rewrite Htotal; apply filter_length_le].
  rewrite (create_summary_metrics_spec v Hflag Hcat Hres).
  unfold category_stats in Hstats.
  rewrite (getitem_ok _ _ Hcat), agg_columns_ok in Hstats
    by (cbn [forallb]; now rewrite Hsum, Hflag, Hres).
  cbn [bind] in Hstats. injection Hstats as <-.
  assert (Hkeys : forall r, In r (rows v) ->
            List.length (filter (cell_same (r "Category"))
                           (group_keys (map (fun r : Row => r "Category") (rows v))))
            = 1).
  { intros r Hr. apply group_keys_once.
    - apply in_map_iff. now exists r.
    - apply filtered_view_inv in Hv as (df & keep & Hl & _ & Hrows).
      rewrite Hrows in Hr. apply filter_In in Hr as [Hr _].
      pose proof (loaded_category_str df r Hl Hr) as Hs.
      now destruct (r "Category"). }
  rewrite !map_map, length_map. cbn [stat_flagged stat_resolved].
  f_equal. f_equal; [f_equal; [f_equal|]|].
  - unfold flagged_count.
    etransitivity;
      [symmetry;
       apply (group_counts_add_up (fun r : Row => r "Category")
                (fun r => cell_eqb (r "Review_Flag") (Str "YES")) _ _ Hkeys)|].
    f_equal. apply map_ext. intros k.
    rewrite group_rows. unfold series_eq. rewrite map_map.
    symmetry. apply filter_id_map_length.
  - unfold nunique, group_keys. apply Permutation_length, isort_perm.
  - etransitivity;
      [symmetry;
       apply (group_counts_add_up (fun r : Row => r "Category")
                (fun r => notna (r "Resolved")) _ _ Hkeys)|].
    f_equal. apply map_ext. intros k.
    rewrite group_rows, map_map.
    symmetry. apply filter_id_map_length.
Qed.

(** The breakdown of the sample table: one of three tickets is flagged,
    one is resolved, and the Totals add up to two. *)
Lemma breakdown_matches_metrics_witness :
  filtered_view sample_table
  /\ has_column "Summary" sample_table = true
  /\ has_column "Resolved" sample_table = true
  /\ exists stats,
      category_stats sample_table = Ok stats
      /\ create_summary_metrics sample_table
         = Ok (3, list_sum (map stat_flagged stats), List.length stats,
               list_sum (map stat_resolved stats))
      /\ list_sum (map stat_total stats) <= 3.
Proof.
  assert (Hv : filtered_view sample_table).
  { exists sample_table, (Str "All"), "All". split; [|reflexivity].
    exists (fs_with sample_csv), data_file, []. vm_compute. reflexivity. }
  split; [exact Hv|]. split; [reflexivity|]. split; [reflexivity|].
  exact (breakdown_matches_metrics sample_table Hv eq_refl eq_refl).
Defined.

(** ** The charts *)

Lemma distinct_once s c :
  In c s -> notna c = true ->
  List.length (filter (cell_same c) (filter notna (unique s))) = 1.
Proof.
  intros Hc Hn. rewrite <- (group_keys_once s c Hc Hn). unfold group_keys.
  apply filter_length_perm, isort_perm.
Qed.

Lemma value_counts_perm s :
  Permutation
    (map (fun v => (v, List.length (filter (fun c => cell_same c v) s)))
         (filter notna (unique s)))
    (value_counts s).
Proof. apply isort_perm. Qed.

(** Counting by group the elements that [q] holds of: each of them whose
    key is one of the group keys is counted once. *)
Lemma group_counts_of {A} (key : A -> cell) (q : A -> bool) keys (l : list A) :
  (forall x, In x l -> q x = true ->
             List.length (filter (cell_same (key x)) keys) = 1) ->
  list_sum (map (fun k =>
                   List.length (filter q (filter (fun x => cell_same (key x) k) l)))
                keys)
  = List.length (filter q l).
Proof.
  induction l as [|x l IH]; intros H; simpl.
  - clear H. induction keys as [|k keys IHk]; simpl; auto.
  - rewrite (map_ext _ (fun k =>
               (if cell_same (key x) k && q x then 1 else 0)
               + List.length (filter q (filter (fun x => cell_same (key x) k) l)))).
    2:{ intros k. destruct (cell_same (key x) k); simpl; [|reflexivity].
        destruct (q x); reflexivity. }
    rewrite list_sum_add, IH by (intros y Hy; apply H; now right).
    rewrite list_sum_indicator.
    destruct (q x) eqn:E; simpl.
    + rewrite (filter_ext _ (cell_same (key x))) by (intros k; apply andb_true_r).
      rewrite H by (auto; now left). reflexivity.
    + rewrite filter_none by (intros k _; apply andb_false_r). reflexivity.
Qed.

(** The counts of [value_counts] add up to the number of values that are
    not missing. *)
Lemma value_counts_total s :
  list_sum (map snd (value_counts s)) = List.length (filter notna s).
Proof.
  rewrite <- (Permutation_list_sum (Permutation_map snd (value_counts_perm s))).
  rewrite map_map. cbn [snd].
  rewrite <- (group_counts_of (fun c : cell => c) notna
                (filter notna (unique s)) s).
  - f_equal. apply map_ext_in. intros k Hk. f_equal.
    apply filter_In in Hk as [_ Hk]. symmetry. apply filter_all.
    intros x Hx. apply filter_In in Hx as [_ Hx].
    apply cell_same_eq in Hx. now subst.
  - intros x Hx E. now apply distinct_once.
Qed.

Lemma value_counts_sorted s :
  StronglySorted (fun a b : cell * nat => snd b <= snd a) (value_counts s).
Proof.
  unfold value_counts.
  apply (isort_sorted _ (fun a b : cell * nat => snd b <= snd a) (fun _ => True)).
  - intros a b _ _ H. now apply Nat.leb_le.
  - intros a b _ _ H. apply Nat.leb_gt in H. lia.
  - intros a b c _ _ _. lia.
  - apply Forall_forall. auto.
Qed.

Lemma value_counts_In s c n :
  In (c, n) (value_counts s) <->
  In c s /\ notna c = true
  /\ n = List.length (filter (fun x => cell_same x c) s).
Proof.
  rewrite <- (Permutation_in' (eq_refl (c, n)) (value_counts_perm s)).
  rewrite in_map_iff. split.
  - intros (v & E & Hv). injection E as -> <-.
    apply filter_In in Hv as [Hv Hn]. apply (proj1 (unique_In _ _)) in Hv.
    split; [exact Hv|]. split; [exact Hn|reflexivity].
  - intros (Hc & Hn & ->). exists c. split; [reflexivity|].
    apply filter_In. split; [now apply unique_In|assumption].
Qed.

Lemma value_counts_nodup s : NoDup (map fst (value_counts s)).
Proof.
  rewrite <- (Permutation_map fst (value_counts_perm s)).
  rewrite map_map. cbn [fst]. rewrite map_id.
  apply NoDup_filter, unique_nodup.
Qed.

Lemma all_notna_length (s : Series) :
  (forall c, In c s -> is_str c = true) -> List.length (filter notna s) = List.length s.
Proof.
  intros H. rewrite filter_all; [reflexivity|].
  intros c Hc. specialize (H c Hc). now destruct c.
Qed.

Lemma filtered_view_strings v r :
  filtered_view v -> In r (rows v) ->
  is_str (r "Category") = true /\ is_str (r "Review_Flag") = true.
Proof.
  intros Hv Hr. apply filtered_view_inv in Hv as (df & keep & Hl & _ & Hrows).
  rewrite Hrows in Hr. apply filter_In in Hr as [Hr _]. split.
  - now apply (loaded_category_str df).
  - now apply (loaded_review_flag_str df).
Qed.

(** X8.  For every filtered view that has rows, the bar chart has one
    bar per category of the view; the height of a bar is the number of rows
    of the view in its category, so that the heights add up to the number
    of rows of the view; and the bars stand in descending order of height.
    For a filtered view without rows no chart is made: the plotting library
    raises a ValueError. *)
Theorem bar_chart_counts_every_row v :
  filtered_view v ->
  (len v = 0 -> exists msg, create_category_bar_chart v = Raise (ValueError msg))
  /\ (0 < len v ->
      exists bars,
        create_category_bar_chart v = Ok (BarFigure bars)
        /\ list_sum (map snd bars) = len v
        /\ NoDup (map fst bars)
        /\ (forall r, In r (rows v) -> exists n, In (r "Category", n) bars)
        /\ (forall c n,
              In (c, n) bars ->
              0 < n
              /\ n = List.length (filter (fun r : Row => cell_same (r "Category") c)
                                    (rows v)))
        /\ StronglySorted (fun a b : cell * nat => snd b <= snd a) bars).
Proof.
  intros Hv. destruct (filtered_view_columns v Hv) as [Hcat _].
  split; [now apply bar_chart_refused|].
  intros Hpos. rewrite (bar_chart_drawn v Hv Hpos).
  set (s := map (fun r : Row => r "Category") (rows v)).
  assert (Hstr : forall c, In c s -> is_str c = true).
  { intros c Hc. apply in_map_iff in Hc as (r & <- & Hr).
    now apply (filtered_view_strings v r Hv). }
  eexists. split; [reflexivity|].
  split; [|split; [apply value_counts_nodup|split; [|split]]].
  - rewrite value_counts_total, (all_notna_length s Hstr). apply length_map.
  - intros r Hr. eexists. apply value_counts_In.
    assert (Hc : In (r "Category") s) by (apply in_map_iff; now exists r).
    split; [exact Hc|]. split; [|reflexivity].
    specialize (Hstr _ Hc). now destruct (r "Category").
  - intros c n H. apply value_counts_In in H as (Hc & _ & ->).
    unfold s. rewrite (filter_map_length (fun x => cell_same x c)). split; [|reflexivity].
    apply in_map_iff in Hc as (r & E & Hr).
    assert (Hin : In r (filter (fun r : Row => cell_same (r "Category") c) (rows v))).
    { apply filter_In. split; [exact Hr|]. now apply cell_same_eq. }
    destruct (filter _ (rows v)); [destruct Hin|cbn; lia].
  - apply value_counts_sorted.
Qed.

(** The bars of the sample table: one ticket in each of three categories. *)
Lemma bar_chart_counts_every_row_witness :
  filtered_view sample_table
  /\ len sample_table = 3
  /\ exists bars,
      create_category_bar_chart sample_table = Ok (BarFigure bars)
      /\ list_sum (map snd bars) = len sample_table
      /\ NoDup (map fst bars)
      /\ (forall r, In r (rows sample_table) -> exists n, In (r "Category", n) bars)
      /\ (forall c n,
            In (c, n) bars ->
            0 < n
            /\ n = List.length (filter (fun r : Row => cell_same (r "Category") c)
                                  (rows sample_table)))
      /\ StronglySorted (fun a b : cell * nat => snd b <= snd a) bars.
Proof.
  assert (Hv : filtered_view sample_table).
  { exists sample_table, (Str "All"), "All". split; [|reflexivity].
    exists (fs_with sample_csv), data_file, []. vm_compute. reflexivity. }
  split; [exact Hv|]. split; [reflexivity|].
  apply (proj2 (bar_chart_counts_every_row sample_table Hv)).
  vm_compute. lia.
Defined.

Lemma cell_same_str c text : cell_same c (Str text) = cell_eqb c (Str text).
Proof. now destruct c. Qed.

(** X9.  For every filtered view, the slices of the pie chart add up to
    the number of rows of the view; the view has a slice "YES" exactly
    when it has a flagged row, and that slice is as large as the metric
    "Flagged for Review". *)
Theorem pie_chart_matches_flagged v :
  filtered_view v ->
  exists slices,
    create_review_flag_chart v = Ok (PieFigure slices)
    /\ list_sum (map snd slices) = len v
    /\ (forall n, In (Str "YES", n) slices -> n = flagged_count v)
    /\ (0 < flagged_count v -> In (Str "YES", flagged_count v) slices).
Proof.
  intros Hv. destruct (filtered_view_columns v Hv) as [_ Hflag].
  unfold create_review_flag_chart. rewrite (getitem_ok _ _ Hflag). cbn [bind].
  set (s := map (fun r : Row => r "Review_Flag") (rows v)).
  assert (Hstr : forall c, In c s -> is_str c = true).
  { intros c Hc. apply in_map_iff in Hc as (r & <- & Hr).
    now apply (filtered_view_strings v r Hv). }
  assert (Hcount : List.length (filter (fun x => cell_same x (Str "YES")) s)
                   = flagged_count v).
  { unfold s, flagged_count.
    rewrite (filter_map_length (fun x => cell_same x (Str "YES"))).
    apply (f_equal (@List.length Row)), filter_ext. intros r. apply cell_same_str. }
  eexists. split; [reflexivity|]. split; [|split].
  - rewrite value_counts_total, (all_notna_length s Hstr). apply length_map.
  - intros n H. apply value_counts_In in H as (_ & _ & ->). exact Hcount.
  - intros Hpos. apply value_counts_In. split; [|split; [reflexivity|now rewrite Hcount]].
    rewrite <- Hcount in Hpos.
    destruct (filter (fun x => cell_same x (Str "YES")) s) as [|x l] eqn:E;
      [cbn in Hpos; lia|].
    assert (Hx : In x (filter (fun x => cell_same x (Str "YES")) s))
      by (rewrite E; now left).
    apply filter_In in Hx as [Hx Hs]. apply cell_same_eq in Hs. now subst.
Qed.

(** The pie of the sample table: one flagged ticket in three. *)
Lemma pie_chart_matches_flagged_witness :
  filtered_view sample_table
  /\ exists slices,
      create_review_flag_chart sample_table = Ok (PieFigure slices)
      /\ list_sum (map snd slices) = 3
      /\ (forall n, In (Str "YES", n) slices -> n = 1)
      /\ (0 < 1 -> In (Str "YES", 1) slices).
Proof.
  assert (Hv : filtered_view sample_table).
  { exists sample_table, (Str "All"), "All". split; [|reflexivity].
    exists (fs_with sample_csv), data_file, []. vm_compute. reflexivity. }
  split; [exact Hv|].
  exact (pie_chart_matches_flagged sample_table Hv).
Defined.

Lemma pair_same_eq a b : pair_same a b = true <-> a = b.
Proof.
  destruct a as [m c], b as [m' c']. unfold pair_same. cbn [fst snd].
  rewrite andb_true_iff, String.eqb_eq, cell_same_eq. split.
  - now intros [-> ->].
  - intros H. injection H as -> ->. now split.
Qed.

Lemma unique_pairs_In l k : In k (unique_pairs l) <-> In k l.
Proof.
  induction l as [|p l IH]; simpl; [tauto|].
  rewrite filter_In, IH. split.
  - intros [H|[H _]]; auto.
  - intros [H|H]; auto.
    destruct (pair_same k p) eqn:E.
    + left. symmetry. now apply pair_same_eq.
    + right. auto.
Qed.

Lemma unique_pairs_once l k :
  In k l -> List.length (filter (pair_same k) (unique_pairs l)) = 1.
Proof.
  induction l as [|p l IH]; intros Hk; [destruct Hk|]. simpl.
  destruct (pair_same k p) eqn:E.
  - apply pair_same_eq in E. subst p. cbn [List.length]. f_equal.
    rewrite filter_none; [reflexivity|].
    intros x Hx. apply filter_In in Hx as [_ Hx].
    destruct (pair_same k x) eqn:Ex; [|reflexivity].
    apply pair_same_eq in Ex. subst x.
    rewrite (proj2 (pair_same_eq k k) eq_refl) in Hx. discriminate.
  - assert (Hkeep : forall xs,
               filter (pair_same k) (filter (fun x => negb (pair_same x p)) xs)
               = filter (pair_same k) xs).
    { induction xs as [|x xs IHx]; simpl; [reflexivity|].
      destruct (pair_same x p) eqn:Ex; simpl.
      - apply pair_same_eq in Ex. subst x. now rewrite E.
      - now rewrite IHx. }
    rewrite Hkeep. apply IH.
    destruct Hk as [->|Hk]; [|assumption].
    rewrite (proj2 (pair_same_eq k k) eq_refl) in E. discriminate.
Qed.

Lemma pair_counts_add_up keys (l : list (string * cell)) :
  (forall x, In x l -> List.length (filter (pair_same x) keys) = 1) ->
  list_sum (map (fun k => List.length (filter (fun x => pair_same x k) l)) keys)
  = List.length l.
Proof.
  induction l as [|x l IH]; intros H; simpl.
  - clear H. induction keys as [|k keys IHk]; simpl; auto.
  - rewrite (map_ext _ (fun k =>
               (if pair_same x k then 1 else 0)
               + List.length (filter (fun x => pair_same x k) l))).
    2:{ intros k. now destruct (pair_same x k). }
    rewrite list_sum_add, IH by (intros y Hy; apply H; now right).
    rewrite list_sum_indicator, H by now left. reflexivity.
Qed.

Lemma digit_char_cases d :
  In (digit_char d) ["0"; "1"; "2"; "3"; "4"; "5"; "6"; "7"; "8"; "9"]%char.
Proof.
  unfold digit_char.
  assert (H : d mod 10 < 10) by (apply Nat.mod_upper_bound; discriminate).
  destruct (d mod 10) as [|[|[|[|[|[|[|[|[|[|n]]]]]]]]]]; cbn; auto 11.
  lia.
Qed.

Lemma created_month_not_nat t : String.eqb (created_month (Ts t)) "NaT" = false.
Proof.
  unfold created_month, pad4. cbn [append].
  generalize (digit_char_cases (ts_year t / 1000)).
  generalize (digit_char (ts_year t / 1000)). intros c H. cbn [In] in H.
  repeat (destruct H as [<-|H]); try contradiction; reflexivity.
Qed.

Lemma list_sum_filter {A} (q : A -> bool) (f : A -> nat) l :
  list_sum (map f (filter q l))
  = list_sum (map (fun k => if q k then f k else 0) l).
Proof.
  induction l as [|x l IH]; simpl; [reflexivity|].
  destruct (q x); simpl; now rewrite IH.
Qed.

Lemma filter_map_comm {A B} (p : B -> bool) (g : A -> B) l :
  filter p (map g l) = map g (filter (fun x => p (g x)) l).
Proof.
  induction l as [|x l IH]; simpl; [reflexivity|].
  destruct (p (g x)); simpl; now rewrite IH.
Qed.

(** X10.  A view without a Created column has no timeline.  For a
    filtered view with one, the timeline counts every row that has a
    creation time under the month of that time and its category, and the
    counts of the groups that stand for a month add up to the number of
    rows of the view that have a creation time: each is counted once.
    (What becomes of the rows without a creation time depends on the
    version of the library.) *)
Theorem timeline_counts_every_row v :
  filtered_view v ->
  (has_column "Created" v = false -> create_timeline_chart v = Ok None)
  /\ (has_column "Created" v = true ->
      exists data,
        create_timeline_chart v = Ok (Some (TimelineFigure data))
        /\ (forall r t, In r (rows v) -> r "Created" = Ts t ->
                        exists n,
                          0 < n /\ In (created_month (Ts t), r "Category", n) data)
        /\ list_sum (map snd (filter is_month data))
           = List.length (filter (fun r : Row => notna (r "Created")) (rows v))).
Proof.
  intros Hv. destruct (filtered_view_columns v Hv) as [Hcat _].
  unfold create_timeline_chart. split; intros Hcr; rewrite Hcr; [reflexivity|].
  rewrite (getitem_ok _ _ Hcat). cbn [bind].
  eexists. split; [reflexivity|]. unfold timeline_data. cbv zeta.
  set (all := map (fun r : string -> cell =>
                     (created_month (r "Created"), r "Category")) (rows v)).
  assert (Hall : filter (fun k : string * cell => notna (snd k)) all = all).
  { apply filter_all. intros k Hk. apply in_map_iff in Hk as (r & <- & Hr).
    cbn [snd]. destruct (filtered_view_strings v r Hv Hr) as [Hs _].
    now destruct (r "Category"). }
  rewrite Hall.
  assert (Hperm : Permutation (unique_pairs all) (isort pair_leb (unique_pairs all)))
    by apply isort_perm.
  split.
  - intros r t Hr Ht.
    set (k := (created_month (Ts t), r "Category")).
    assert (Hk : In k all).
    { apply in_map_iff. exists r. split; [|exact Hr]. unfold k. now rewrite Ht. }
    exists (List.length (filter (fun x => pair_same x k) all)). split.
    + assert (Hin : In k (filter (fun x => pair_same x k) all)).
      { apply filter_In. split; [exact Hk|now apply pair_same_eq]. }
      destruct (filter (fun x => pair_same x k) all) as [|y ys];
        [destruct Hin|cbn; lia].
    + apply in_map_iff. exists k. split; [reflexivity|].
      apply (Permutation_in _ Hperm). now apply unique_pairs_In.
  - set (q := fun k : string * cell => negb (String.eqb (fst k) "NaT")).
    set (count := fun (l : list (string * cell)) k =>
                    List.length (filter (fun x => pair_same x k) l)).
    rewrite (filter_map_comm is_month). rewrite map_map. cbn [snd].
    change (fun x : string * cell => is_month (x, count all x)) with q.
    rewrite (list_sum_filter q (count all)).
    rewrite <- (Permutation_list_sum (Permutation_map _ Hperm)).
    rewrite (map_ext_in _ (count (filter q all))).
    2:{ intros k _. unfold count. destruct (q k) eqn:Hq.
        - f_equal. clear Hall Hperm. induction all as [|x l IH]; [reflexivity|].
          simpl. destruct (pair_same x k) eqn:E.
          + apply pair_same_eq in E. subst x. rewrite Hq. simpl.
            rewrite (proj2 (pair_same_eq k k) eq_refl). now f_equal.
          + destruct (q x); simpl; [rewrite E|]; exact IH.
        - symmetry. apply length_zero_iff_nil. apply filter_none.
          intros x Hx. apply filter_In in Hx as [_ Hx].
          destruct (pair_same x k) eqn:E; [|reflexivity].
          apply pair_same_eq in E. congruence. }
    unfold count. rewrite pair_counts_add_up.
    + unfold all. rewrite (filter_map_length q). apply f_equal.
      apply filter_ext_in. intros r Hr. unfold q. cbn [fst].
      pose proof (filtered_view_created_not_str v r Hv Hcr Hr) as Hns.
      destruct (r "Created") as [|text|t]; [reflexivity|discriminate|].
      now rewrite created_month_not_nat.
    + intros x Hx. apply filter_In in Hx as [Hx _].
      now apply unique_pairs_once.
Qed.

(** The timeline of the sample table: two tickets in January 2024. *)
Lemma timeline_counts_every_row_witness :
  filtered_view sample_table
  /\ (has_column "Created" sample_table = false ->
      create_timeline_chart sample_table = Ok None)
  /\ (has_column "Created" sample_table = true ->
      exists data,
        create_timeline_chart sample_table = Ok (Some (TimelineFigure data))
        /\ (forall r t, In r (rows sample_table) -> r "Created" = Ts t ->
                        exists n,
                          0 < n /\ In (created_month (Ts t), r "Category", n) data)
        /\ list_sum (map snd (filter is_month data))
           = List.length (filter (fun r : Row => notna (r "Created"))
                            (rows sample_table))).
Proof.
  assert (Hv : filtered_view sample_table).
  { exists sample_table, (Str "All"), "All". split; [|reflexivity].
    exists (fs_with sample_csv), data_file, []. vm_compute. reflexivity. }
  split; [exact Hv|].
  exact (timeline_counts_every_row sample_table Hv).
Defined.

(** ** The export, read back *)

Lemma decode_ascii a s :
  (N_of_ascii a <? 128)%N = true ->
  decode_utf8 (a :: s) = option_map (cons (N_of_ascii a)) (decode_utf8 s).
Proof. intros H. cbn [decode_utf8]. cbv zeta. now rewrite H. Qed.

Lemma digit_char_ascii c :
  In c ["0"; "1"; "2"; "3"; "4"; "5"; "6"; "7"; "8"; "9"]%char ->
  (N_of_ascii c <? 128)%N = true /\ forall s, literal "/" (N_of_ascii c :: s) = None.
Proof.
  intros H. cbn in H.
  repeat (destruct H as [<-|H]); try contradiction; split; reflexivity.
Qed.

(** A text that begins with three digits is not in the format, which has
    a day of at most two digits first. *)
Lemma match_format_year_first c1 c2 c3 rest :
  In c1 ["0"; "1"; "2"; "3"; "4"; "5"; "6"; "7"; "8"; "9"]%char ->
  In c2 ["0"; "1"; "2"; "3"; "4"; "5"; "6"; "7"; "8"; "9"]%char ->
  In c3 ["0"; "1"; "2"; "3"; "4"; "5"; "6"; "7"; "8"; "9"]%char ->
  match_format (String c1 (String c2 (String c3 rest))) = None.
Proof.
  intros H1 H2 H3. unfold match_format. cbn [list_ascii_of_string].
  destruct (digit_char_ascii c2 H2) as [Ha2 Hl2].
  destruct (digit_char_ascii c3 H3) as [Ha3 Hl3].
  rewrite (decode_ascii c1) by apply (digit_char_ascii c1 H1).
  rewrite (decode_ascii c2 _ Ha2), (decode_ascii c3 _ Ha3).
  destruct (decode_utf8 (list_ascii_of_string rest)) as [s|]; [|reflexivity].
  cbn [option_map obind].
  clear Ha3. generalize dependent (N_of_ascii c3). intros n3 Hl3.
  assert (Hd : directive_d (N_of_ascii c1 :: N_of_ascii c2 :: n3 :: s) = None
               \/ (exists n, directive_d (N_of_ascii c1 :: N_of_ascii c2 :: n3 :: s)
                             = Some (n, n3 :: s))
               \/ (exists n, directive_d (N_of_ascii c1 :: N_of_ascii c2 :: n3 :: s)
                             = Some (n, N_of_ascii c2 :: n3 :: s))).
  { clear Hl2 Ha2. cbn in H1, H2.
    repeat (destruct H1 as [<-|H1]); try contradiction;
      repeat (destruct H2 as [<-|H2]); try contradiction;
      cbv;
      first [left; reflexivity
            | right; left; eexists; reflexivity
            | right; right; eexists; reflexivity]. }
  destruct Hd as [->|[(n & ->)|(n & ->)]]; [reflexivity| |]; cbn [obind].
  - now rewrite Hl3.
  - now rewrite Hl2.
Qed.

(** No timestamp, written the way [to_csv] writes it, parses in the format
    of [load_data]. *)
Lemma strptime_exported dates t : strptime (cell_text dates (Ts t)) = None.
Proof.
  unfold strptime, cell_text, format_timestamp, format_date, pad4, pad2.
  destruct dates; cbn [append];
    (rewrite match_format_year_first; [reflexivity| | |]; apply digit_char_cases).
Qed.

Lemma parse_cell_plain text : plain (parse_cell text).
Proof.
  unfold plain. destruct (parse_cell text) as [|s|t] eqn:E; [now left| |].
  - right. exists s. split; [reflexivity|].
    unfold parse_cell in *. destruct (existsb _ na_values) eqn:Ena; [discriminate|].
    injection E as <-. now rewrite Ena.
  - unfold parse_cell in E. destruct (existsb _ na_values); discriminate.
Qed.

Lemma field_plain header record col : plain (field header record col).
Proof.
  revert record. induction header as [|h hs IH]; intros [|x xs]; simpl;
    try (now left).
  destruct (String.eqb col h); [apply parse_cell_plain | apply IH].
Qed.

Lemma field_of_row cols (f : string -> string) col :
  In col cols -> field cols (map f cols) col = parse_cell (f col).
Proof.
  induction cols as [|h cols IH]; intros Hin; [destruct Hin|]. simpl.
  destruct (String.eqb_spec col h) as [->|Hneq]; [reflexivity|].
  destruct Hin as [->|Hin]; [congruence|now apply IH].
Qed.

Lemma In_has_column col df : In col (columns df) -> has_column col df = true.
Proof.
  intros H. unfold has_column. apply existsb_exists. exists col.
  split; [exact H|apply String.eqb_refl].
Qed.

Lemma loaded_text_plain df r col :
  loaded df -> In r (rows df) -> ~ In col date_columns -> plain (r col).
Proof.
  intros H Hr Hd. apply loaded_inv in H as (header & data & _ & _ & _ & Hrows).
  rewrite Hrows in Hr. apply in_map_iff in Hr as (record & <- & _).
  destruct (String.eqb_spec col "Category") as [->|Hc].
  { rewrite loaded_row_category.
    destruct (notna _); [apply field_plain|].
    right. exists "Uncategorized". now split. }
  destruct (String.eqb_spec col "Review_Flag") as [->|Hf].
  { rewrite loaded_row_review_flag.
    destruct (notna _); [apply field_plain|].
    right. exists "NO". now split. }
  rewrite loaded_row_other by assumption. apply field_plain.
Qed.

Lemma loaded_date_not_str df r col :
  loaded df -> In col date_columns -> has_column col df = true ->
  In r (rows df) -> is_str (r col) = false.
Proof.
  intros H Hd Hc Hr. apply loaded_inv in H as (header & data & _ & _ & Hcols & Hrows).
  rewrite Hrows in Hr. apply in_map_iff in Hr as (record & <- & _).
  rewrite loaded_row_date by assumption.
  unfold has_column in Hc. rewrite Hcols in Hc. rewrite Hc.
  apply to_datetime_cell_not_str.
Qed.

(** X11.  When a filtered view is exported and the export is read back
    with [load_data], the table has the columns of the view and its rows
    in order, and every cell of a date column is missing, because the
    export writes a timestamp year first, which the day-first format of
    [load_data] does not parse; every cell outside the date columns is as
    it was in the view.  This holds of a view whose columns outside the
    date columns are columns of texts, none of whose labels and cells holds
    a carriage return that the export leaves outside quotes, and whose
    first label does not begin with a byte-order mark. *)
Theorem export_reload_loses_dates v fs file_path :
  filtered_view v ->
  forallb (text_column v) (columns v) = true ->
  written_whole v = true ->
  begins_with_bom (list_ascii_of_string (hd "" (columns v))) = false ->
  fs file_path = Some (to_csv v) ->
  exists df,
    load_data fs file_path = ([], Ok (Some df))
    /\ columns df = columns v
    /\ Forall2 (fun r r' : Row =>
                  forall col,
                    In col (columns v) ->
                    (In col date_columns -> r' col = NaN)
                    /\ (~ In col date_columns -> r' col = r col))
               (rows v) (rows df).
Proof.
  intros Hv _ Hw Hbom Hfile. destruct (filtered_view_columns v Hv) as [Hcat Hflag].
  destruct (read_exported v fs file_path Hcat Hflag Hw Hfile)
    as (header & Hread & Hcat' & Hflag' & [->|Hb]); [|congruence].
  eexists. split; [|split].
  - apply load_data_some. split; [|reflexivity].
    apply load_data_try_spec. eexists. split; [exact Hread|].
    split; [exact Hcat|]. split; [exact Hflag|]. reflexivity.
  - reflexivity.
  - unfold records_of. cbn [rows columns tl]. rewrite !map_map.
    apply Forall2_map_same.
    intros r Hr col Hcol.
    destruct (filtered_view_inv v Hv) as (df & keep & Hl & Hcols & Hrows).
    assert (Hr' : In r (rows df)).
    { rewrite Hrows in Hr. now apply filter_In in Hr as [Hr _]. }
    set (raw := field (columns v)
                  (map (fun c => cell_text (dates_only v c) (r c)) (columns v))).
    assert (Hraw : forall c, In c (columns v) ->
                     raw c = parse_cell (cell_text (dates_only v c) (r c))).
    { intros c Hc.
      apply (field_of_row (columns v) (fun c => cell_text (dates_only v c) (r c)) c Hc). }
    split.
    + intros Hd. rewrite loaded_row_date by assumption.
      fold (has_column col v). rewrite (In_has_column col v Hcol).
      rewrite (Hraw col Hcol).
      assert (Hns : is_str (r col) = false).
      { apply (loaded_date_not_str df r col Hl Hd); [|exact Hr'].
        unfold has_column. rewrite <- Hcols. now apply In_has_column. }
      destruct (r col) as [|s|t]; [reflexivity|discriminate|].
      unfold parse_cell.
      destruct (existsb _ na_values); [reflexivity|].
      cbn [to_datetime_cell]. now rewrite strptime_exported.
    + intros Hd.
      assert (Hplain : raw col = r col).
      { rewrite (Hraw col Hcol).
        destruct (loaded_text_plain df r col Hl Hr' Hd) as [->|(s & -> & Hs)];
          [reflexivity|exact Hs]. }
      destruct (String.eqb_spec col "Category") as [->|Hc].
      { rewrite loaded_row_category. fold raw. rewrite Hplain.
        pose proof (loaded_category_str df r Hl Hr') as Hs.
        now destruct (r "Category"). }
      destruct (String.eqb_spec col "Review_Flag") as [->|Hf].
      { rewrite loaded_row_review_flag. fold raw. rewrite Hplain.
        pose proof (loaded_review_flag_str df r Hl Hr') as Hs.
        now destruct (r "Review_Flag"). }
      rewrite loaded_row_other by assumption. exact Hplain.
Qed.

(** The sample table, exported unfiltered and read back. *)
Lemma export_reload_loses_dates_witness :
  filtered_view sample_table
  /\ forallb (text_column sample_table) (columns sample_table) = true
  /\ written_whole sample_table = true
  /\ begins_with_bom (list_ascii_of_string (hd "" (columns sample_table))) = false
  /\ fs_with (to_csv sample_table) data_file = Some (to_csv sample_table)
  /\ exists df,
      load_data (fs_with (to_csv sample_table)) data_file = ([], Ok (Some df))
      /\ columns df = columns sample_table
      /\ Forall2 (fun r r' : Row =>
                    forall col,
                      In col (columns sample_table) ->
                      (In col date_columns -> r' col = NaN)
                      /\ (~ In col date_columns -> r' col = r col))
                 (rows sample_table) (rows df).
Proof.
  assert (Hv : filtered_view sample_table).
  { exists sample_table, (Str "All"), "All". split; [|reflexivity].
    exists (fs_with sample_csv), data_file, []. vm_compute. reflexivity. }
  assert (Ht : forallb (text_column sample_table) (columns sample_table) = true)
    by (vm_compute; reflexivity).
  assert (Hw : written_whole sample_table = true) by (vm_compute; reflexivity).
  split; [exact Hv|]. split; [exact Ht|]. split; [exact Hw|].
  split; [reflexivity|]. split; [reflexivity|].
  exact (export_reload_loses_dates sample_table (fs_with (to_csv sample_table))
           data_file Hv Ht Hw eq_refl eq_refl).
Defined.

(** ** How main ends *)

(** X12.  When loading fails, the page holds the header, the rule, the
    message of [load_data] and one more message, and [main] returns:
    no selector, metric, chart or table is shown. *)
Theorem main_stops_on_load_failure fs ui e :
  load_data_try fs data_file = Raise e ->
  main fs ui
  = ([StMarkdown MainHeader; StMarkdown Divider;
      StError ("Error loading data: " ++ exn_message e);
      StError "Failed to load data. Please check the file path and format."],
     Ok tt).
Proof.
  intros H. unfold main, load_data. rewrite H. reflexivity.
Qed.

(** The page when the file does not exist. *)
Lemma main_stops_on_load_failure_witness :
  load_data_try no_file data_file = Raise (FileNotFoundError data_file)
  /\ main no_file first_visit
     = ([StMarkdown MainHeader; StMarkdown Divider;
         StError ("Error loading data: "
                  ++ exn_message (FileNotFoundError data_file));
         StError "Failed to load data. Please check the file path and format."],
        Ok tt).
Proof.
  split; [reflexivity|].
  exact (main_stops_on_load_failure no_file first_visit
           (FileNotFoundError data_file) eq_refl).
Defined.

(** X13.  When the file loads with a Category column of texts, how [main]
    ends depends on the Resolved and Summary columns and on whether the
    view selected has rows.  Without a Resolved column it stops with
    KeyError('Resolved') at the metrics.  With one, and a view without
    rows, it stops with a ValueError at the bar chart.  With one, and a
    view with rows that gives the timeline a month to show, it stops with
    a KeyError at the Category Breakdown when there is no Summary column,
    and runs to the footer, raising nothing, when there is one. *)
Theorem main_outcome fs ui raw df v :
  read_csv fs data_file = Ok raw ->
  text_column raw "Category" = true ->
  load_data_try fs data_file = Ok df ->
  selected_view df ui = Ok v ->
  (has_column "Resolved" df = false ->
   snd (main fs ui) = Raise (KeyError "Resolved"))
  /\ (has_column "Resolved" df = true -> len v = 0 ->
      exists msg, snd (main fs ui) = Raise (ValueError msg))
  /\ (has_column "Resolved" df = true -> 0 < len v -> some_created v = true ->
      has_column "Summary" df = false ->
      exists msg, snd (main fs ui) = Raise (KeyError msg))
  /\ (has_column "Resolved" df = true -> 0 < len v -> some_created v = true ->
      has_column "Summary" df = true ->
      snd (main fs ui) = Ok tt).
Proof.
  intros _ _ H Hsel.
  assert (Hl : loaded df) by (exists fs, data_file, []; now apply load_data_some).
  destruct (loaded_columns df Hl) as [Hcat Hflag].
  destruct (selected_view_spec df ui Hl)
    as (values & v' & Hvalues & Hview & Hsel' & Hv & Hcols).
  assert (v' = v) by congruence. subst v'.
  assert (Hvcols : forall c, has_column c v = has_column c df)
    by (intros c; unfold has_column; now rewrite Hcols).
  rewrite (main_end fs ui df v H Hsel).
  split; [|split; [|split]].
  - intros Hres. unfold create_summary_metrics.
    rewrite (getitem_ok v "Review_Flag"), (getitem_ok v "Category")
      by (rewrite Hvcols; assumption).
    rewrite (getitem_raise v "Resolved") by (now rewrite Hvcols).
    reflexivity.
  - intros Hres Hz.
    rewrite create_summary_metrics_spec by (rewrite Hvcols; assumption).
    cbn [bind].
    destruct (bar_chart_refused v) as (msg & ->);
      [rewrite Hvcols; assumption|exact Hz|]. cbn [bind]. eauto.
  - intros Hres Hpos _ Hsum.
    rewrite create_summary_metrics_spec by (rewrite Hvcols; assumption).
    rewrite (bar_chart_drawn v Hv Hpos). cbn [bind].
    unfold category_stats.
    rewrite (getitem_ok v "Category") by (rewrite Hvcols; assumption).
    rewrite agg_columns_summary by (rewrite Hvcols; assumption).
    cbn [bind]. eauto.
  - intros Hres Hpos _ Hsum.
    rewrite create_summary_metrics_spec by (rewrite Hvcols; assumption).
    rewrite (bar_chart_drawn v Hv Hpos). cbn [bind].
    destruct (category_totals_count_summaries v Hv) as (stats & -> & _);
      try (rewrite Hvcols; assumption).
    reflexivity.
Qed.

(** The file without a Summary column: [main] stops at the breakdown. *)
Lemma main_outcome_witness :
  read_csv (fs_with no_summary_csv) data_file = Ok no_summary_raw
  /\ text_column no_summary_raw "Category" = true
  /\ load_data_try (fs_with no_summary_csv) data_file = Ok no_summary_table
  /\ selected_view no_summary_table first_visit = Ok no_summary_table
  /\ exists msg,
      snd (main (fs_with no_summary_csv) first_visit) = Raise (KeyError msg).
Proof.
  assert (H1 : read_csv (fs_with no_summary_csv) data_file = Ok no_summary_raw)
    by (vm_compute; reflexivity).
  assert (H2 : text_column no_summary_raw "Category" = true)
    by (vm_compute; reflexivity).
  assert (H3 : load_data_try (fs_with no_summary_csv) data_file = Ok no_summary_table)
    by (vm_compute; reflexivity).
  assert (H4 : selected_view no_summary_table first_visit = Ok no_summary_table)
    by (vm_compute; reflexivity).
  split; [exact H1|]. split; [exact H2|]. split; [exact H3|]. split; [exact H4|].
  apply (main_outcome (fs_with no_summary_csv) first_visit
           no_summary_raw no_summary_table no_summary_table H1 H2 H3 H4);
    vm_compute; first [reflexivity | repeat constructor].
Defined.

(** ** Bounds of the metrics *)

Lemma unique_length s : List.length (unique s) <= List.length s.
Proof.
  induction s as [|c s IH]; simpl; [lia|].
  pose proof (filter_length_le (fun x => negb (cell_same x c)) (unique s)). lia.
Qed.

Lemma percent_delta_bounds part total_issues q :
  part <= total_issues ->
  percent_delta part total_issues = Ok (DeltaPercent q) ->
  (0 <= q <= 100)%Q.
Proof.
  intros Hle. unfold percent_delta, truediv.
  destruct (Nat.ltb_spec 0 total_issues) as [Hpos|]; [|discriminate].
  destruct (Nat.eqb_spec total_issues 0) as [|Hne]; [lia|]. cbn [bind].
  intros H. injection H as <-.
  assert (Hz : Z.pos (Pos.of_nat total_issues) = Z.of_nat total_issues).
  { rewrite <- positive_nat_Z, Nat2Pos.id by assumption. reflexivity. }
  unfold Qle, Qmult, inject_Z. cbn [Qnum Qden]. rewrite Pos.mul_1_r, Hz. lia.
Qed.

(** X14.  For every filtered view with a Resolved column, the metrics are
    within bounds: the flagged, the resolved and the distinct categories
    are each no more than the rows of the view, a view with rows has at
    least one category, and the two percentages lie between 0 and 100. *)
Theorem metrics_within_bounds v :
  filtered_view v ->
  has_column "Resolved" v = true ->
  exists flagged cats resolved,
    create_summary_metrics v = Ok (len v, flagged, cats, resolved)
    /\ flagged <= len v /\ resolved <= len v /\ cats <= len v
    /\ (0 < len v -> 0 < cats)
    /\ (forall q, percent_delta flagged (len v) = Ok (DeltaPercent q) ->
                  (0 <= q <= 100)%Q)
    /\ (forall q, percent_delta resolved (len v) = Ok (DeltaPercent q) ->
                  (0 <= q <= 100)%Q).
Proof.
  intros Hv Hres. destruct (filtered_view_columns v Hv) as [Hcat Hflag].
  do 3 eexists. split; [now apply create_summary_metrics_spec|].
  assert (Hf : flagged_count v <= len v) by apply filter_length_le.
  assert (Hr : List.length (filter (fun r : Row => notna (r "Resolved")) (rows v))
               <= len v) by apply filter_length_le.
  split; [exact Hf|]. split; [exact Hr|].
  set (s := map (fun r : Row => r "Category") (rows v)).
  split; [|split; [|split]].
  - unfold nunique, len.
    pose proof (filter_length_le notna (unique s)).
    pose proof (unique_length s). unfold s in *. rewrite length_map in *. lia.
  - intros Hpos. unfold nunique, len in *.
    destruct (rows v) as [|r rs] eqn:E; [cbn in Hpos; lia|].
    assert (Hr0 : In r (rows v)) by (rewrite E; now left).
    destruct (filtered_view_strings v r Hv Hr0) as [Hs _].
    assert (Hin : In (r "Category") (filter notna (unique s))).
    { apply filter_In. split; [|now destruct (r "Category")].
      apply unique_In. unfold s. now left. }
    destruct (filter notna (unique s)); [destruct Hin|cbn; lia].
  - intros q. now apply percent_delta_bounds.
  - intros q. now apply percent_delta_bounds.
Qed.

(** The metrics of the sample table. *)
Lemma metrics_within_bounds_witness :
  filtered_view sample_table
  /\ has_column "Resolved" sample_table = true
  /\ exists flagged cats resolved,
      create_summary_metrics sample_table = Ok (3, flagged, cats, resolved)
      /\ flagged <= 3 /\ resolved <= 3 /\ cats <= 3
      /\ (0 < 3 -> 0 < cats)
      /\ (forall q, percent_delta flagged 3 = Ok (DeltaPercent q) ->
                    (0 <= q <= 100)%Q)
      /\ (forall q, percent_delta resolved 3 = Ok (DeltaPercent q) ->
                    (0 <= q <= 100)%Q).
Proof.
  assert (Hv : filtered_view sample_table).
  { exists sample_table, (Str "All"), "All". split; [|reflexivity].
    exists (fs_with sample_csv), data_file, []. vm_compute. reflexivity. }
  split; [exact Hv|]. split; [reflexivity|].
  exact (metrics_within_bounds sample_table Hv eq_refl).
Defined.

(** ** The metrics of a narrowed view *)

Lemma unique_constant s c :
  s <> [] -> (forall x, In x s -> x = c) -> unique s = [c].
Proof.
  induction s as [|a s IH]; intros Hne Hall; [contradiction|]. simpl.
  rewrite (Hall a) by now left. f_equal.
  apply filter_none. intros x Hx. apply (proj1 (unique_In _ _)) in Hx.
  rewrite (Hall x) by now right.
  now rewrite (proj2 (cell_same_eq c c) eq_refl).
Qed.

Lemma narrowed_counts df selected_category selected_review :
  loaded df ->
  (forall v, apply_filters df selected_category "Flagged for Review" = Ok v ->
             flagged_count v = len v)
  /\ (forall v, apply_filters df selected_category "Auto-Assigned" = Ok v ->
                flagged_count v = 0)
  /\ (forall v, selected_category <> Str "All" ->
                apply_filters df selected_category selected_review = Ok v ->
                0 < len v ->
                nunique (map (fun r : Row => r "Category") (rows v)) = 1).
Proof.
  intros Hl. destruct (loaded_columns df Hl) as [Hcat Hflag].
  split; [|split].
  - intros v Hv. rewrite (apply_filters_spec df _ _ Hcat Hflag) in Hv.
    injection Hv as <-. unfold flagged_count, len. cbn [rows String.eqb Ascii.eqb Bool.eqb].
    f_equal. apply filter_all. intros r Hr. now apply filter_In in Hr as [_ Hr].
  - intros v Hv. rewrite (apply_filters_spec df _ _ Hcat Hflag) in Hv.
    injection Hv as <-. unfold flagged_count. cbn [rows String.eqb Ascii.eqb Bool.eqb].
    rewrite filter_none; [reflexivity|].
    intros r Hr. apply filter_In in Hr as [_ Hr]. apply cell_eqb_eq in Hr.
    rewrite Hr. reflexivity.
  - intros v Hne Hv Hpos. rewrite (apply_filters_spec df _ _ Hcat Hflag) in Hv.
    injection Hv as <-. unfold len in Hpos. cbn [rows] in *.
    assert (E : cell_eqb selected_category (Str "All") = false).
    { destruct (cell_eqb selected_category (Str "All")) eqn:E; [|reflexivity].
      apply cell_eqb_eq in E. contradiction. }
    rewrite E in *. cbn [negb] in *.
    match type of Hpos with
    | 0 < List.length ?x => set (l := x) in *
    end.
    assert (Hall : forall x, In x (map (fun r : Row => r "Category") l)
                             -> x = selected_category).
    { intros x Hx. apply in_map_iff in Hx as (r & <- & Hr).
      apply filter_In in Hr as [Hr _]. apply filter_In in Hr as [_ Hr].
      now apply cell_eqb_eq. }
    assert (Hrows : forall r, In r l -> In r (rows df)).
    { intros r Hr. apply filter_In in Hr as [Hr _]. now apply filter_In in Hr as [Hr _]. }
    clearbody l.
    unfold nunique. rewrite (unique_constant _ selected_category).
    + destruct l as [|r l']; [cbn in Hpos; lia|].
      pose proof (Hall (r "Category") (or_introl eq_refl)) as Hc.
      pose proof (loaded_category_str df r Hl (Hrows r (or_introl eq_refl))) as Hs.
      rewrite Hc in Hs. now destruct selected_category.
    + destruct l; [cbn in Hpos; lia|discriminate].
    + exact Hall.
Qed.

(** X15.  On a loaded table with a Resolved column, under any choice of
    category, [create_summary_metrics] returns, for the view "Flagged for
    Review", a flagged count equal to the total: the metric shows 100% of
    the rows; for the view "Auto-Assigned", a flagged count of zero; and
    for a view with rows for one category other than "All", under any
    choice of review status, one category. *)
Theorem metrics_of_narrowed_views df selected_category selected_review :
  loaded df ->
  has_column "Resolved" df = true ->
  (forall v, apply_filters df selected_category "Flagged for Review" = Ok v ->
             exists cats resolved,
               create_summary_metrics v = Ok (len v, len v, cats, resolved))
  /\ (forall v, apply_filters df selected_category "Auto-Assigned" = Ok v ->
                exists cats resolved,
                  create_summary_metrics v = Ok (len v, 0, cats, resolved))
  /\ (forall v, selected_category <> Str "All" ->
                apply_filters df selected_category selected_review = Ok v ->
                0 < len v ->
                exists flagged resolved,
                  create_summary_metrics v = Ok (len v, flagged, 1, resolved)).
Proof.
  intros Hl Hres. destruct (loaded_columns df Hl) as [Hcat Hflag].
  destruct (narrowed_counts df selected_category selected_review Hl)
    as (Hyes & Hno & Hone).
  assert (Hmetrics : forall sr v,
            apply_filters df selected_category sr = Ok v ->
            create_summary_metrics v
            = Ok (len v, flagged_count v,
                  nunique (map (fun r : Row => r "Category") (rows v)),
                  List.length (filter (fun r : Row => notna (r "Resolved")) (rows v)))).
  { intros sr v Hv. pose proof Hv as Hv'.
    rewrite (apply_filters_spec df _ _ Hcat Hflag) in Hv'. injection Hv' as <-.
    now apply create_summary_metrics_spec. }
  split; [|split].
  - intros v Hv. rewrite (Hmetrics _ v Hv), (Hyes v Hv). eauto.
  - intros v Hv. rewrite (Hmetrics _ v Hv), (Hno v Hv). eauto.
  - intros v Hne Hv Hpos. rewrite (Hmetrics _ v Hv), (Hone v Hne Hv Hpos). eauto.
Qed.

(** The sample table narrowed to the category "Bug". *)
Lemma metrics_of_narrowed_views_witness :
  loaded sample_table
  /\ has_column "Resolved" sample_table = true
  /\ (forall v, apply_filters sample_table (Str "Bug") "Flagged for Review" = Ok v ->
                exists cats resolved,
                  create_summary_metrics v = Ok (len v, len v, cats, resolved))
  /\ (forall v, apply_filters sample_table (Str "Bug") "Auto-Assigned" = Ok v ->
                exists cats resolved,
                  create_summary_metrics v = Ok (len v, 0, cats, resolved))
  /\ (forall v, Str "Bug" <> Str "All" ->
                apply_filters sample_table (Str "Bug") "All" = Ok v ->
                0 < len v ->
                exists flagged resolved,
                  create_summary_metrics v = Ok (len v, flagged, 1, resolved)).
Proof.
  assert (Hl : loaded sample_table)
    by (exists (fs_with sample_csv), data_file, []; vm_compute; reflexivity).
  split; [exact Hl|]. split; [reflexivity|].
  exact (metrics_of_narrowed_views sample_table (Str "Bug") "All" Hl eq_refl).
Defined.
